(** * MAF agent memory and bead assignment: a shallow embedding

    The development follows the Python sources of the repository:

    - [memory-service-fallback.py]  ([SimpleMemoryService]), module [Fallback];
    - [memory-service-unified.py]   ([UnifiedMemoryService]), module [Unified];
    - [bead-assigner.py]            ([BeadAssigner]), module [Beads];

    and, for the parts of the skill retrieval engine that the specification
    describes but whose code is not among the sources, definitions written
    from the specification (module [SkillEngine]).  Module [Samples] holds
    the concrete stores and services of the examples.

    Conventions.  A Python exception is a value of [Result]; a directory is a
    finite map from file names to file contents; the clock, the directory
    listing of [bd ready] and the Memlayer backend are explicit inputs.
    Text is ASCII: [lower], [strip] and the case-insensitive searches treat
    the characters above 127 as letters without case that are not white
    space.  Messages printed on standard output are not modelled. *)

From Stdlib Require Import Ascii String ZArith QArith Qround Qminmax Lqa.
From stdpp Require Import gmap strings list fin_maps.

Local Open Scope string_scope.
Local Open Scope list_scope.
Local Open Scope Z_scope.
Local Set Warnings "-register-all".

(** ** Exceptions *)

Inductive Exn : Type :=
  | JSONDecodeError
  | AttributeError
  | TypeError
  | ValueError
  | OverflowError
  | BackendError (msg : string).

Inductive Result (A : Type) : Type :=
  | Ok (a : A)
  | Raise (e : Exn).
Arguments Ok {A} a.
Arguments Raise {A} e.

Global Instance Result_ret : MRet Result := fun A a => Ok a.
Global Instance Result_bind : MBind Result := fun A B f r =>
  match r with
  | Ok a => f a
  | Raise e => Raise e
  end.

Global Instance Result_fmap : FMap Result := fun A B f r =>
  match r with
  | Ok a => Ok (f a)
  | Raise e => Raise e
  end.

(** [for x in xs: acc = body(acc, x)], stopping at the first exception. *)
Fixpoint foldM {A B : Type} (body : B → A → Result B) (acc : B) (xs : list A)
  : Result B :=
  match xs with
  | [] => Ok acc
  | x :: xs' => acc' ← body acc x; foldM body acc' xs'
  end.

(** ** Python strings *)

Module PyStr.

Definition code (c : ascii) : N := N_of_ascii c.

(** [str.isspace] on one ASCII character. *)
Definition is_space (c : ascii) : bool :=
  let n := code c in
  ((9 <=? n) && (n <=? 13) || (28 <=? n) && (n <=? 32))%N.

Definition lower_char (c : ascii) : ascii :=
  let n := code c in
  if ((65 <=? n) && (n <=? 90))%N then ascii_of_N (n + 32) else c.

Fixpoint lower (s : string) : string :=
  match s with
  | EmptyString => EmptyString
  | String c s' => String (lower_char c) (lower s')
  end.

Fixpoint lstrip (s : string) : string :=
  match s with
  | EmptyString => EmptyString
  | String c s' => if is_space c then lstrip s' else s
  end.

(** Drops trailing white space: a character is kept when something that
    is not white space follows it or it is not white space itself. *)
Fixpoint rstrip (s : string) : string :=
  match s with
  | EmptyString => EmptyString
  | String c s' =>
      match rstrip s' with
      | EmptyString => if is_space c then EmptyString else String c EmptyString
      | t => String c t
      end
  end.

Definition strip (s : string) : string := rstrip (lstrip s).

(** [sub in s]. *)
Fixpoint contains (sub s : string) : bool :=
  String.prefix sub s ||
  match s with
  | EmptyString => false
  | String _ s' => contains sub s'
  end.

(** [re.search(pat, s, re.IGNORECASE)] for a pattern without
    metacharacters. *)
Definition search_ignorecase (pat s : string) : bool :=
  contains (lower pat) (lower s).

(** [s.split('\n')]. *)
Fixpoint split_lines (s : string) : list string :=
  match s with
  | EmptyString => [EmptyString]
  | String c s' =>
      if Ascii.eqb c "010"%char then EmptyString :: split_lines s'
      else match split_lines s' with
           | [] => [String c EmptyString]
           | l :: ls => String c l :: ls
           end
  end.

(** [s.replace(old, new)] for a non-empty [old]: occurrences are replaced
    from left to right without overlap.  [skip] counts the characters of
    a match that are still to be dropped. *)
Fixpoint replace_from (old new : string) (skip : nat) (s : string) : string :=
  match s with
  | EmptyString => EmptyString
  | String c s' =>
      match skip with
      | S k => replace_from old new k s'
      | O =>
          if String.prefix old s
          then new +:+ replace_from old new (String.length old - 1) s'
          else String c (replace_from old new 0 s')
      end
  end.

Definition replace (old new s : string) : string := replace_from old new 0 s.

Definition endswith (s suffix : string) : bool :=
  let n := String.length s in
  let k := String.length suffix in
  (k <=? n)%nat && String.eqb (String.substring (n - k) k s) suffix.

(** [any(k in s for k in keys)] *)
Definition any_in (keys : list string) (s : string) : bool :=
  existsb (fun k => contains k s) keys.

End PyStr.

(** ** Python slices *)

Module PySlice.

(** [l[start:]] *)
Definition from {A : Type} (start : Z) (l : list A) : list A :=
  let n := Z.of_nat (length l) in
  let i := if start <? 0 then Z.max (n + start) 0 else Z.min start n in
  drop (Z.to_nat i) l.

(** [l[:stop]] for a non-negative [stop]. *)
Definition upto {A : Type} (stop : nat) (l : list A) : list A := take stop l.

(** [l[-k:]] *)
Definition last_n {A : Type} (k : Z) (l : list A) : list A := from (- k) l.

End PySlice.

(** ** JSON values as Python sees them *)

(** What [json.loads] returns: [None], [bool], [int], [str], [list] and
    [dict] with string keys, in insertion order.  The services never write a
    float, and no operation below looks at the value of a number except for
    its truth value, so numbers are integers. *)
Inductive Json : Type :=
  | JNull
  | JBool (b : bool)
  | JNum (n : Z)
  | JStr (s : string)
  | JArr (xs : list Json)
  | JObj (kvs : list (string * Json)).

Module Py.

(** [bool(v)] *)
Definition truthy (v : Json) : bool :=
  match v with
  | JNull => false
  | JBool b => b
  | JNum n => negb (n =? 0)
  | JStr s => negb (String.eqb s "")
  | JArr xs => match xs with [] => false | _ => true end
  | JObj kvs => match kvs with [] => false | _ => true end
  end.

Fixpoint assoc (key : string) (kvs : list (string * Json)) : option Json :=
  match kvs with
  | [] => None
  | (k, v) :: kvs' => if String.eqb k key then Some v else assoc key kvs'
  end.

(** [v.get(key, dflt)]: only a [dict] has the method. *)
Definition get (v : Json) (key : string) (dflt : Json) : Result Json :=
  match v with
  | JObj kvs => Ok (default dflt (assoc key kvs))
  | _ => Raise AttributeError
  end.

(** [v.items()] *)
Definition items (v : Json) : Result (list (string * Json)) :=
  match v with
  | JObj kvs => Ok kvs
  | _ => Raise AttributeError
  end.

Fixpoint chars (s : string) : list Json :=
  match s with
  | EmptyString => []
  | String c s' => JStr (String c EmptyString) :: chars s'
  end.

(** [for item in v]: a list yields its elements, a string its characters,
    a dict its keys; nothing else is iterable. *)
Definition iter (v : Json) : Result (list Json) :=
  match v with
  | JArr xs => Ok xs
  | JStr s => Ok (chars s)
  | JObj kvs => Ok (map (fun kv => JStr kv.1) kvs)
  | _ => Raise TypeError
  end.

(** [len(v)] *)
Definition len (v : Json) : Result nat :=
  match v with
  | JArr xs => Ok (length xs)
  | JStr s => Ok (String.length s)
  | JObj kvs => Ok (length kvs)
  | _ => Raise TypeError
  end.

(** [v == s] for a string [s]. *)
Definition eq_str (v : Json) (s : string) : bool :=
  match v with
  | JStr t => String.eqb t s
  | _ => false
  end.

(** [hash(v)] succeeds: lists and dicts are unhashable. *)
Definition hashable (v : Json) : bool :=
  match v with
  | JArr _ | JObj _ => false
  | _ => true
  end.

(** [a == b] on hashable values; [True == 1] and [False == 0]. *)
Definition eq_scalar (a b : Json) : bool :=
  match a, b with
  | JNull, JNull => true
  | JStr s, JStr t => String.eqb s t
  | JBool x, JBool y => Bool.eqb x y
  | JNum x, JNum y => x =? y
  | JBool x, JNum y | JNum y, JBool x => (if x then 1 else 0) =? y
  | _, _ => false
  end.

(** [s.add(v)] on a set kept as a list without repetitions; the order in
    which Python lists a set is not specified, the model keeps the order
    of first insertion. *)
Definition set_add (v : Json) (s : list Json) : Result (list Json) :=
  if hashable v
  then Ok (if existsb (eq_scalar v) s then s else s ++ [v])
  else Raise TypeError.

(** An optional string argument: [None] or a [str]. *)
Definition opt_truthy (o : option string) : bool :=
  match o with
  | Some s => negb (String.eqb s "")
  | None => false
  end.

Definition of_opt (o : option string) : Json :=
  match o with
  | Some s => JStr s
  | None => JNull
  end.

End Py.

(** ** Files of JSON lines *)

(** A line of a [.jsonl] file, by what the reader does with it:
    [line.strip()] is empty ([Blank]); [json.loads(line)] returns [v]
    ([Doc v], which is also the line that [json.dump(v, f)] followed by a
    newline writes); or [json.loads(line)] raises [JSONDecodeError]
    ([Malformed], with the text of the line).  Files end in a newline. *)
Inductive Line : Type :=
  | Blank
  | Doc (v : Json)
  | Malformed (raw : string).

(** The storage directory: file name to lines. *)
Abbreviation FS := (gmap string (list Line)).

(** The loop [for line in f: if line.strip(): memories.append(json.loads(line))]. *)
Fixpoint read_jsonl (ls : list Line) : Result (list Json) :=
  match ls with
  | [] => Ok []
  | Blank :: ls' => read_jsonl ls'
  | Doc v :: ls' => vs ← read_jsonl ls'; Ok (v :: vs)
  | Malformed _ :: _ => Raise JSONDecodeError
  end.

(** The same loop with [except json.JSONDecodeError: continue]. *)
Fixpoint read_jsonl_lenient (ls : list Line) : list Json :=
  match ls with
  | [] => []
  | Doc v :: ls' => v :: read_jsonl_lenient ls'
  | _ :: ls' => read_jsonl_lenient ls'
  end.

(** [for memory in memories: json.dump(memory, f); f.write('\n')] *)
Definition dump_jsonl (memories : list Json) : list Line := map Doc memories.

Definition corrupt (ls : list Line) : Prop := ∃ raw, Malformed raw ∈ ls.

(** ** [datetime] *)

(** A [datetime]: microseconds since 0001-01-01T00:00:00, and whether it
    carries a UTC offset. *)
Record DateTime : Type := { aware : bool; micros : Z }.

Module PyTime.

Definition MICROS_PER_DAY : Z := 86400000000.
(** [datetime.max] is 9999-12-31T23:59:59.999999, day 3652059 of the
    calendar. *)
Definition MAX_MICROS : Z := 3652059 * MICROS_PER_DAY - 1.
Definition MAX_DELTA_DAYS : Z := 999999999.

(** [now - timedelta(days=days)] for a naive [now]. *)
Definition minus_days (now days : Z) : Result Z :=
  if MAX_DELTA_DAYS <? Z.abs days then Raise OverflowError
  else
    let t := now - days * MICROS_PER_DAY in
    if (0 <=? t) && (t <=? MAX_MICROS) then Ok t else Raise OverflowError.

End PyTime.

(** ** [SimpleMemoryService] (memory-service-fallback.py) *)

Module Fallback.

Definition CATEGORIES : list string :=
  ["code_changes"; "decisions"; "context"; "errors"; "communication"].

(** The result of a retrieval: category name to entries. *)
Abbreviation Organized := (list (string * list Json)).

Definition _empty_categories : Organized := map (fun c => (c, [])) CATEGORIES.

Definition agent_file (agent_name : string) : string :=
  agent_name +:+ "_memories.jsonl".

(** *** [extract_memories] *)

Definition CODE_KEYWORDS : list string :=
  ["edit:"; "create:"; "modify:"; "file:"; "path:"].
Definition CODE_EXTENSIONS : list string :=
  [".ts"; ".js"; ".py"; ".json"; ".yaml"; ".md"].
Definition decision_patterns : list string :=
  ["decided to"; "will use"; "chose to"; "going to"; "plan to";
   "architecture"; "design"].
Definition error_patterns : list string :=
  ["error:"; "fix:"; "bug:"; "issue:"; "problem:"; "solution:"].

Definition code_change_of (line : string) : list string :=
  if PyStr.any_in CODE_KEYWORDS (PyStr.lower line) then [PyStr.strip line]
  else if PyStr.any_in CODE_EXTENSIONS line then
    if (String.length (PyStr.strip line) <? 200)%nat then [PyStr.strip line]
    else []
  else [].

Definition matching (patterns : list string) (lines : list string)
  : list string :=
  map PyStr.strip
    (filter (fun line =>
       Is_true (existsb (fun p => PyStr.search_ignorecase p line) patterns))
       lines).

Definition is_context_line (line : string) : bool :=
  PyStr.contains "working on" (PyStr.lower line)
  || PyStr.contains "task" (PyStr.lower line).

Definition extract_code_changes (lines : list string) : list string :=
  flat_map code_change_of lines.
Definition extract_decisions (lines : list string) : list string :=
  matching decision_patterns lines.
Definition extract_context (bead_id : option string) (lines : list string)
  : list string :=
  (if Py.opt_truthy bead_id
   then ["Current bead: " +:+ default "" bead_id] else [])
  ++ map PyStr.strip (filter (fun l => Is_true (is_context_line l)) lines).
Definition extract_errors (lines : list string) : list string :=
  matching error_patterns lines.

Definition strs (l : list string) : Json := JArr (map JStr l).

(** [now] is [datetime.now().isoformat()]. *)
Definition extract_memories (now : string) (content agent_name : string)
    (bead_id : option string) : Json :=
  let lines := PyStr.split_lines content in
  JObj [("agent", JStr agent_name);
        ("timestamp", JStr now);
        ("bead_id", Py.of_opt bead_id);
        ("categories",
         JObj [("code_changes", strs (PySlice.upto 10 (extract_code_changes lines)));
               ("decisions", strs (PySlice.upto 5 (extract_decisions lines)));
               ("context", strs (PySlice.upto 5 (extract_context bead_id lines)));
               ("errors", strs (PySlice.upto 5 (extract_errors lines)));
               ("communication", JArr [])])].

(** [memories["categories"][name]] *)
Definition category (memory : Json) (name : string) : Result Json :=
  cats ← Py.get memory "categories" JNull;
  Py.get cats name JNull.

(** The lines of a file; none when the file is missing. *)
Definition entries (fs : FS) (file_path : string) : list Line :=
  default [] (fs !! file_path).

(** A line that [store_memories] wrote. *)
Definition written_by_service (l : Line) : Prop :=
  ∃ now content agent_name bead_id,
    l = Doc (extract_memories now content agent_name bead_id).

(** *** [_cleanup_old_memories] *)

Definition _cleanup_old_memories (fs : FS) (file_path : string) (keep : Z)
  : FS * Result () :=
  match fs !! file_path with
  | None => (fs, Ok ())
  | Some lines =>
      match read_jsonl lines with
      | Raise e => (fs, Raise e)
      | Ok memories =>
          (<[file_path := dump_jsonl (PySlice.last_n keep memories)]> fs, Ok ())
      end
  end.


Section Service.

(** [DEFAULT_MAX_MEMORIES]: the integer in [MAF_MEMORY_MAX_PER_AGENT],
    200 when the variable is not set. *)
Variable DEFAULT_MAX_MEMORIES : Z.

(** [datetime.fromisoformat]; [None] stands for [ValueError]. *)
Variable fromisoformat : string → option DateTime.

(** *** [store_memories] *)

(** [open(agent_file, 'a')] creates the file when it is missing. *)
Definition append_line (fs : FS) (file : string) (l : Line) : FS :=
  <[file := default [] (fs !! file) ++ [l]]> fs.

Definition store_memories (now : string) (fs : FS)
    (content agent_name : string) (bead_id : option string)
  : FS * Result Json :=
  let memories := extract_memories now content agent_name bead_id in
  let fs1 := append_line fs (agent_file agent_name) (Doc memories) in
  match _cleanup_old_memories fs1 (agent_file agent_name) DEFAULT_MAX_MEMORIES with
  | (fs2, Ok _) => (fs2, Ok memories)
  | (fs2, Raise e) => (fs2, Raise e)
  end.

(** *** [retrieve_relevant_memories] *)

(** [[m for m in memories if m.get('bead_id') == bead_id]] *)
Fixpoint filter_bead (bead_id : string) (memories : list Json)
  : Result (list Json) :=
  match memories with
  | [] => Ok []
  | m :: ms =>
      b ← Py.get m "bead_id" JNull;
      rest ← filter_bead bead_id ms;
      Ok (if Py.eq_str b bead_id then m :: rest else rest)
  end.

(** [organized[category].append(entry)] for each entry. *)
Fixpoint extend (category : string) (entries : list Json) (o : Organized)
  : Organized :=
  match o with
  | [] => []
  | (c, es) :: o' =>
      if String.eqb c category then (c, es ++ entries) :: o'
      else (c, es) :: extend category entries o'
  end.

Definition has_category (category : string) (o : Organized) : bool :=
  existsb (fun ce => String.eqb ce.1 category) o.

Definition entry (memory item : Json) : Result Json :=
  ts ← Py.get memory "timestamp" JNull;
  b ← Py.get memory "bead_id" JNull;
  Ok (JObj [("content", item); ("timestamp", ts); ("bead_id", b)]).

Definition organize_category (memory : Json) (o : Organized)
    (ci : string * Json) : Result Organized :=
  if has_category ci.1 o && Py.truthy ci.2 then
    its ← Py.iter ci.2;
    es ← foldM (fun acc item => e ← entry memory item; Ok (acc ++ [e])) [] its;
    Ok (extend ci.1 es o)
  else Ok o.

Definition organize_memory (o : Organized) (memory : Json)
  : Result Organized :=
  cats ← Py.get memory "categories" (JObj []);
  cis ← Py.items cats;
  foldM (organize_category memory) o cis.

Definition retrieve_relevant_memories (fs : FS) (query : string)
    (agent_name bead_id : option string) (limit : Z) : Result Organized :=
  if negb (Py.opt_truthy agent_name) then Ok _empty_categories
  else
    match fs !! agent_file (default "" agent_name) with
    | None => Ok _empty_categories
    | Some lines =>
        memories ← read_jsonl lines;
        memories ← (if Py.opt_truthy bead_id
                    then filter_bead (default "" bead_id) memories
                    else Ok memories);
        let memories :=
          if negb (limit =? 0) then PySlice.last_n limit memories
          else memories in
        foldM organize_memory _empty_categories memories
    end.

(** *** [get_agent_summary] *)

Record Summary : Type := {
  agent : string;
  total_memories : nat;
  categories : list (string * nat);
  recent_beads : list Json
}.

(** [d[category] = d.get(category, 0) + n] *)
Fixpoint bump (category : string) (n : nat) (d : list (string * nat))
  : list (string * nat) :=
  match d with
  | [] => [(category, n)]
  | (c, k) :: d' =>
      if String.eqb c category then (c, (k + n)%nat) :: d'
      else (c, k) :: bump category n d'
  end.

Definition summarize_memory (acc : list (string * nat) * list Json)
    (memory : Json) : Result (list (string * nat) * list Json) :=
  cats ← Py.get memory "categories" (JObj []);
  cis ← Py.items cats;
  counts ← foldM (fun d ci => n ← Py.len ci.2; Ok (bump ci.1 n d)) acc.1 cis;
  b ← Py.get memory "bead_id" JNull;
  beads ← (if Py.truthy b then Py.set_add b acc.2 else Ok acc.2);
  Ok (counts, beads).

Definition SUMMARY_WINDOW : Z := 20.

Definition get_agent_summary (fs : FS) (agent_name : string) (hours : Z)
  : Result Summary :=
  match fs !! agent_file agent_name with
  | None =>
      Ok {| agent := agent_name; total_memories := 0;
            categories := []; recent_beads := [] |}
  | Some lines =>
      memories ← read_jsonl lines;
      let memories := PySlice.last_n SUMMARY_WINDOW memories in
      acc ← foldM summarize_memory ([], []) memories;
      Ok {| agent := agent_name; total_memories := length memories;
            categories := acc.1; recent_beads := acc.2 |}
  end.

(** *** [clean_memories] *)

Record Results : Type := {
  scanned_files : nat;
  memories_before : nat;
  memories_deleted : nat;
  memories_kept : nat;
  affected_agents : list string;
  affected_files : list string;
  dry_run : bool
}.

Definition initial_results (dry : bool) : Results :=
  {| scanned_files := 0; memories_before := 0; memories_deleted := 0;
     memories_kept := 0; affected_agents := []; affected_files := [];
     dry_run := dry |}.

(** The four counters of a report. *)
Definition counts (r : Results) : nat * nat * nat * nat :=
  (scanned_files r, memories_before r, memories_deleted r, memories_kept r).

(** A report with its [dry_run] entry replaced. *)
Definition with_dry_run (dry : bool) (r : Results) : Results :=
  {| scanned_files := scanned_files r;
     memories_before := memories_before r;
     memories_deleted := memories_deleted r;
     memories_kept := memories_kept r;
     affected_agents := affected_agents r;
     affected_files := affected_files r;
     dry_run := dry |}.

(** [storage_path.glob("*_memories.jsonl")], in the order of the
    directory listing. *)
Definition glob (fs : FS) : list string :=
  filter (fun p => Is_true (PyStr.endswith p "_memories.jsonl"))
         (map_to_list fs).*1.

(** [file_path.stem] of a name that ends in [.jsonl]. *)
Definition stem (name : string) : string :=
  String.substring 0 (String.length name - 6) name.

Definition scope_by_age (scope : string) : bool :=
  String.eqb scope "age" || String.eqb scope "all".

(** The body of [for memory in memories] up to [should_delete]: a
    timestamp that is not a string or does not parse keeps the memory
    ([AttributeError] and [ValueError] are caught); comparing an aware
    time with the naive cutoff raises [TypeError], which is not. *)
Definition should_delete (cutoff : Z) (scope : string) (memory : Json)
  : Result bool :=
  ts ← Py.get memory "timestamp" (JStr "");
  if scope_by_age scope then
    match ts with
    | JStr s =>
        match fromisoformat (PyStr.replace "Z" "+00:00" s) with
        | Some t => if aware t then Raise TypeError
                    else Ok (micros t <? cutoff)
        | None => Ok false
        end
    | _ => Ok false
    end
  else Ok false.

(** [(filtered_memories, deleted_count)] *)
Definition split_memory (cutoff : Z) (scope : string)
    (acc : list Json * nat) (memory : Json) : Result (list Json * nat) :=
  d ← should_delete cutoff scope memory;
  Ok (if d : bool then (acc.1, S acc.2) else (acc.1 ++ [memory], acc.2)).

Definition count_file (r : Results) (n : nat) : Results :=
  {| scanned_files := S (scanned_files r);
     memories_before := (memories_before r + n)%nat;
     memories_deleted := memories_deleted r;
     memories_kept := memories_kept r;
     affected_agents := affected_agents r;
     affected_files := affected_files r;
     dry_run := dry_run r |}.

Definition count_outcome (r : Results) (file_path : string)
    (deleted kept : nat) : Results :=
  let file_agent := PyStr.replace "_memories" "" (stem file_path) in
  let fresh := (0 <? deleted)%nat
               && negb (existsb (String.eqb file_agent) (affected_agents r)) in
  {| scanned_files := scanned_files r;
     memories_before := memories_before r;
     memories_deleted := (memories_deleted r + deleted)%nat;
     memories_kept := (memories_kept r + kept)%nat;
     affected_agents :=
       if fresh then affected_agents r ++ [file_agent] else affected_agents r;
     affected_files :=
       if fresh then affected_files r ++ [file_path] else affected_files r;
     dry_run := dry_run r |}.

(** One turn of [for file_path in memory_files], with its
    [except Exception: continue]. *)
Definition clean_file (dry : bool) (cutoff : Z) (scope : string)
    (st : FS * Results) (file_path : string) : FS * Results :=
  match st.1 !! file_path with
  | None => st
  | Some lines =>
      match read_jsonl_lenient lines with
      | [] => st
      | memories =>
          let r1 := count_file st.2 (length memories) in
          match foldM (split_memory cutoff scope) ([], O) memories with
          | Raise _ => (st.1, r1)
          | Ok (filtered, deleted) =>
              let r2 := count_outcome r1 file_path deleted (length filtered) in
              if negb dry && (0 <? deleted)%nat
              then (<[file_path := dump_jsonl filtered]> st.1, r2)
              else (st.1, r2)
          end
      end
  end.

(** [now] is [datetime.now()]. *)
Definition clean_memories (now : Z) (fs : FS) (agent_name : option string)
    (days : Z) (scope : string) (dry force : bool) : FS * Result Results :=
  let results := initial_results dry in
  match PyTime.minus_days now days with
  | Raise e => (fs, Raise e)
  | Ok cutoff =>
      match glob fs with
      | [] => (fs, Ok results)
      | memory_files =>
          let target := agent_file (default "" agent_name) in
          if Py.opt_truthy agent_name && negb (bool_decide (is_Some (fs !! target)))
          then (fs, Ok results)
          else
            let files := if Py.opt_truthy agent_name then [target]
                         else memory_files in
            let st := foldl (clean_file dry cutoff scope) (fs, results) files in
            (st.1, Ok st.2)
      end
  end.

End Service.

(** Every entry of a retrieval result carries the bead [b]. *)
Definition all_of_bead (b : string) (o : Organized) : Prop :=
  ∀ c es e, (c, es) ∈ o → e ∈ es → Py.get e "bead_id" JNull = Ok (JStr b).

(** The accounting of a cleaning report: what was deleted or kept was
    counted before, and every scanned file had a memory. *)
Definition accounted (r : Results) : Prop :=
  (memories_deleted r + memories_kept r ≤ memories_before r)%nat
  ∧ (scanned_files r ≤ memories_before r)%nat.

(** The memories of a file, as the cleaning pass reads them. *)
Definition memories_of (fs : FS) (file_path : string) : list Json :=
  read_jsonl_lenient (entries fs file_path).

Section Settled.

Variable fromisoformat : string → option DateTime.

(** A file on which the cleaning loop has nothing to delete: it either
    raises or counts no deletion. *)
Definition settled (cutoff : Z) (scope : string) (fs : FS)
    (file_path : string) : Prop :=
  ∀ filtered deleted,
    foldM (split_memory fromisoformat cutoff scope) ([], O)
          (memories_of fs file_path) = Ok (filtered, deleted) →
    deleted = O.

End Settled.

(** The beads of a summary after the memories in [seen]: each non-empty
    bead of a memory once, as a string, and nothing else. *)
Definition beads_of (seen : list Json) (beads : list Json) : Prop :=
  NoDup beads
  ∧ Forall (λ x, ∃ s, x = JStr s) beads
  ∧ ∀ b, JStr b ∈ beads
         ↔ b ≠ "" ∧ ∃ m, m ∈ seen ∧ Py.get m "bead_id" JNull = Ok (JStr b).

End Fallback.

(** ** [UnifiedMemoryService] (memory-service-unified.py) *)

Module Unified.

(** The Memlayer-backed [AgentMemoryService]: its embedding model and
    vector storage live outside the repository, so a call is an oracle
    that returns or raises. *)
Record Backend : Type := {
  backend_store : string → string → option string → Result Json;
  backend_retrieve :
    string → option string → option string → Z → Result Fallback.Organized
}.

Record Service : Type := {
  using_memlayer : bool;
  memlayer_service : option Backend
}.

Definition stop_using (svc : Service) : Service :=
  {| using_memlayer := false; memlayer_service := memlayer_service svc |}.

(** [self.using_memlayer and self.memlayer_service] *)
Definition active_backend (svc : Service) : option Backend :=
  if using_memlayer svc then memlayer_service svc else None.

Definition retrieve_relevant_memories (svc : Service) (fs : FS)
    (query : string) (agent_name bead_id : option string) (limit : Z)
  : Service * Result Fallback.Organized :=
  match active_backend svc with
  | Some be =>
      match backend_retrieve be query agent_name bead_id limit with
      | Ok r => (svc, Ok r)
      | Raise _ =>
          (stop_using svc,
           Fallback.retrieve_relevant_memories fs query agent_name bead_id limit)
      end
  | None =>
      (svc, Fallback.retrieve_relevant_memories fs query agent_name bead_id limit)
  end.

Definition store_memories (max_memories : Z) (now : string) (svc : Service)
    (fs : FS) (content agent_name : string) (bead_id : option string)
  : Service * (FS * Result Json) :=
  match active_backend svc with
  | Some be =>
      match backend_store be content agent_name bead_id with
      | Ok r => (svc, (fs, Ok r))
      | Raise _ =>
          (stop_using svc,
           Fallback.store_memories max_memories now fs content agent_name bead_id)
      end
  | None =>
      (svc, Fallback.store_memories max_memories now fs content agent_name bead_id)
  end.

(** The vector store cannot answer this call: Memlayer is not in use (it
    is not installed, was not initialised, or was given up after a
    failure), or its retrieval raises. *)
Definition unavailable (svc : Service) (query : string)
    (agent_name bead_id : option string) (limit : Z) : Prop :=
  match active_backend svc with
  | None => True
  | Some be => ∃ e, backend_retrieve be query agent_name bead_id limit = Raise e
  end.

End Unified.

(** ** [BeadAssigner] (bead-assigner.py) *)

Module Beads.

(** What [reserve_bead] writes; times are microseconds, as in [DateTime]. *)
Record Reservation : Type := {
  bead_id : string;
  agent_id : string;
  reserved_at : Z;
  expires_at : Z;
  status : string
}.

(** A file of the reservations directory: one that [json.load] and the
    [expires_at] lookup accept, or any other content. *)
Inductive ResFile : Type :=
  | Valid (r : Reservation)
  | Unreadable.

(** The reservations directory: the file [<bead_id>.json] is the entry of
    [bead_id]. *)
Abbreviation Store := (gmap string ResFile).

Definition MICROS_PER_HOUR : Z := 3600000000.

Definition is_bead_reserved (st : Store) (bead : string) : bool :=
  bool_decide (is_Some (st !! bead)).

(** [now] and [now'] are the two readings of [datetime.utcnow()]. *)
Definition reserve_bead (now now' : Z) (st : Store) (bead agent : string)
    (duration_hours : Z) : Store * bool :=
  if is_bead_reserved st bead then (st, false)
  else
    let reservation :=
      {| bead_id := bead; agent_id := agent; reserved_at := now;
         expires_at := now' + duration_hours * MICROS_PER_HOUR;
         status := "reserved" |} in
    (<[bead := Valid reservation]> st, true).

Definition release_bead (st : Store) (bead : string) : Store * bool :=
  if is_bead_reserved st bead then (delete bead st, true) else (st, false).

Definition DEFAULT_DURATION_HOURS : Z := 4.

(** [ready_beads] is what [get_ready_beads] returned. *)
Fixpoint assign_next_bead (now now' : Z) (st : Store)
    (ready_beads : list string) (agent : string) : Store * option string :=
  match ready_beads with
  | [] => (st, None)
  | bead :: rest =>
      if negb (is_bead_reserved st bead) then
        match reserve_bead now now' st bead agent DEFAULT_DURATION_HOURS with
        | (st', true) => (st', Some bead)
        | (st', false) => assign_next_bead now now' st' rest agent
        end
      else assign_next_bead now now' st rest agent
  end.

Definition expired (now : Z) (f : ResFile) : bool :=
  match f with
  | Valid r => expires_at r <? now
  | Unreadable => false
  end.

Definition cleanup_expired_reservations (now : Z) (st : Store) : Store :=
  filter (fun kv => ¬ Is_true (expired now kv.2)) st.

(** *** [get_ready_beads] *)

(** What [bd ready --json] printed: nothing, text that [json.loads] decodes,
    or text that it rejects. *)
Inductive Stdout : Type :=
  | NoOutput
  | Parsed (v : Json)
  | Garbage.

(** The outcome of [subprocess.run]: it raised (no such program, timeout), or
    the program exited with a return code and its output. *)
Inductive BdRun : Type :=
  | BdRaised
  | BdExit (returncode : Z) (stdout : Stdout).

(** [status in {"open", "in-progress"}]: the membership test hashes
    [status]. *)
Definition ready_status (status : Json) : Result bool :=
  if Py.hashable status
  then Ok (Py.eq_str status "open" || Py.eq_str status "in-progress")
  else Raise TypeError.

(** The body of [for issue in issues]: the bead to append, if any. *)
Definition ready_issue (issue : Json) : Result (option string) :=
  bead ← Py.get issue "id" JNull;
  status ← Py.get issue "status" JNull;
  match bead with
  | JStr s =>
      if negb (String.eqb s "") then
        ok ← ready_status status;
        Ok (if ok : bool then Some s else None)
      else Ok None
  | _ => Ok None
  end.

Fixpoint ready_issues (issues : list Json) : Result (list string) :=
  match issues with
  | [] => Ok []
  | issue :: rest =>
      b ← ready_issue issue;
      bs ← ready_issues rest;
      Ok (match b with Some s => s :: bs | None => bs end)
  end.

(** The whole body is inside [try: ... except Exception: return []]. *)
Definition get_ready_beads (run : BdRun) : list string :=
  match run with
  | BdRaised => []
  | BdExit returncode stdout =>
      if negb (returncode =? 0) then []
      else
        match stdout with
        | Garbage => []
        | NoOutput => []
        | Parsed (JArr issues) =>
            match ready_issues issues with
            | Ok beads => beads
            | Raise _ => []
            end
        | Parsed _ => []
        end
  end.

End Beads.

(** ** The skill retrieval engine, from the specification *)

(** None of the engine's code is among the sources.  The definitions of this
    module follow sections 3, 4 and 8 of the specification; relevances and
    distances are exact rationals. *)
Module SkillEngine.

Local Open Scope Q_scope.

(** *** RelevanceScorer *)

(** Modelled from the spec: the RelevanceScorer's clamp to [[0,1]]
    (section 4.1, "clamp to [0,1]"); its code is missing. *)
Definition clamp01 (q : Q) : Q := Qmax 0 (Qmin 1 q).

(** Modelled from the spec: the RelevanceScorer's
    [similarity = 1 − distance], clamped (section 4.1); its code is
    missing. *)
Definition similarity (distance : Q) : Q := clamp01 (1 - distance).

(** Modelled from the spec: [round] of section 4.1, read as Python's
    built-in (to the nearest integer, a tie to the even one); the scorer's
    code is missing. *)
Definition round (q : Q) : Z :=
  let f := Qfloor q in
  let r := q - inject_Z f in
  match Qcompare r (1 # 2) with
  | Lt => f
  | Gt => (f + 1)%Z
  | Eq => if Z.even f then f else (f + 1)%Z
  end.

(** Modelled from the spec: the RelevanceScorer's
    [relevance_pct = round(similarity × 100)] (section 4.1); its code is
    missing. *)
Definition relevance_pct (distance : Q) : Z := round (similarity distance * 100).

(** *** SessionTrackingStore *)

(** The shown-skill maximums of one session: skill name to relevance. *)
Abbreviation Shown := (gmap string Q).

(** Modelled from the spec: [get_max_relevance(skill_name) → float
    (default 0)] of section 4.5; the SessionTrackingStore's code is
    missing. *)
Definition get_max_relevance (s : Shown) (skill_name : string) : Q :=
  default 0 (s !! skill_name).

(** Modelled from the spec: [record_shown(skill_name, relevance)]
    "updates to max(current, relevance)" (section 4.5); the
    SessionTrackingStore's code is missing. *)
Definition record_shown (s : Shown) (skill_name : string) (relevance : Q)
  : Shown :=
  <[skill_name := Qmax (get_max_relevance s skill_name) relevance]> s.

(** Modelled from the spec: [reset()] "clears all entries"
    (section 4.5); the SessionTrackingStore's code is missing. *)
Definition reset (s : Shown) : Shown := ∅.

(** A session's calls of [record_shown], in order. *)
Definition record_all (s : Shown) (calls : list (string * Q)) : Shown :=
  foldl (fun s c => record_shown s c.1 c.2) s calls.

(** *** Re-notification (step 7 of the engine) *)

(** Modelled from the spec: [RENOTIFY_THRESHOLD] "(default 0.20)" of
    section 4.3; the engine's code is missing. *)
Definition RENOTIFY_THRESHOLD : Q := 20 # 100.

(** Modelled from the spec: step 7 of section 4.3 retains a surfaceable
    skill when it is "either unseen this session or [its] current
    similarity exceeds the previously recorded maximum by at least
    RENOTIFY_THRESHOLD"; the engine's code is missing. *)
Definition renotifiable (s : Shown) (skill_name : string) (sim : Q) : bool :=
  match s !! skill_name with
  | None => true
  | Some previous => Qle_bool (previous + RENOTIFY_THRESHOLD) sim
  end.

(** Modelled from the spec: step 7 of section 4.3, "update
    SessionTrackingStore's max for every skill ultimately surfaced"; the
    result is the skills surfaced and the store after the call.  The
    engine's code is missing. *)
Definition surface (s : Shown) (surfaceable : list (string * Q))
  : list (string * Q) * Shown :=
  let shown :=
    filter (fun c => Is_true (renotifiable s c.1 c.2)) surfaceable in
  (shown, record_all s shown).

(** *** GapRecorder *)

Record GapRecord : Type := {
  source_identifier : string;
  domain_hints : list string;
  content_preview : string;
  best_match : option string;
  best_relevance : Q;
  timestamp : Z
}.

Section Gaps.

(** The two fixed tables of section 4.4, filename suffix to category and
    keyword to domain; the specification does not list their rows. *)
Variable SUFFIX_DOMAINS : list (string * string).
Variable KEYWORD_DOMAINS : list (string * string).

Fixpoint dedup (l : list string) : list string :=
  match l with
  | [] => []
  | x :: l' =>
      if existsb (String.eqb x) l' then dedup l' else x :: dedup l'
  end.

(** Modelled from the spec: domain-hint extraction of section 4.4,
    suffix categories "unioned with keyword hits ... scanned
    case-insensitively over both the identifier and the content sample;
    result is always non-empty ([["general"]] fallback)"; the
    GapRecorder's code is missing. *)
Definition extract_domain_hints (source content_sample : string)
  : list string :=
  let by_suffix :=
    map snd (filter (fun sd => Is_true (PyStr.endswith source sd.1))
                    SUFFIX_DOMAINS) in
  let by_keyword :=
    map snd (filter (fun kd =>
               Is_true (PyStr.search_ignorecase kd.1 source
                        || PyStr.search_ignorecase kd.1 content_sample))
               KEYWORD_DOMAINS) in
  match dedup (by_suffix ++ by_keyword) with
  | [] => ["general"]
  | hints => hints
  end.

Definition has_gap (gaps : list GapRecord) (source : string) : bool :=
  existsb (fun g => String.eqb (source_identifier g) source) gaps.

(** Modelled from the spec: [record_gap(source_identifier,
    content_sample, best_match, best_relevance)] of section 4.4,
    "Deduplication key is source_identifier; a second call with the same
    identifier in the same session is a no-op", with a preview of at
    most 200 characters (section 3); [now] is the clock.  The
    GapRecorder's code is missing. *)
Definition record_gap (now : Z) (gaps : list GapRecord)
    (source content_sample : string) (best : option string)
    (relevance : Q) : list GapRecord :=
  if has_gap gaps source then gaps
  else gaps ++ [{| source_identifier := source;
                   domain_hints := extract_domain_hints source content_sample;
                   content_preview := String.substring 0 200 content_sample;
                   best_match := best;
                   best_relevance := relevance;
                   timestamp := now |}].

(** The records kept for one identifier. *)
Definition gaps_for (gaps : list GapRecord) (source : string)
  : list GapRecord :=
  filter (fun g => source_identifier g = source) gaps.

(** At most one record per identifier. *)
Definition deduplicated (gaps : list GapRecord) : Prop :=
  ∀ source, (length (gaps_for gaps source) ≤ 1)%nat.

(** One call of [record_gap] with its clock reading. *)
Record GapCall : Type := {
  call_now : Z;
  call_source : string;
  call_sample : string;
  call_best : option string;
  call_relevance : Q
}.

Definition apply_gap (gaps : list GapRecord) (c : GapCall) : list GapRecord :=
  record_gap (call_now c) gaps (call_source c) (call_sample c)
             (call_best c) (call_relevance c).

(** The gap store of a session: empty at the reset that opens it, then
    one [record_gap] per call. *)
Definition session_gaps (calls : list GapCall) : list GapRecord :=
  foldl apply_gap [] calls.

End Gaps.

End SkillEngine.

(** ** More Python string operations *)

Module PyText.

(** [s.split(sep)] for a one-character separator. *)
Fixpoint split_char (sep : ascii) (s : string) : list string :=
  match s with
  | EmptyString => [EmptyString]
  | String c s' =>
      if Ascii.eqb c sep then EmptyString :: split_char sep s'
      else match split_char sep s' with
           | [] => [String c EmptyString]
           | p :: ps => String c p :: ps
           end
  end.

(** [s.split(sep, 1)] when [sep] occurs in [s]: the text before the first
    separator and the text after it; [None] when there is no separator. *)
Fixpoint split_once (sep : ascii) (s : string) : option (string * string) :=
  match s with
  | EmptyString => None
  | String c s' =>
      if Ascii.eqb c sep then Some (EmptyString, s')
      else match split_once sep s' with
           | Some (k, v) => Some (String c k, v)
           | None => None
           end
  end.

Fixpoint lstrip_char (ch : ascii) (s : string) : string :=
  match s with
  | EmptyString => EmptyString
  | String c s' => if Ascii.eqb c ch then lstrip_char ch s' else s
  end.

Fixpoint rstrip_char (ch : ascii) (s : string) : string :=
  match s with
  | EmptyString => EmptyString
  | String c s' =>
      match rstrip_char ch s' with
      | EmptyString =>
          if Ascii.eqb c ch then EmptyString else String c EmptyString
      | t => String c t
      end
  end.

(** [s.strip(ch)] for a one-character [ch]. *)
Definition strip_char (ch : ascii) (s : string) : string :=
  rstrip_char ch (lstrip_char ch s).

Fixpoint has_char (ch : ascii) (s : string) : bool :=
  match s with
  | EmptyString => false
  | String c s' => Ascii.eqb c ch || has_char ch s'
  end.

Definition is_upper (c : ascii) : bool :=
  let n := PyStr.code c in ((65 <=? n) && (n <=? 90))%N.

Definition is_lower (c : ascii) : bool :=
  let n := PyStr.code c in ((97 <=? n) && (n <=? 122))%N.

End PyText.

(** ** [load_env_file] (memory-service-unified.py) *)

Module Env.

(** [os.environ] *)
Abbreviation Environ := (gmap string string).

Definition NUL : ascii := "000"%char.
Definition EQUALS : ascii := "="%char.
(** The double quote and the single quote. *)
Definition QUOTE : ascii := "034"%char.
Definition APOSTROPHE : ascii := "039"%char.

(** One turn of [for line in handle].  [None] is the [ValueError] that
    [os.environ[key] = value] raises for an embedded null byte; the
    surrounding [try] then ends the loop. *)
Definition load_line (env : Environ) (line : string) : option Environ :=
  let raw := PyStr.strip line in
  if String.eqb raw "" || String.prefix "#" raw then Some env
  else
    match PyText.split_once EQUALS raw with
    | None => Some env
    | Some (key, value) =>
        let key := PyStr.strip key in
        let value :=
          PyText.strip_char APOSTROPHE
            (PyText.strip_char QUOTE (PyStr.strip value)) in
        if negb (String.eqb key "") && bool_decide (env !! key = None) then
          if PyText.has_char NUL key || PyText.has_char NUL value then None
          else Some (<[key := value]> env)
        else Some env
    end.

(** The loop over the lines of an existing file; what was set before an
    exception stays set. *)
Fixpoint load_lines (env : Environ) (lines : list string) : Environ :=
  match lines with
  | [] => env
  | line :: rest =>
      match load_line env line with
      | Some env' => load_lines env' rest
      | None => env
      end
  end.

(** [file] is [None] when [os.path.isfile(env_path)] is false. *)
Definition load_env_file (env : Environ) (file : option (list string))
  : Environ :=
  match file with
  | None => env
  | Some lines => load_lines env lines
  end.

End Env.

(** ** [AgentMemoryService.extract_memories] (memory-service.py) *)

Module AgentMemory.

Definition TRIGGERS : list string := ["edit"; "modify"; "create"].
Definition CODE_KEYWORDS : list string :=
  ["file:"; "path:"; ".js"; ".ts"; ".py"; ".json"].
Definition decision_keywords : list string :=
  ["decided to"; "will use"; "chose to"; "going to"; "plan to"].
Definition error_patterns : list string :=
  ["error:"; "fix:"; "bug:"; "issue:"; "problem:"].

Definition extract_code_changes (content : string) (lines : list string)
  : list string :=
  if PyStr.any_in TRIGGERS (PyStr.lower content) then
    map PyStr.strip
      (filter (fun line =>
         Is_true (PyStr.any_in CODE_KEYWORDS (PyStr.lower line))) lines)
  else [].

Definition extract_decisions (lines : list string) : list string :=
  map PyStr.strip
    (filter (fun line =>
       Is_true (PyStr.any_in decision_keywords (PyStr.lower line))) lines).

Definition extract_context (bead_id : option string) (lines : list string)
  : list string :=
  (if Py.opt_truthy bead_id
   then ["Current bead: " +:+ default "" bead_id] else [])
  ++ map PyStr.strip
       (filter (fun line =>
          Is_true (PyStr.contains "working on" (PyStr.lower line)
                   || PyStr.contains "task" (PyStr.lower line))) lines).

(** The inner loop has no [break]: a line is appended once for each pattern
    found in it. *)
Definition extract_errors (lines : list string) : list string :=
  flat_map (fun line =>
    flat_map (fun pattern =>
      if PyStr.contains pattern (PyStr.lower line) then [PyStr.strip line]
      else []) error_patterns) lines.

(** [now] is [datetime.now().isoformat()]. *)
Definition extract_memories (now : string) (content agent_name : string)
    (bead_id : option string) : Json :=
  let lines := PyStr.split_lines content in
  JObj [("agent", JStr agent_name);
        ("timestamp", JStr now);
        ("bead_id", Py.of_opt bead_id);
        ("categories",
         JObj [("code_changes", Fallback.strs (extract_code_changes content lines));
               ("decisions", Fallback.strs (extract_decisions lines));
               ("context", Fallback.strs (extract_context bead_id lines));
               ("errors", Fallback.strs (extract_errors lines));
               ("communication", JArr [])])].

End AgentMemory.

(** ** [AgentMailClient] (client.py) *)

Module AgentMail.

(** The tail of the pattern after a run of lower-case letters. *)
Fixpoint skip_lower (s : string) : string :=
  match s with
  | EmptyString => EmptyString
  | String c s' => if PyText.is_lower c then skip_lower s' else s
  end.

(** [$] without [re.MULTILINE]: the end of the text, or just before a
    newline that ends it. *)
Definition at_end (s : string) : bool :=
  String.eqb s "" || String.eqb s (String "010"%char EmptyString).

(** [[A-Z][a-z]+] at the head of [s]: the rest of the text after it. *)
Definition word (s : string) : option string :=
  match s with
  | String c1 (String c2 rest) =>
      if PyText.is_upper c1 && PyText.is_lower c2 then Some (skip_lower rest)
      else None
  | _ => None
  end.

(** [re.match(r"^[A-Z][a-z]+[A-Z][a-z]+$", name)] *)
Definition _is_valid_agent_name (name : string) : bool :=
  match word name with
  | Some rest =>
      match word rest with
      | Some rest' => at_end rest'
      | None => false
      end
  | None => false
  end.

Definition DASH : ascii := "-"%char.

Definition _infer_to_agents (thread_id : option string) : list string :=
  if negb (Py.opt_truthy thread_id) then []
  else
    let t := default "" thread_id in
    if String.prefix "CONTEXT-" t then
      match PyText.split_char DASH t with
      | _ :: agent :: _ :: _ =>
          if negb (String.eqb agent "") then [agent] else []
      | _ => []
      end
    else [].

(** The arguments of the [send_message] tool call. *)
Record Arguments : Type := {
  project_key : string;
  sender_name : string;
  to : list string;
  cc : list string;
  bcc : list string;
  subject : string;
  body_md : string;
  importance : string;
  ack_required : bool;
  thread_id : string
}.

(** [x or []] for an optional list. *)
Definition or_nil (l : option (list string)) : list string := default [] l.

Definition nonempty (l : list string) : bool :=
  match l with [] => false | _ => true end.

(** [send_message] up to its [_call_tool]: the arguments it sends, or the
    [ValueError] it raises. *)
Definition send_message (thread : option string) (subj body from_agent
    project : string) (to_arg cc_arg bcc_arg : option (list string))
    (import : string) (ack : bool) : Result Arguments :=
  let to_agents := or_nil to_arg in
  let to_agents :=
    if negb (nonempty to_agents) then _infer_to_agents thread else to_agents in
  if negb (nonempty to_agents)
     && negb (nonempty (or_nil cc_arg) || nonempty (or_nil bcc_arg))
  then Raise ValueError
  else
    let sender :=
      if negb (_is_valid_agent_name from_agent)
      then match to_agents with a :: _ => a | [] => from_agent end
      else from_agent in
    Ok {| project_key := project; sender_name := sender; to := to_agents;
          cc := or_nil cc_arg; bcc := or_nil bcc_arg; subject := subj;
          body_md := body; importance := import; ack_required := ack;
          thread_id := default "" thread |}.

(** [{**msg, key: v}] *)
Fixpoint dict_set (key : string) (v : Json) (kvs : list (string * Json))
  : list (string * Json) :=
  match kvs with
  | [] => [(key, v)]
  | (k, x) :: rest =>
      if String.eqb k key then (k, v) :: rest
      else (k, x) :: dict_set key v rest
  end.

(** [msg.get("from", msg.get("from_agent", "unknown"))] *)
Definition sender_of (kvs : list (string * Json)) : Json :=
  default (default (JStr "unknown") (Py.assoc "from_agent" kvs))
          (Py.assoc "from" kvs).

(** The normalisation loop of [fetch_inbox] over what the tool returned. *)
Definition normalize_inbox (rows : Json) : list Json :=
  match rows with
  | JArr msgs =>
      flat_map (fun msg =>
        match msg with
        | JObj kvs => [JObj (dict_set "from_agent" (sender_of kvs) kvs)]
        | _ => []
        end) msgs
  | _ => []
  end.

End AgentMail.

(** ** Sample inputs *)

Module Samples.

Definition content : string :=
  "I decided to use gmap
edit: src/a.py
working on task 3
error: boom".

Definition memory : Json :=
  Fallback.extract_memories "2024-01-01T00:00:00" content "alice" (Some "b1").

(** A store with one memory of agent [alice]. *)
Definition fs_alice : FS := {[ "alice_memories.jsonl" := [Doc memory] ]}.

(** The same store after a line that is not JSON got into the file. *)
Definition fs_corrupt : FS :=
  {[ "alice_memories.jsonl" := [Doc memory; Malformed "{oops"] ]}.

(** A clock reading for the examples: every timestamp is the naive time
    5 microseconds after the origin. *)
Definition parse_const (s : string) : option DateTime :=
  Some {| aware := false; micros := 5 |}.

Definition some_now : Z := 63900000000000000.

(** An agent file that holds fifty memories. *)
Definition fs_fifty : FS :=
  {[ "alice_memories.jsonl" := replicate 50 (Doc memory) ]}.


(** A service whose Memlayer backend was never initialised. *)
Definition svc_plain : Unified.Service :=
  {| Unified.using_memlayer := false; Unified.memlayer_service := None |}.

(** A service whose Memlayer backend raises on every call. *)
Definition failing_backend : Unified.Backend :=
  {| Unified.backend_store := fun _ _ _ => Raise (BackendError "no vector store");
     Unified.backend_retrieve :=
       fun _ _ _ _ => Raise (BackendError "no vector store") |}.

Definition svc_failing : Unified.Service :=
  {| Unified.using_memlayer := true;
     Unified.memlayer_service := Some failing_backend |}.

(** A service whose Memlayer backend stores but cannot search. *)
Definition deaf_backend : Unified.Backend :=
  {| Unified.backend_store := fun _ _ _ => Ok (JObj []);
     Unified.backend_retrieve :=
       fun _ _ _ _ => Raise (BackendError "no vector store") |}.

Definition svc_deaf : Unified.Service :=
  {| Unified.using_memlayer := true;
     Unified.memlayer_service := Some deaf_backend |}.

End Samples.

(** * Properties *)

(** ** Python primitives *)

Example strip_ex : PyStr.strip "  a b	 " = "a b".
Proof. reflexivity. Qed.

Example split_ex : PyStr.split_lines "ab
c
" = ["ab"; "c"; ""].
Proof. reflexivity. Qed.

Example replace_ex :
  PyStr.replace "_memories" "" "a_memories_b_memories" = "a_b".
Proof. reflexivity. Qed.

Example replace_Z :
  PyStr.replace "Z" "+00:00" "2024-01-01T00:00:00Z" = "2024-01-01T00:00:00+00:00".
Proof. reflexivity. Qed.

Example last_n_ex :
  PySlice.last_n 2 [1;2;3] = [2;3] ∧ PySlice.last_n 0 [1;2;3] = [1;2;3] ∧
  PySlice.last_n (-1) [1;2;3] = [2;3] ∧ PySlice.last_n 5 [1;2;3] = [1;2;3].
Proof. repeat split; reflexivity. Qed.

Lemma last_n_length {A} (k : Z) (l : list A) :
  0 < k → (length (PySlice.last_n k l) ≤ Z.to_nat k)%nat.
Proof.
  intros Hk. unfold PySlice.last_n, PySlice.from.
  rewrite length_drop.
  destruct (Z.ltb_spec (- k) 0); lia.
Qed.


Lemma last_n_short {A} (k : Z) (l : list A) :
  Z.of_nat (length l) ≤ k → PySlice.last_n k l = l.
Proof.
  intros Hk. unfold PySlice.last_n, PySlice.from.
  destruct (Z.ltb_spec (- k) 0).
  - replace (Z.to_nat _) with 0%nat by lia. reflexivity.
  - assert (length l = 0%nat) as Hl by lia.
    destruct l; [by rewrite drop_nil | discriminate].
Qed.

(** ** Reading files of JSON lines *)

Lemma corrupt_cons (l : Line) (ls : list Line) :
  corrupt (l :: ls) ↔ (∃ raw, l = Malformed raw) ∨ corrupt ls.
Proof.
  unfold corrupt. split.
  - intros [raw H]. apply elem_of_cons in H as [H | H]; eauto.
  - intros [[raw ->] | [raw H]]; exists raw; [left | by right].
Qed.

Lemma read_jsonl_corrupt (ls : list Line) :
  corrupt ls → read_jsonl ls = Raise JSONDecodeError.
Proof.
  induction ls as [| l ls IH]; intros H.
  - destruct H as [raw H]. by apply elem_of_nil in H.
  - apply corrupt_cons in H. destruct l as [| v | raw]; simpl.
    + destruct H as [[? ?] | H]; [discriminate | auto].
    + destruct H as [[? ?] | H]; [discriminate |]. by rewrite IH.
    + reflexivity.
Qed.

Lemma read_jsonl_clean (ls : list Line) :
  ¬ corrupt ls → read_jsonl ls = Ok (read_jsonl_lenient ls).
Proof.
  induction ls as [| l ls IH]; intros H; [reflexivity |].
  assert (¬ corrupt ls) as H' by (intros C; apply H, corrupt_cons; by right).
  destruct l as [| v | raw]; simpl.
  - auto.
  - by rewrite IH.
  - exfalso. apply H, corrupt_cons. left. by exists raw.
Qed.

Lemma read_jsonl_dump (ms : list Json) : read_jsonl (dump_jsonl ms) = Ok ms.
Proof.
  induction ms as [| m ms IH]; [reflexivity |].
  simpl. by rewrite IH.
Qed.

Lemma dump_not_corrupt (ms : list Json) : ¬ corrupt (dump_jsonl ms).
Proof.
  intros [raw H]. unfold dump_jsonl in H.
  apply list_elem_of_fmap in H as (m & Hm & _). discriminate.
Qed.

Lemma read_jsonl_lenient_app (xs ys : list Line) :
  read_jsonl_lenient (xs ++ ys) = read_jsonl_lenient xs ++ read_jsonl_lenient ys.
Proof.
  induction xs as [| x xs IH]; [reflexivity |].
  destruct x; simpl; by rewrite ?IH.
Qed.

Lemma corrupt_app (xs ys : list Line) :
  corrupt (xs ++ ys) ↔ corrupt xs ∨ corrupt ys.
Proof.
  unfold corrupt. split.
  - intros [raw H]. apply elem_of_app in H as [H | H]; eauto.
  - intros [[raw H] | [raw H]]; exists raw; apply elem_of_app; auto.
Qed.

(** ** [SimpleMemoryService]: reading a store *)

Lemma retrieve_no_agent (fs : FS) (query : string)
    (agent_name bead_id : option string) (limit : Z) :
  Py.opt_truthy agent_name = false →
  Fallback.retrieve_relevant_memories fs query agent_name bead_id limit
  = Ok Fallback._empty_categories.
Proof. intros H. unfold Fallback.retrieve_relevant_memories. by rewrite H. Qed.

Lemma retrieve_missing (fs : FS) (query agent_name : string)
    (bead_id : option string) (limit : Z) :
  fs !! Fallback.agent_file agent_name = None →
  Fallback.retrieve_relevant_memories fs query (Some agent_name) bead_id limit
  = Ok Fallback._empty_categories.
Proof.
  intros H. unfold Fallback.retrieve_relevant_memories.
  destruct (negb _); [reflexivity |]. simpl. by rewrite H.
Qed.

Lemma retrieve_corrupt (fs : FS) (query agent_name : string)
    (bead_id : option string) (limit : Z) (lines : list Line) :
  agent_name ≠ "" →
  fs !! Fallback.agent_file agent_name = Some lines →
  corrupt lines →
  Fallback.retrieve_relevant_memories fs query (Some agent_name) bead_id limit
  = Raise JSONDecodeError.
Proof.
  intros Hne Hfile Hbad. unfold Fallback.retrieve_relevant_memories.
  assert (Py.opt_truthy (Some agent_name) = true) as ->.
  { simpl. destruct (String.eqb_spec agent_name ""); [done | reflexivity]. }
  simpl. rewrite Hfile, (read_jsonl_corrupt _ Hbad). reflexivity.
Qed.

Lemma cleanup_corrupt (fs : FS) (file_path : string) (keep : Z)
    (lines : list Line) :
  fs !! file_path = Some lines →
  corrupt lines →
  Fallback._cleanup_old_memories fs file_path keep = (fs, Raise JSONDecodeError).
Proof.
  intros Hfile Hbad. unfold Fallback._cleanup_old_memories.
  by rewrite Hfile, (read_jsonl_corrupt _ Hbad).
Qed.

(** A write to a corrupt store appends its line, fails in the clean-up and
    leaves the corrupt line where it was. *)
Lemma store_corrupt (max_memories : Z) (now : string) (fs : FS)
    (content agent_name : string) (bead_id : option string)
    (lines : list Line) :
  fs !! Fallback.agent_file agent_name = Some lines →
  corrupt lines →
  Fallback.store_memories max_memories now fs content agent_name bead_id
  = (<[Fallback.agent_file agent_name :=
         lines ++ [Doc (Fallback.extract_memories now content agent_name bead_id)]]> fs,
     Raise JSONDecodeError).
Proof.
  intros Hfile Hbad. unfold Fallback.store_memories, Fallback.append_line.
  rewrite Hfile. simpl.
  erewrite cleanup_corrupt; [reflexivity | apply lookup_insert_eq |].
  apply corrupt_app. by left.
Qed.

(** C1: a read of a store whose file is missing gives the empty state, but a
    read of a store with a malformed line does not: [json.loads] raises and
    nothing catches it.  The next write appends its line and raises from the
    clean-up, so the malformed line is not overwritten either.  The cleaning
    pass over the same file, which skips the lines it cannot decode,
    returns. *)
Theorem C1_corrupt_store_is_fatal :
  Fallback.retrieve_relevant_memories Samples.fs_corrupt "current work"
    (Some "alice") None 5 = Raise JSONDecodeError
  ∧ (Unified.retrieve_relevant_memories
       {| Unified.using_memlayer := false; Unified.memlayer_service := None |}
       Samples.fs_corrupt "current work" (Some "alice") None 5).2
    = Raise JSONDecodeError
  ∧ (let after :=
       Fallback.store_memories 200 "2024-01-02T00:00:00" Samples.fs_corrupt
         "working on the parser" "alice" None in
     after.2 = Raise JSONDecodeError
     ∧ ∃ lines, after.1 !! "alice_memories.jsonl" = Some lines
                ∧ Malformed "{oops" ∈ lines)
  ∧ (∃ report,
       (Fallback.clean_memories Samples.parse_const Samples.some_now
          Samples.fs_corrupt None 30 "age" false false).2 = Ok report
       ∧ Fallback.scanned_files report = 1%nat)
  ∧ Fallback.retrieve_relevant_memories Samples.fs_corrupt "current work"
      (Some "bob") None 5 = Ok Fallback._empty_categories.
Proof.
  split; [reflexivity |]. split; [reflexivity |]. split.
  - split; [reflexivity |].
    rewrite (store_corrupt 200 _ Samples.fs_corrupt _ "alice" None
               [Doc Samples.memory; Malformed "{oops"]).
    + eexists. split; [apply lookup_insert_eq |].
      apply elem_of_app. left. apply elem_of_cons. right. apply list_elem_of_singleton.
      reflexivity.
    + reflexivity.
    + exists "{oops". apply elem_of_cons. right. by apply list_elem_of_singleton.
  - split; [| reflexivity]. eexists. split; [vm_compute; reflexivity | reflexivity].
Qed.

(** C8: the fallback retrieval does not look at the query text.  Two calls
    with the same agent, bead filter and limit return the same value (or
    raise the same exception) whatever the two queries are, and whatever the
    rest of the storage directory holds: only the agent's file is read. *)
Theorem C8_retrieval_ignores_query (fs fs' : FS) (q1 q2 : string)
    (agent_name bead_id : option string) (limit : Z) :
  fs !! Fallback.agent_file (default "" agent_name)
  = fs' !! Fallback.agent_file (default "" agent_name) →
  Fallback.retrieve_relevant_memories fs q1 agent_name bead_id limit
  = Fallback.retrieve_relevant_memories fs' q2 agent_name bead_id limit.
Proof.
  intros Hfile. unfold Fallback.retrieve_relevant_memories.
  destruct (negb (Py.opt_truthy agent_name)); [reflexivity |].
  by rewrite Hfile.
Qed.

Lemma C8_retrieval_ignores_query_witness :
  Fallback.retrieve_relevant_memories Samples.fs_alice "current work"
    (Some "alice") (Some "b1") 5
  = Fallback.retrieve_relevant_memories Samples.fs_alice "websocket handshake"
      (Some "alice") (Some "b1") 5.
Proof.
  apply (C8_retrieval_ignores_query Samples.fs_alice Samples.fs_alice).
  reflexivity.
Defined.

Example retrieve_ex :
  Fallback.retrieve_relevant_memories Samples.fs_alice "anything"
    (Some "alice") (Some "b1") 5
  = Ok [("code_changes",
         [JObj [("content", JStr "edit: src/a.py");
                ("timestamp", JStr "2024-01-01T00:00:00");
                ("bead_id", JStr "b1")]]);
        ("decisions",
         [JObj [("content", JStr "I decided to use gmap");
                ("timestamp", JStr "2024-01-01T00:00:00");
                ("bead_id", JStr "b1")]]);
        ("context",
         [JObj [("content", JStr "Current bead: b1");
                ("timestamp", JStr "2024-01-01T00:00:00");
                ("bead_id", JStr "b1")];
          JObj [("content", JStr "working on task 3");
                ("timestamp", JStr "2024-01-01T00:00:00");
                ("bead_id", JStr "b1")]]);
        ("errors",
         [JObj [("content", JStr "error: boom");
                ("timestamp", JStr "2024-01-01T00:00:00");
                ("bead_id", JStr "b1")]]);
        ("communication", [])]
  ∧ Fallback.retrieve_relevant_memories Samples.fs_alice "anything"
      (Some "alice") (Some "b2") 5 = Ok Fallback._empty_categories.
Proof. split; reflexivity. Qed.

(** ** [UnifiedMemoryService]: degrading to the fallback *)

Lemma unified_retrieve_fallback (svc : Unified.Service) (fs : FS)
    (query : string) (agent_name bead_id : option string) (limit : Z) :
  Unified.unavailable svc query agent_name bead_id limit →
  (Unified.retrieve_relevant_memories svc fs query agent_name bead_id limit).2
  = Fallback.retrieve_relevant_memories fs query agent_name bead_id limit.
Proof.
  unfold Unified.unavailable, Unified.retrieve_relevant_memories.
  destruct (Unified.active_backend svc) as [be |]; [| reflexivity].
  intros [e ->]. reflexivity.
Qed.

(** After a failed backend call the service no longer uses Memlayer. *)
Lemma unified_retrieve_gives_up (svc : Unified.Service) (fs : FS)
    (query : string) (agent_name bead_id : option string) (limit : Z) :
  Unified.unavailable svc query agent_name bead_id limit →
  Unified.active_backend
    (Unified.retrieve_relevant_memories svc fs query agent_name bead_id limit).1
  = None.
Proof.
  unfold Unified.unavailable, Unified.retrieve_relevant_memories.
  destruct (Unified.active_backend svc) as [be |] eqn:Hbe;
    [| intros _; exact Hbe].
  intros [e ->]. reflexivity.
Qed.

(** C2, as stated, fails: with the vector store unavailable (never
    initialised, or raising) the service answers from the agent's memory
    file, and that answer is not the empty one when the file has
    memories. *)
Lemma C2_fallback_answers_from_file :
  Unified.unavailable Samples.svc_plain "current work" (Some "alice") None 5
  ∧ (Unified.retrieve_relevant_memories Samples.svc_plain Samples.fs_alice
       "current work" (Some "alice") None 5).2 ≠ Ok Fallback._empty_categories
  ∧ Unified.unavailable Samples.svc_failing "current work" (Some "alice") None 5
  ∧ (Unified.retrieve_relevant_memories Samples.svc_failing Samples.fs_alice
       "current work" (Some "alice") None 5).2 ≠ Ok Fallback._empty_categories.
Proof.
  split; [exact I |]. split; [vm_compute; discriminate |].
  split; [by eexists |]. vm_compute; discriminate.
Qed.

(** C2, amended: when the vector store is unavailable for a call, the
    unified service does not pass the backend's exception on; it answers
    with what the file-based fallback returns for the same arguments, which
    is the empty category structure when no agent is named or the agent has
    no memory file. *)
Theorem C2_unavailable_falls_back (svc : Unified.Service) (fs : FS)
    (query : string) (agent_name bead_id : option string) (limit : Z) :
  Unified.unavailable svc query agent_name bead_id limit →
  (Unified.retrieve_relevant_memories svc fs query agent_name bead_id limit).2
  = Fallback.retrieve_relevant_memories fs query agent_name bead_id limit
  ∧ (Py.opt_truthy agent_name = false
     ∨ fs !! Fallback.agent_file (default "" agent_name) = None →
     (Unified.retrieve_relevant_memories svc fs query agent_name bead_id limit).2
     = Ok Fallback._empty_categories).
Proof.
  intros H. pose proof (unified_retrieve_fallback svc fs _ _ _ _ H) as E.
  split; [exact E |]. rewrite E. intros [Hno | Hmiss].
  - by apply retrieve_no_agent.
  - destruct agent_name as [a |]; [by apply retrieve_missing | reflexivity].
Qed.

Lemma C2_unavailable_falls_back_witness :
  Unified.unavailable Samples.svc_failing "current work" (Some "bob") None 5
  ∧ (Unified.retrieve_relevant_memories Samples.svc_failing Samples.fs_alice
       "current work" (Some "bob") None 5).2 = Ok Fallback._empty_categories.
Proof.
  assert (Unified.unavailable Samples.svc_failing "current work" (Some "bob") None 5)
    as H by (by eexists).
  split; [exact H |].
  apply (C2_unavailable_falls_back Samples.svc_failing Samples.fs_alice
           "current work" (Some "bob") None 5 H).
  right. reflexivity.
Defined.

(** ** RelevanceScorer *)

Lemma round_proper (q q' : Q) : (q == q')%Q → SkillEngine.round q = SkillEngine.round q'.
Proof.
  intros E. unfold SkillEngine.round.
  rewrite (Qfloor_comp _ _ E).
  assert (q - inject_Z (Qfloor q') == q' - inject_Z (Qfloor q'))%Q as ->
    by (rewrite E; reflexivity).
  reflexivity.
Qed.

Lemma round_near_floor (q : Q) :
  (Qfloor q ≤ SkillEngine.round q ≤ Qfloor q + 1)%Z.
Proof.
  unfold SkillEngine.round.
  destruct (Qcompare _ _); [destruct (Z.even _) | |]; lia.
Qed.

Lemma round_range (q : Q) (lo hi : Z) :
  (inject_Z lo <= q)%Q → (q <= inject_Z hi)%Q →
  (lo ≤ SkillEngine.round q ≤ hi)%Z.
Proof.
  intros Hlo Hhi.
  pose proof (round_near_floor q) as [Hf Hc].
  pose proof (Qfloor_resp_le _ _ Hlo) as Hl. rewrite Qfloor_Z in Hl.
  pose proof (Qfloor_resp_le _ _ Hhi) as Hh. rewrite Qfloor_Z in Hh.
  split; [lia |].
  destruct (Z.eq_dec (Qfloor q) hi) as [E | NE]; [| lia].
  unfold SkillEngine.round. rewrite E.
  destruct (Qcompare_spec (q - inject_Z hi) (1 # 2)) as [H | H | H].
  - exfalso. lra.
  - lia.
  - exfalso. lra.
Qed.

Lemma similarity_in_range (d : Q) :
  (0 <= SkillEngine.similarity d)%Q ∧ (SkillEngine.similarity d <= 1)%Q.
Proof.
  unfold SkillEngine.similarity, SkillEngine.clamp01. split.
  - apply Q.le_max_l.
  - apply Q.max_lub; [lra | apply Q.le_min_l].
Qed.

Lemma similarity_unclamped (d : Q) :
  (0 <= d)%Q → (d <= 1)%Q → (SkillEngine.similarity d == 1 - d)%Q.
Proof.
  intros H0 H1. unfold SkillEngine.similarity, SkillEngine.clamp01.
  rewrite (Q.min_r 1 (1 - d)) by lra.
  apply Q.max_r. lra.
Qed.

(** Whatever the distance, the clamp keeps the percentage in range. *)
Lemma relevance_pct_range (d : Q) : (0 ≤ SkillEngine.relevance_pct d ≤ 100)%Z.
Proof.
  destruct (similarity_in_range d) as [H0 H1].
  unfold SkillEngine.relevance_pct.
  apply round_range.
  - change (inject_Z 0) with 0%Q. lra.
  - change (inject_Z 100) with 100%Q. lra.
Qed.

(** C3: for a distance [d] in [[0,1]] the similarity is [1 − d] (the clamp
    changes nothing), the percentage is [round((1 − d) × 100)], and it lies
    between 0 and 100. *)
Theorem C3_relevance_pct (d : Q) :
  (0 <= d)%Q → (d <= 1)%Q →
  (SkillEngine.similarity d == 1 - d)%Q
  ∧ SkillEngine.relevance_pct d = SkillEngine.round ((1 - d) * 100)
  ∧ (0 ≤ SkillEngine.relevance_pct d ≤ 100)%Z.
Proof.
  intros H0 H1. pose proof (similarity_unclamped d H0 H1) as E.
  split; [exact E |]. split; [| apply relevance_pct_range].
  unfold SkillEngine.relevance_pct. apply round_proper. by rewrite E.
Qed.

Lemma C3_relevance_pct_witness :
  (SkillEngine.similarity (15 # 100) == 1 - (15 # 100))%Q
  ∧ SkillEngine.relevance_pct (15 # 100) = SkillEngine.round ((1 - (15 # 100)) * 100)
  ∧ (0 ≤ SkillEngine.relevance_pct (15 # 100) ≤ 100)%Z.
Proof. apply (C3_relevance_pct (15 # 100)); vm_compute; discriminate. Defined.

Example relevance_pct_ex :
  SkillEngine.relevance_pct (15 # 100) = 85
  ∧ SkillEngine.relevance_pct (1 # 1000) = 100
  ∧ SkillEngine.relevance_pct (995 # 1000) = 0
  ∧ SkillEngine.relevance_pct (985 # 1000) = 2
  ∧ SkillEngine.relevance_pct (3 # 2) = 0.
Proof. repeat split; reflexivity. Qed.

(** ** SessionTrackingStore *)

Lemma get_record_shown_same (s : gmap string Q) (name : string) (r : Q) :
  SkillEngine.get_max_relevance (SkillEngine.record_shown s name r) name
  = Qmax (SkillEngine.get_max_relevance s name) r.
Proof.
  unfold SkillEngine.record_shown at 1, SkillEngine.get_max_relevance at 1.
  by rewrite lookup_insert_eq.
Qed.

Lemma get_record_shown_other (s : gmap string Q) (name other : string) (r : Q) :
  other ≠ name →
  SkillEngine.get_max_relevance (SkillEngine.record_shown s other r) name
  = SkillEngine.get_max_relevance s name.
Proof.
  intros Hne.
  unfold SkillEngine.record_shown, SkillEngine.get_max_relevance at 1 3.
  by rewrite lookup_insert_ne.
Qed.

Lemma record_shown_mono (s : gmap string Q) (name other : string) (r : Q) :
  (SkillEngine.get_max_relevance s name
   <= SkillEngine.get_max_relevance (SkillEngine.record_shown s other r) name)%Q.
Proof.
  destruct (decide (other = name)) as [-> | Hne].
  - rewrite get_record_shown_same. apply Q.le_max_l.
  - rewrite get_record_shown_other by done. apply Qle_refl.
Qed.

Lemma record_all_mono (calls : list (string * Q)) (s : gmap string Q)
    (name : string) :
  (SkillEngine.get_max_relevance s name
   <= SkillEngine.get_max_relevance (SkillEngine.record_all s calls) name)%Q.
Proof.
  revert s. induction calls as [| [other r] calls IH]; intros s.
  - apply Qle_refl.
  - simpl. eapply Qle_trans; [apply (record_shown_mono s name other r) |].
    apply IH.
Qed.

Lemma record_all_app (s : gmap string Q) (xs ys : list (string * Q)) :
  SkillEngine.record_all s (xs ++ ys)
  = SkillEngine.record_all (SkillEngine.record_all s xs) ys.
Proof. apply foldl_app. Qed.

(** C4: [record_shown(name, r)] leaves [max(previous, r)] as the value of
    [name]; no call, for this skill or another, lowers
    [get_max_relevance(name)]; so along any sequence of calls of a session
    the value read later is at least the value read earlier. *)
Theorem C4_max_relevance_monotone (s : gmap string Q) (name other : string)
    (r : Q) (earlier later : list (string * Q)) :
  SkillEngine.get_max_relevance (SkillEngine.record_shown s name r) name
  = Qmax (SkillEngine.get_max_relevance s name) r
  ∧ (SkillEngine.get_max_relevance s name
     <= SkillEngine.get_max_relevance (SkillEngine.record_shown s other r) name)%Q
  ∧ (SkillEngine.get_max_relevance (SkillEngine.record_all s earlier) name
     <= SkillEngine.get_max_relevance
          (SkillEngine.record_all s (earlier ++ later)) name)%Q.
Proof.
  split; [apply get_record_shown_same |].
  split; [apply record_shown_mono |].
  rewrite record_all_app. apply record_all_mono.
Qed.

Example record_shown_ex :
  let s := SkillEngine.record_all ∅
             [("pdf", 40 # 100); ("web", 70 # 100); ("pdf", 30 # 100)] in
  SkillEngine.get_max_relevance s "pdf" = (40 # 100)%Q
  ∧ SkillEngine.get_max_relevance s "web" = (70 # 100)%Q
  ∧ SkillEngine.get_max_relevance s "sql" = 0%Q
  ∧ SkillEngine.get_max_relevance (SkillEngine.reset s) "pdf" = 0%Q.
Proof. repeat split; reflexivity. Qed.

(** ** Re-notification *)

Lemma surface_one_shown (s : gmap string Q) (name : string) (sim : Q) :
  SkillEngine.renotifiable s name sim = true →
  SkillEngine.surface s [(name, sim)]
  = ([(name, sim)], SkillEngine.record_shown s name sim).
Proof.
  intros H. unfold SkillEngine.surface.
  rewrite filter_cons_True by (simpl; by rewrite H). reflexivity.
Qed.

Lemma surface_one_hidden (s : gmap string Q) (name : string) (sim : Q) :
  SkillEngine.renotifiable s name sim = false →
  SkillEngine.surface s [(name, sim)] = ([], s).
Proof.
  intros H. unfold SkillEngine.surface.
  rewrite filter_cons_False by (simpl; rewrite H; intros []). reflexivity.
Qed.

Lemma renotifiable_seen (s : gmap string Q) (name : string) (prev sim : Q) :
  s !! name = Some prev →
  SkillEngine.renotifiable s name sim
  = Qle_bool (prev + SkillEngine.RENOTIFY_THRESHOLD) sim.
Proof. intros H. unfold SkillEngine.renotifiable. by rewrite H. Qed.

(** What is surfaced never lowers a recorded maximum, and a call that
    surfaces nothing leaves the store as it was. *)
Lemma surface_nothing_keeps (s : gmap string Q) (results : list (string * Q)) :
  (SkillEngine.surface s results).1 = [] → (SkillEngine.surface s results).2 = s.
Proof. unfold SkillEngine.surface. cbn [fst snd]. intros ->. reflexivity. Qed.

(** C5: a skill not yet seen in the session is surfaced at similarity 0.40
    and recorded at 0.40; at 0.55 it is not surfaced again and the recorded
    maximum stays 0.40; at 0.65 it is surfaced again (and recorded at
    0.65). *)
Theorem C5_renotification (s : gmap string Q) (name : string) :
  s !! name = None →
  let first := SkillEngine.surface s [(name, 40 # 100)] in
  let second := SkillEngine.surface first.2 [(name, 55 # 100)] in
  let third := SkillEngine.surface second.2 [(name, 65 # 100)] in
  first.1 = [(name, 40 # 100)]
  ∧ SkillEngine.get_max_relevance first.2 name = (40 # 100)%Q
  ∧ second.1 = []
  ∧ second.2 = first.2
  ∧ SkillEngine.get_max_relevance second.2 name = (40 # 100)%Q
  ∧ third.1 = [(name, 65 # 100)]
  ∧ SkillEngine.get_max_relevance third.2 name = (65 # 100)%Q.
Proof.
  intros Hnew. cbv zeta.
  assert (SkillEngine.get_max_relevance s name = 0%Q) as H0
    by (unfold SkillEngine.get_max_relevance; by rewrite Hnew).
  rewrite (surface_one_shown s name (40 # 100))
    by (unfold SkillEngine.renotifiable; by rewrite Hnew).
  cbn [fst snd].
  set (s1 := SkillEngine.record_shown s name (40 # 100)).
  assert (s1 !! name = Some (40 # 100)%Q) as H1.
  { unfold s1, SkillEngine.record_shown. rewrite lookup_insert_eq, H0. reflexivity. }
  rewrite (surface_one_hidden s1 name (55 # 100))
    by (rewrite (renotifiable_seen _ _ _ _ H1); reflexivity).
  cbn [fst snd].
  rewrite (surface_one_shown s1 name (65 # 100))
    by (rewrite (renotifiable_seen _ _ _ _ H1); reflexivity).
  cbn [fst snd].
  assert (SkillEngine.get_max_relevance s1 name = (40 # 100)%Q) as G1
    by (unfold SkillEngine.get_max_relevance; by rewrite H1).
  repeat split; try done.
  rewrite get_record_shown_same, G1. reflexivity.
Qed.

Lemma C5_renotification_witness :
  let first := SkillEngine.surface ∅ [("WebSocket Testing", 40 # 100)] in
  let second := SkillEngine.surface first.2 [("WebSocket Testing", 55 # 100)] in
  let third := SkillEngine.surface second.2 [("WebSocket Testing", 65 # 100)] in
  first.1 = [("WebSocket Testing", 40 # 100)]
  ∧ SkillEngine.get_max_relevance first.2 "WebSocket Testing" = (40 # 100)%Q
  ∧ second.1 = []
  ∧ second.2 = first.2
  ∧ SkillEngine.get_max_relevance second.2 "WebSocket Testing" = (40 # 100)%Q
  ∧ third.1 = [("WebSocket Testing", 65 # 100)]
  ∧ SkillEngine.get_max_relevance third.2 "WebSocket Testing" = (65 # 100)%Q.
Proof. apply (C5_renotification ∅ "WebSocket Testing"). reflexivity. Defined.

(** ** GapRecorder *)

Section GapFacts.

Variable suffixes keywords : list (string * string).

Lemma has_gap_false (gaps : list SkillEngine.GapRecord) (source : string) :
  SkillEngine.has_gap gaps source = false →
  SkillEngine.gaps_for gaps source = [].
Proof.
  unfold SkillEngine.has_gap, SkillEngine.gaps_for.
  induction gaps as [| g gaps IH]; [reflexivity |]. simpl.
  intros H. apply orb_false_iff in H as [Hg Hrest].
  rewrite filter_cons_False; [by apply IH |].
  intros E. rewrite E, String.eqb_refl in Hg. discriminate.
Qed.

Lemma has_gap_true (gaps : list SkillEngine.GapRecord) (source : string) :
  SkillEngine.has_gap gaps source = true →
  SkillEngine.gaps_for gaps source ≠ [].
Proof.
  unfold SkillEngine.has_gap, SkillEngine.gaps_for.
  induction gaps as [| g gaps IH]; [discriminate |]. simpl.
  intros H. apply orb_true_iff in H as [Hg | Hrest].
  - apply String.eqb_eq in Hg. by rewrite filter_cons_True.
  - destruct (decide (SkillEngine.source_identifier g = source)).
    + by rewrite filter_cons_True.
    + rewrite filter_cons_False by done. by apply IH.
Qed.

Lemma record_gap_known (now : Z) (gaps : list SkillEngine.GapRecord)
    (source sample : string) (best : option string) (rel : Q) :
  SkillEngine.has_gap gaps source = true →
  SkillEngine.record_gap suffixes keywords now gaps source sample best rel = gaps.
Proof. intros H. unfold SkillEngine.record_gap. by rewrite H. Qed.

Lemma record_gap_has (now : Z) (gaps : list SkillEngine.GapRecord)
    (source sample : string) (best : option string) (rel : Q) :
  SkillEngine.has_gap (SkillEngine.record_gap suffixes keywords now gaps source sample best rel) source = true.
Proof.
  unfold SkillEngine.record_gap.
  destruct (SkillEngine.has_gap gaps source) eqn:H; [exact H |].
  unfold SkillEngine.has_gap. rewrite existsb_app. simpl.
  rewrite String.eqb_refl. by rewrite orb_true_r.
Qed.

Lemma record_gap_deduplicated (now : Z) (gaps : list SkillEngine.GapRecord)
    (source sample : string) (best : option string) (rel : Q) :
  SkillEngine.deduplicated gaps →
  SkillEngine.deduplicated (SkillEngine.record_gap suffixes keywords now gaps source sample best rel).
Proof.
  intros Hd other. unfold SkillEngine.record_gap.
  destruct (SkillEngine.has_gap gaps source) eqn:H; [apply Hd |].
  unfold SkillEngine.gaps_for. rewrite filter_app, length_app.
  destruct (decide (source = other)) as [<- | Hne].
  - fold (SkillEngine.gaps_for gaps source). rewrite (has_gap_false _ _ H).
    rewrite filter_cons_True by done. simpl. lia.
  - rewrite filter_cons_False by done. simpl.
    specialize (Hd other). unfold SkillEngine.gaps_for in Hd. lia.
Qed.

Lemma session_gaps_deduplicated (calls : list SkillEngine.GapCall) :
  SkillEngine.deduplicated (SkillEngine.session_gaps suffixes keywords calls).
Proof.
  unfold SkillEngine.session_gaps.
  assert (∀ gaps, SkillEngine.deduplicated gaps →
                  SkillEngine.deduplicated (foldl (SkillEngine.apply_gap suffixes keywords)
                                      gaps calls)) as H.
  { induction calls as [| c calls IH]; intros gaps Hd; [exact Hd |].
    simpl. apply IH. by apply record_gap_deduplicated. }
  apply H. intros source. simpl. lia.
Qed.

Lemma record_gap_one (now : Z) (gaps : list SkillEngine.GapRecord)
    (source sample : string) (best : option string) (rel : Q) :
  SkillEngine.deduplicated gaps →
  length (SkillEngine.gaps_for (SkillEngine.record_gap suffixes keywords now gaps source sample best rel) source)
  = 1%nat.
Proof.
  intros Hd.
  pose proof (record_gap_deduplicated now gaps source sample best rel Hd source).
  pose proof (has_gap_true _ _ (record_gap_has now gaps source sample best rel)).
  destruct (SkillEngine.gaps_for _ source) as [| g [| g' l]]; simpl in *;
    [done | done | lia].
Qed.

End GapFacts.

(** C6: in a session (the gap store starts empty and changes only through
    [record_gap]), a second [record_gap] with the same identifier returns the
    store of the first unchanged, whatever its other arguments, and the store
    holds exactly one record for the identifier. *)
Theorem C6_record_gap_idempotent (suffixes keywords : list (string * string))
    (calls : list SkillEngine.GapCall) (now now' : Z)
    (source sample sample' : string) (best best' : option string)
    (rel rel' : Q) :
  let gaps := SkillEngine.session_gaps suffixes keywords calls in
  let once :=
    SkillEngine.record_gap suffixes keywords now gaps source sample best rel in
  let twice :=
    SkillEngine.record_gap suffixes keywords now' once source sample' best' rel' in
  twice = once
  ∧ length (SkillEngine.gaps_for once source) = 1%nat
  ∧ length (SkillEngine.gaps_for twice source) = 1%nat.
Proof.
  cbv zeta.
  rewrite (record_gap_known suffixes keywords now') by apply record_gap_has.
  split; [reflexivity |].
  split; apply record_gap_one, session_gaps_deduplicated.
Qed.

Example record_gap_ex :
  let gaps := SkillEngine.record_gap [(".md", "documentation")] [("sql", "database")]
                1 [] "fileA.txt" "what is the capital of France" None (10 # 100) in
  map SkillEngine.domain_hints gaps = [["general"]]
  ∧ SkillEngine.record_gap [(".md", "documentation")] [("sql", "database")]
      2 gaps "fileA.txt" "a SQL query" (Some "db") (20 # 100) = gaps
  ∧ map SkillEngine.domain_hints
      (SkillEngine.record_gap [(".md", "documentation")] [("sql", "database")]
         3 gaps "notes.md" "a SQL query" (Some "db") (20 # 100))
    = [["general"]; ["documentation"; "database"]].
Proof. repeat split; reflexivity. Qed.

(** ** [BeadAssigner] *)

Lemma is_bead_reserved_false (st : gmap string Beads.ResFile) (bead : string) :
  Beads.is_bead_reserved st bead = false ↔ st !! bead = None.
Proof.
  unfold Beads.is_bead_reserved. rewrite bool_decide_eq_false.
  rewrite <- eq_None_not_Some. reflexivity.
Qed.

Lemma is_bead_reserved_true (st : gmap string Beads.ResFile) (bead : string) :
  Beads.is_bead_reserved st bead = true ↔ is_Some (st !! bead).
Proof. unfold Beads.is_bead_reserved. apply bool_decide_eq_true. Qed.

Lemma reserve_bead_taken (now now' : Z) (st : gmap string Beads.ResFile)
    (bead agent : string) (hours : Z) :
  is_Some (st !! bead) →
  Beads.reserve_bead now now' st bead agent hours = (st, false).
Proof.
  intros H. unfold Beads.reserve_bead.
  by rewrite (proj2 (is_bead_reserved_true st bead) H).
Qed.

Lemma reserve_bead_free (now now' : Z) (st : gmap string Beads.ResFile)
    (bead agent : string) (hours : Z) :
  st !! bead = None →
  Beads.reserve_bead now now' st bead agent hours
  = (<[bead := Beads.Valid
         {| Beads.bead_id := bead; Beads.agent_id := agent;
            Beads.reserved_at := now;
            Beads.expires_at := now' + hours * Beads.MICROS_PER_HOUR;
            Beads.status := "reserved" |}]> st, true).
Proof.
  intros H. unfold Beads.reserve_bead.
  by rewrite (proj2 (is_bead_reserved_false st bead) H).
Qed.

(** [assign_next_bead] only ever adds a reservation for a bead that had
    none: the entries that exist stay as they are. *)
Lemma assign_next_bead_keeps (now now' : Z) (ready : list string)
    (agent : string) (st : gmap string Beads.ResFile) (bead : string)
    (f : Beads.ResFile) :
  st !! bead = Some f →
  (Beads.assign_next_bead now now' st ready agent).1 !! bead = Some f.
Proof.
  revert st. induction ready as [| b ready IH]; intros st H; [exact H |].
  simpl. destruct (Beads.is_bead_reserved st b) eqn:Hb; simpl.
  - by apply IH.
  - apply is_bead_reserved_false in Hb.
    rewrite (reserve_bead_free _ _ _ _ _ _ Hb). simpl.
    rewrite lookup_insert_ne; [exact H |]. intros ->. congruence.
Qed.

(** The bead handed out is the first ready bead without a reservation. *)
Lemma assign_next_bead_some (now now' : Z) (ready : list string)
    (agent : string) (st : gmap string Beads.ResFile) (bead : string) :
  (Beads.assign_next_bead now now' st ready agent).2 = Some bead →
  bead ∈ ready ∧ st !! bead = None
  ∧ ∃ r, (Beads.assign_next_bead now now' st ready agent).1
         = <[bead := Beads.Valid r]> st ∧ Beads.agent_id r = agent.
Proof.
  revert st. induction ready as [| b ready IH]; intros st; [discriminate |].
  simpl. destruct (Beads.is_bead_reserved st b) eqn:Hb; simpl.
  - intros H. destruct (IH st H) as (Hin & Hfree & r & E & Ha).
    split; [by right |]. eauto.
  - apply is_bead_reserved_false in Hb.
    rewrite (reserve_bead_free _ _ _ _ _ _ Hb). simpl.
    intros [= <-]. split; [by left |]. split; [exact Hb |]. eauto.
Qed.

(** C10: [reserve_bead] returns [True] exactly when the bead had no
    reservation, and then the store gains the reservation for this agent and
    nothing else changes; when it returns [False] the store is the one it was
    given.  After a successful reservation every further [reserve_bead] and
    [assign_next_bead], for any agent, leaves that reservation in place, and
    [reserve_bead] succeeds again once [release_bead] has removed it. *)
Theorem C10_reserve_iff_free (now now' : Z) (st : gmap string Beads.ResFile)
    (bead agent : string) (hours : Z) :
  let r := Beads.reserve_bead now now' st bead agent hours in
  (r.2 = true ↔ st !! bead = None)
  ∧ (r.2 = true →
     ∃ res, r.1 = <[bead := Beads.Valid res]> st
            ∧ Beads.bead_id res = bead ∧ Beads.agent_id res = agent
            ∧ ∀ now2 now2' agent2 hours2 ready,
                Beads.reserve_bead now2 now2' r.1 bead agent2 hours2 = (r.1, false)
                ∧ (Beads.assign_next_bead now2 now2' r.1 ready agent2).1 !! bead
                  = Some (Beads.Valid res))
  ∧ (r.2 = false → r.1 = st)
  ∧ (∀ now2 now2' agent2 hours2,
       (Beads.reserve_bead now2 now2' (Beads.release_bead r.1 bead).1
          bead agent2 hours2).2 = true).
Proof.
  cbv zeta. destruct (st !! bead) as [f |] eqn:Hst.
  - rewrite reserve_bead_taken by (rewrite Hst; eauto). simpl.
    split; [split; discriminate |]. split; [discriminate |].
    split; [reflexivity |]. intros.
    unfold Beads.release_bead.
    rewrite (proj2 (is_bead_reserved_true st bead)) by (rewrite Hst; eauto).
    simpl. rewrite reserve_bead_free by apply lookup_delete_eq. reflexivity.
  - rewrite (reserve_bead_free _ _ _ _ _ _ Hst). simpl.
    split; [split; reflexivity |]. split.
    + intros _. eexists. split; [reflexivity |]. split; [reflexivity |].
      split; [reflexivity |]. intros. split.
      * apply reserve_bead_taken. rewrite lookup_insert_eq. eauto.
      * apply assign_next_bead_keeps, lookup_insert_eq.
    + split; [discriminate |]. intros.
      unfold Beads.release_bead.
      rewrite (proj2 (is_bead_reserved_true _ bead))
        by (rewrite lookup_insert_eq; eauto).
      simpl. rewrite reserve_bead_free by apply lookup_delete_eq. reflexivity.
Qed.

Example reserve_ex :
  let st1 := (Beads.reserve_bead 100 101 ∅ "bd-1" "implementor-1" 4).1 in
  let second := Beads.reserve_bead 200 201 st1 "bd-1" "implementor-2" 4 in
  let assigned := Beads.assign_next_bead 300 301 st1 ["bd-1"; "bd-2"] "implementor-2" in
  second = (st1, false)
  ∧ assigned.2 = Some "bd-2"
  ∧ assigned.1 !! "bd-1" = st1 !! "bd-1"
  ∧ (Beads.reserve_bead 400 401 (Beads.release_bead st1 "bd-1").1
       "bd-1" "implementor-2" 4).2 = true.
Proof. repeat split; reflexivity. Qed.

(** ** [clean_memories]: the dry run *)

Section DryRun.

Variable fromisoformat : string → option DateTime.
Variables (cutoff : Z) (scope : string).

Lemma clean_file_dry (st : FS * Fallback.Results) (file_path : string) :
  (Fallback.clean_file fromisoformat true cutoff scope st file_path).1 = st.1.
Proof.
  unfold Fallback.clean_file.
  destruct (st.1 !! file_path) as [lines |]; [| reflexivity].
  destruct (read_jsonl_lenient lines); [reflexivity |].
  destruct (foldM _ _ _) as [[filtered deleted] | e]; reflexivity.
Qed.

(** A turn of the loop touches no file but its own. *)
Lemma clean_file_frame (dry : bool) (st : FS * Fallback.Results)
    (file_path other : string) :
  other ≠ file_path →
  (Fallback.clean_file fromisoformat dry cutoff scope st file_path).1 !! other
  = st.1 !! other.
Proof.
  intros Hne. unfold Fallback.clean_file.
  destruct (st.1 !! file_path) as [lines |]; [| reflexivity].
  destruct (read_jsonl_lenient lines); [reflexivity |].
  destruct (foldM _ _ _) as [[filtered deleted] | e]; [| reflexivity].
  destruct (negb dry && _); [| reflexivity].
  simpl. by rewrite lookup_insert_ne.
Qed.

(** The report of a turn depends on the file as it is read and on the report
    so far, not on whether the turn writes. *)
Lemma clean_file_report (dry dry' flag : bool) (st st' : FS * Fallback.Results)
    (file_path : string) :
  st.1 !! file_path = st'.1 !! file_path →
  Fallback.with_dry_run flag st.2 = st'.2 →
  Fallback.with_dry_run flag
    (Fallback.clean_file fromisoformat dry cutoff scope st file_path).2
  = (Fallback.clean_file fromisoformat dry' cutoff scope st' file_path).2.
Proof.
  intros Hfile Hrep. unfold Fallback.clean_file. rewrite <- Hfile.
  destruct (st.1 !! file_path) as [lines |]; [| exact Hrep].
  destruct (read_jsonl_lenient lines) as [| m ms]; [exact Hrep |].
  destruct (foldM _ _ _) as [[filtered deleted] | e].
  - destruct (negb dry && _), (negb dry' && _); simpl; by rewrite <- Hrep.
  - simpl. by rewrite <- Hrep.
Qed.

Lemma clean_files_dry (files : list string) (st : FS * Fallback.Results) :
  (foldl (Fallback.clean_file fromisoformat true cutoff scope) st files).1 = st.1.
Proof.
  revert st. induction files as [| p files IH]; intros st; [reflexivity |].
  simpl. rewrite IH. apply clean_file_dry.
Qed.

Lemma clean_files_report (flag : bool) (files : list string) :
  NoDup files →
  ∀ st st' : FS * Fallback.Results,
    (∀ p, p ∈ files → st.1 !! p = st'.1 !! p) →
    Fallback.with_dry_run flag st.2 = st'.2 →
    Fallback.with_dry_run flag
      (foldl (Fallback.clean_file fromisoformat true cutoff scope) st files).2
    = (foldl (Fallback.clean_file fromisoformat false cutoff scope) st' files).2.
Proof.
  induction 1 as [| p files Hnotin Hnodup IH]; intros st st' Hsame Hrep;
    [exact Hrep |].
  simpl. apply IH.
  - intros q Hq.
    assert (q ≠ p) as Hne by (intros ->; contradiction).
    rewrite !clean_file_frame by done. apply Hsame. by right.
  - apply clean_file_report; [| exact Hrep]. apply Hsame. by left.
Qed.

End DryRun.

Lemma glob_NoDup (fs : FS) : NoDup (Fallback.glob fs).
Proof. unfold Fallback.glob. apply NoDup_filter, NoDup_fst_map_to_list. Qed.

(** C9: with [dry_run=True], [clean_memories] leaves the storage directory
    as it found it, for any agent filter, age, scope and [force]; and what it
    returns is what the run with [dry_run=False] returns on the same
    directory, up to the [dry_run] entry of the report: the same four
    counters, the same affected agents and files, or the same exception. *)
Theorem C9_dry_run_changes_nothing (fromisoformat : string → option DateTime)
    (now : Z) (fs : FS) (agent_name : option string) (days : Z)
    (scope : string) (force : bool) :
  let dry :=
    Fallback.clean_memories fromisoformat now fs agent_name days scope true force in
  let real :=
    Fallback.clean_memories fromisoformat now fs agent_name days scope false force in
  dry.1 = fs
  ∧ Fallback.with_dry_run false <$> dry.2 = real.2
  ∧ Fallback.counts <$> dry.2 = Fallback.counts <$> real.2.
Proof.
  cbv zeta.
  assert (∀ r r' : Result Fallback.Results,
            Fallback.with_dry_run false <$> r = r' →
            Fallback.counts <$> r = Fallback.counts <$> r') as Hcounts.
  { intros [r | e] r' <-; reflexivity. }
  unfold Fallback.clean_memories.
  destruct (PyTime.minus_days now days) as [cutoff | e]; [| by repeat split].
  destruct (Fallback.glob fs) as [| p ps] eqn:Hglob; [by repeat split |].
  destruct (Py.opt_truthy agent_name && _); [by repeat split |].
  set (files := if Py.opt_truthy agent_name then _ else _).
  assert (NoDup files) as Hnodup.
  { unfold files. destruct (Py.opt_truthy agent_name).
    - apply NoDup_singleton.
    - rewrite <- Hglob. apply glob_NoDup. }
  cbn [fst snd].
  split; [apply clean_files_dry |].
  assert (Fallback.with_dry_run false <$>
            Ok (foldl (Fallback.clean_file fromisoformat true cutoff scope)
                      (fs, Fallback.initial_results true) files).2
          = Ok (foldl (Fallback.clean_file fromisoformat false cutoff scope)
                      (fs, Fallback.initial_results false) files).2) as E.
  { change (Ok (Fallback.with_dry_run false
                  (foldl (Fallback.clean_file fromisoformat true cutoff scope)
                         (fs, Fallback.initial_results true) files).2) = Ok
              (foldl (Fallback.clean_file fromisoformat false cutoff scope)
                     (fs, Fallback.initial_results false) files).2).
    f_equal. by apply clean_files_report. }
  split; [exact E | by apply Hcounts].
Qed.

(** ** Bounded histories *)

Lemma last_n_map {A B} (f : A → B) (k : Z) (l : list A) :
  PySlice.last_n k (map f l) = map f (PySlice.last_n k l).
Proof.
  unfold PySlice.last_n, PySlice.from.
  rewrite length_map. apply skipn_map.
Qed.

Lemma last_n_Forall {A} (P : A → Prop) (k : Z) (l : list A) :
  Forall P l → Forall P (PySlice.last_n k l).
Proof. unfold PySlice.last_n, PySlice.from. apply Forall_drop. Qed.

Lemma last_n_bound {A} (k : Z) (l : list A) :
  0 < k → Z.of_nat (length (PySlice.last_n k l)) ≤ k.
Proof. intros Hk. pose proof (last_n_length k l Hk). lia. Qed.

Lemma read_jsonl_lenient_dump (ms : list Json) :
  read_jsonl_lenient (dump_jsonl ms) = ms.
Proof. induction ms as [| m ms IH]; [reflexivity |]. simpl. by rewrite IH. Qed.

(** A file that only the service wrote is a dump of its memories. *)
Lemma written_file_is_dump (ls : list Line) :
  Forall Fallback.written_by_service ls →
  ls = dump_jsonl (read_jsonl_lenient ls)
  ∧ Forall (λ m, Fallback.written_by_service (Doc m)) (read_jsonl_lenient ls).
Proof.
  induction 1 as [| l ls Hl _ [IH1 IH2]]; [by split |].
  destruct Hl as (now & content & agent & bead & ->). simpl. split.
  - by rewrite <- IH1.
  - constructor; [by eexists _, _, _, _ | exact IH2].
Qed.

Lemma cleanup_readable (fs : FS) (file_path : string) (keep : Z) (ms : list Json) :
  fs !! file_path = Some (dump_jsonl ms) →
  Fallback._cleanup_old_memories fs file_path keep
  = (<[file_path := dump_jsonl (PySlice.last_n keep ms)]> fs, Ok ()).
Proof.
  intros H. unfold Fallback._cleanup_old_memories.
  by rewrite H, read_jsonl_dump.
Qed.

Lemma cleanup_missing (fs : FS) (file_path : string) (keep : Z) :
  fs !! file_path = None →
  Fallback._cleanup_old_memories fs file_path keep = (fs, Ok ()).
Proof. intros H. unfold Fallback._cleanup_old_memories. by rewrite H. Qed.

Lemma entries_insert (fs : FS) (file_path : string) (ls : list Line) :
  Fallback.entries (<[file_path := ls]> fs) file_path = ls.
Proof. unfold Fallback.entries. by rewrite lookup_insert_eq. Qed.

(** A store into a file that the service wrote returns the new memory and
    leaves the last [max_memories] lines. *)
Lemma store_readable (max_memories : Z) (now : string) (fs : FS)
    (content agent_name : string) (bead_id : option string) (ms : list Json) :
  Fallback.entries fs (Fallback.agent_file agent_name) = dump_jsonl ms →
  let memory := Fallback.extract_memories now content agent_name bead_id in
  Fallback.store_memories max_memories now fs content agent_name bead_id
  = (<[Fallback.agent_file agent_name :=
         dump_jsonl (PySlice.last_n max_memories (ms ++ [memory]))]> fs,
     Ok memory).
Proof.
  intros H memory. unfold Fallback.store_memories, Fallback.append_line.
  fold (Fallback.entries fs (Fallback.agent_file agent_name)). rewrite H.
  fold memory.
  rewrite (cleanup_readable _ _ _ (ms ++ [memory])).
  - by rewrite insert_insert_eq.
  - rewrite lookup_insert_eq. unfold dump_jsonl. by rewrite map_app.
Qed.





(** The other categories of a memory are cut at five entries. *)
Lemma category_caps (now content agent_name : string) (bead_id : option string) :
  let memory := Fallback.extract_memories now content agent_name bead_id in
  let lines := PyStr.split_lines content in
  Fallback.category memory "decisions"
  = Ok (Fallback.strs (take 5 (Fallback.extract_decisions lines)))
  ∧ Fallback.category memory "context"
    = Ok (Fallback.strs (take 5 (Fallback.extract_context bead_id lines)))
  ∧ Fallback.category memory "errors"
    = Ok (Fallback.strs (take 5 (Fallback.extract_errors lines)))
  ∧ Fallback.category memory "communication" = Ok (JArr []).
Proof. repeat split; reflexivity. Qed.











Example cleanup_zero_keeps_all :
  Fallback.entries
    (Fallback._cleanup_old_memories Samples.fs_fifty "alice_memories.jsonl" 0).1
    "alice_memories.jsonl"
  = Fallback.entries Samples.fs_fifty "alice_memories.jsonl".
Proof. vm_compute. reflexivity. Qed.

Example clean_ex :
  let dry := Fallback.clean_memories Samples.parse_const Samples.some_now
               Samples.fs_alice None 30 "age" true false in
  let real := Fallback.clean_memories Samples.parse_const Samples.some_now
                Samples.fs_alice None 30 "age" false false in
  dry.1 = Samples.fs_alice
  ∧ Fallback.counts <$> dry.2 = Ok (1, 1, 1, 0)%nat
  ∧ Fallback.counts <$> real.2 = Ok (1, 1, 1, 0)%nat
  ∧ Fallback.entries real.1 "alice_memories.jsonl" = [].
Proof. repeat split; vm_compute; reflexivity. Qed.

(** [reserve_bead] does not look at [expires_at]: a reservation that has
    expired still blocks the bead until [cleanup_expired_reservations] or
    [release_bead] removes its file. *)
Example expired_reservation_blocks :
  let st := (Beads.reserve_bead 100 101 ∅ "bd-1" "implementor-1" 4).1 in
  let late := 101 + 5 * Beads.MICROS_PER_HOUR in
  (Beads.reserve_bead late late st "bd-1" "implementor-2" 4).2 = false
  ∧ (Beads.reserve_bead late late (Beads.cleanup_expired_reservations late st)
       "bd-1" "implementor-2" 4).2 = true
  ∧ Beads.cleanup_expired_reservations 102 st = st.
Proof. repeat split; vm_compute; reflexivity. Qed.

(** * Further properties of the code *)

(** ** [BeadAssigner]: releasing, assigning, expiry *)

(** X1: releasing a bead right after reserving it, when it was free, gives
    back the reservations directory as it was, and reports [True]. *)
Theorem X1_release_undoes_reserve (now now' : Z)
    (st : gmap string Beads.ResFile) (bead agent : string) (hours : Z) :
  st !! bead = None →
  Beads.release_bead (Beads.reserve_bead now now' st bead agent hours).1 bead
  = (st, true).
Proof.
  intros Hfree. rewrite (reserve_bead_free _ _ _ _ _ _ Hfree). cbn [fst].
  unfold Beads.release_bead.
  rewrite (proj2 (is_bead_reserved_true _ bead))
    by (rewrite lookup_insert_eq; eauto).
  f_equal. by apply delete_insert_id.
Qed.

Lemma X1_release_undoes_reserve_witness :
  Beads.release_bead
    (Beads.reserve_bead 100 101 ∅ "bd-1" "implementor-1" 4).1 "bd-1"
  = (∅, true).
Proof. apply (X1_release_undoes_reserve 100 101 ∅). reflexivity. Defined.

Lemma assign_next_bead_none (now now' : Z) (ready : list string)
    (agent : string) (st : gmap string Beads.ResFile) :
  (Beads.assign_next_bead now now' st ready agent).2 = None
  ↔ Forall (λ b, is_Some (st !! b)) ready.
Proof.
  revert st. induction ready as [| b ready IH]; intros st; [by split |].
  simpl. destruct (Beads.is_bead_reserved st b) eqn:Hb; simpl.
  - apply is_bead_reserved_true in Hb. rewrite IH. split.
    + intros H. by constructor.
    + intros H. by inversion H.
  - apply is_bead_reserved_false in Hb.
    rewrite (reserve_bead_free _ _ _ _ _ _ Hb). simpl. split; [discriminate |].
    intros H. inversion H as [| ? ? [f Hf] _]. congruence.
Qed.

Lemma assign_next_bead_none_keeps (now now' : Z) (ready : list string)
    (agent : string) (st : gmap string Beads.ResFile) :
  (Beads.assign_next_bead now now' st ready agent).2 = None →
  (Beads.assign_next_bead now now' st ready agent).1 = st.
Proof.
  revert st. induction ready as [| b ready IH]; intros st; [done |].
  simpl. destruct (Beads.is_bead_reserved st b) eqn:Hb; simpl.
  - apply IH.
  - apply is_bead_reserved_false in Hb.
    rewrite (reserve_bead_free _ _ _ _ _ _ Hb). discriminate.
Qed.

(** X2: [assign_next_bead] returns [None] exactly when every ready bead
    already has a reservation, and then it leaves the reservations as they
    were. *)
Theorem X2_assign_none_iff_exhausted (now now' : Z) (ready : list string)
    (agent : string) (st : gmap string Beads.ResFile) :
  ((Beads.assign_next_bead now now' st ready agent).2 = None
   ↔ Forall (λ b, is_Some (st !! b)) ready)
  ∧ ((Beads.assign_next_bead now now' st ready agent).2 = None →
     (Beads.assign_next_bead now now' st ready agent).1 = st).
Proof.
  split; [apply assign_next_bead_none | apply assign_next_bead_none_keeps].
Qed.

Lemma assign_next_bead_first (now now' : Z) (ready : list string)
    (agent : string) (st : gmap string Beads.ResFile) (bead : string) :
  (Beads.assign_next_bead now now' st ready agent).2 = Some bead →
  ∃ before after, ready = before ++ bead :: after
                  ∧ Forall (λ b, is_Some (st !! b)) before
                  ∧ st !! bead = None.
Proof.
  revert st. induction ready as [| b ready IH]; intros st; [discriminate |].
  simpl. destruct (Beads.is_bead_reserved st b) eqn:Hb; simpl.
  - apply is_bead_reserved_true in Hb. intros H.
    destruct (IH st H) as (before & after & -> & Hall & Hfree).
    exists (b :: before), after. split; [reflexivity |].
    split; [by constructor | exact Hfree].
  - apply is_bead_reserved_false in Hb.
    rewrite (reserve_bead_free _ _ _ _ _ _ Hb). simpl. intros [= <-].
    exists [], ready. by split.
Qed.

(** X3: the bead that [assign_next_bead] hands out is the first ready bead
    without a reservation, it is reserved for the asking agent, and no later
    [assign_next_bead], for any agent and any ready list, hands out the same
    bead while that reservation stands. *)
Theorem X3_assign_first_fit_no_double (now now' : Z) (ready : list string)
    (agent : string) (st : gmap string Beads.ResFile) (bead : string) :
  (Beads.assign_next_bead now now' st ready agent).2 = Some bead →
  let st1 := (Beads.assign_next_bead now now' st ready agent).1 in
  (∃ before after, ready = before ++ bead :: after
                   ∧ Forall (λ b, is_Some (st !! b)) before
                   ∧ st !! bead = None)
  ∧ (∃ r, st1 !! bead = Some (Beads.Valid r) ∧ Beads.agent_id r = agent)
  ∧ ∀ now2 now2' ready2 agent2,
      (Beads.assign_next_bead now2 now2' st1 ready2 agent2).2 ≠ Some bead.
Proof.
  intros H. cbv zeta.
  destruct (assign_next_bead_some _ _ _ _ _ _ H) as (_ & _ & r & E & Ha).
  split; [exact (assign_next_bead_first _ _ _ _ _ _ H) |].
  assert ((Beads.assign_next_bead now now' st ready agent).1 !! bead
          = Some (Beads.Valid r)) as Hres by (rewrite E; apply lookup_insert_eq).
  split; [eauto |].
  intros now2 now2' ready2 agent2 H2.
  destruct (assign_next_bead_some _ _ _ _ _ _ H2) as (_ & Hfree & _).
  congruence.
Qed.

Lemma X3_assign_first_fit_no_double_witness :
  let st := (Beads.reserve_bead 100 101 ∅ "bd-1" "implementor-1" 4).1 in
  let st1 := (Beads.assign_next_bead 200 201 st ["bd-1"; "bd-2"] "implementor-2").1 in
  (∃ before after, ["bd-1"; "bd-2"] = before ++ "bd-2" :: after
                   ∧ Forall (λ b, is_Some (st !! b)) before
                   ∧ st !! "bd-2" = None)
  ∧ (∃ r, st1 !! "bd-2" = Some (Beads.Valid r)
          ∧ Beads.agent_id r = "implementor-2")
  ∧ ∀ now2 now2' ready2 agent2,
      (Beads.assign_next_bead now2 now2' st1 ready2 agent2).2 ≠ Some "bd-2".
Proof.
  apply (X3_assign_first_fit_no_double 200 201 ["bd-1"; "bd-2"] "implementor-2"
           (Beads.reserve_bead 100 101 ∅ "bd-1" "implementor-1" 4).1 "bd-2").
  reflexivity.
Defined.

Lemma cleanup_lookup (now : Z) (st : gmap string Beads.ResFile)
    (bead : string) (f : Beads.ResFile) :
  Beads.cleanup_expired_reservations now st !! bead = Some f
  ↔ st !! bead = Some f ∧ Beads.expired now f = false.
Proof.
  unfold Beads.cleanup_expired_reservations.
  rewrite map_lookup_filter_Some. simpl.
  destruct (Beads.expired now f); simpl; intuition (auto; discriminate).
Qed.

Lemma cleanup_lookup_None (now : Z) (st : gmap string Beads.ResFile)
    (bead : string) :
  Beads.cleanup_expired_reservations now st !! bead = None
  ↔ ∀ f, st !! bead = Some f → Beads.expired now f = true.
Proof.
  rewrite eq_None_not_Some. split.
  - intros Hnone f Hf. destruct (Beads.expired now f) eqn:He; [done |].
    exfalso. apply Hnone. exists f. by apply cleanup_lookup.
  - intros Hall [f Hf]. apply cleanup_lookup in Hf as [Hf He].
    rewrite (Hall f Hf) in He. discriminate.
Qed.

(** X4: a reservation is a lease.  After [reserve_bead] on a free bead, the
    bead stays reserved through [cleanup_expired_reservations] at any time
    up to and including its expiry, so nobody else can reserve it; a
    clean-up at a later time removes it and the bead can be reserved
    again. *)
Theorem X4_reservation_is_a_lease (now now' : Z)
    (st : gmap string Beads.ResFile) (bead agent : string) (hours : Z) :
  st !! bead = None →
  let st1 := (Beads.reserve_bead now now' st bead agent hours).1 in
  let expiry := now' + hours * Beads.MICROS_PER_HOUR in
  ∀ t now2 now2' agent2 hours2,
    (t ≤ expiry →
     Beads.reserve_bead now2 now2' (Beads.cleanup_expired_reservations t st1)
       bead agent2 hours2
     = (Beads.cleanup_expired_reservations t st1, false))
    ∧ (expiry < t →
       (Beads.reserve_bead now2 now2' (Beads.cleanup_expired_reservations t st1)
          bead agent2 hours2).2 = true).
Proof.
  intros Hfree. cbv zeta. rewrite (reserve_bead_free _ _ _ _ _ _ Hfree).
  cbn [fst]. intros t now2 now2' agent2 hours2. split; intros Ht.
  - apply reserve_bead_taken. eexists. apply cleanup_lookup.
    split; [apply lookup_insert_eq |]. simpl. apply Z.ltb_ge. exact Ht.
  - rewrite reserve_bead_free; [reflexivity |].
    apply cleanup_lookup_None. intros f. rewrite lookup_insert_eq.
    intros [= <-]. simpl. by apply Z.ltb_lt.
Qed.

Lemma X4_reservation_is_a_lease_witness :
  (∅ : gmap string Beads.ResFile) !! "bd-1" = None
  ∧ let st1 := (Beads.reserve_bead 100 101 ∅ "bd-1" "implementor-1" 4).1 in
    let expiry := 101 + 4 * Beads.MICROS_PER_HOUR in
    ∀ t now2 now2' agent2 hours2,
      (t ≤ expiry →
       Beads.reserve_bead now2 now2' (Beads.cleanup_expired_reservations t st1)
         "bd-1" agent2 hours2
       = (Beads.cleanup_expired_reservations t st1, false))
      ∧ (expiry < t →
         (Beads.reserve_bead now2 now2'
            (Beads.cleanup_expired_reservations t st1)
            "bd-1" agent2 hours2).2 = true).
Proof.
  split; [reflexivity |].
  apply (X4_reservation_is_a_lease 100 101 ∅ "bd-1" "implementor-1" 4).
  reflexivity.
Defined.

(** X5: [cleanup_expired_reservations] removes exactly the readable
    reservations whose [expires_at] lies strictly before now: every other
    file is kept with its content, a file that cannot be read is never
    removed, nothing is added, and a second clean-up at the same time changes
    nothing. *)
Theorem X5_cleanup_removes_exactly_expired (now : Z)
    (st : gmap string Beads.ResFile) :
  (∀ bead f,
     Beads.cleanup_expired_reservations now st !! bead = Some f
     ↔ st !! bead = Some f
       ∧ ¬ (∃ r, f = Beads.Valid r ∧ Beads.expires_at r < now))
  ∧ (∀ bead, st !! bead = Some Beads.Unreadable →
             Beads.cleanup_expired_reservations now st !! bead
             = Some Beads.Unreadable)
  ∧ Beads.cleanup_expired_reservations now
      (Beads.cleanup_expired_reservations now st)
    = Beads.cleanup_expired_reservations now st.
Proof.
  assert (∀ f, Beads.expired now f = false
               ↔ ¬ (∃ r, f = Beads.Valid r ∧ Beads.expires_at r < now)) as Hexp.
  { intros [r |]; simpl.
    - rewrite Z.ltb_ge. split.
      + intros Hle (r' & [= <-] & Hlt). lia.
      + intros Hn. destruct (Z.le_gt_cases now (Beads.expires_at r)); [done |].
        exfalso. apply Hn. eauto.
    - split; [| done]. intros _ (r & Hr & _). discriminate. }
  split; [| split].
  - intros bead f. rewrite cleanup_lookup, Hexp. reflexivity.
  - intros bead H. by apply cleanup_lookup.
  - apply map_eq. intros bead. apply option_eq. intros f.
    rewrite !cleanup_lookup. tauto.
Qed.

(** ** [get_ready_beads] *)

Lemma ready_issue_some (issue : Json) (bead : string) :
  Beads.ready_issue issue = Ok (Some bead) →
  bead ≠ ""
  ∧ Py.get issue "id" JNull = Ok (JStr bead)
  ∧ (Py.get issue "status" JNull = Ok (JStr "open")
     ∨ Py.get issue "status" JNull = Ok (JStr "in-progress")).
Proof.
  unfold Beads.ready_issue.
  destruct (Py.get issue "id" JNull) as [i |]; [| discriminate].
  destruct (Py.get issue "status" JNull) as [s |]; [| discriminate]. simpl.
  destruct i as [| | | id | |]; try discriminate.
  destruct (String.eqb_spec id ""); simpl; [discriminate |].
  unfold Beads.ready_status.
  destruct (Py.hashable s); simpl; [| discriminate].
  destruct (Py.eq_str s "open") eqn:Ho; simpl.
  - intros [= <-]. split; [done |]. split; [done |]. left.
    destruct s; try discriminate. simpl in Ho.
    apply String.eqb_eq in Ho. by subst.
  - destruct (Py.eq_str s "in-progress") eqn:Hp; [| discriminate].
    intros [= <-]. split; [done |]. split; [done |]. right.
    destruct s; try discriminate. simpl in Hp.
    apply String.eqb_eq in Hp. by subst.
Qed.

Lemma ready_issue_object (issue : Json) (r : option string) :
  Beads.ready_issue issue = Ok r → ∃ kvs, issue = JObj kvs.
Proof.
  unfold Beads.ready_issue. destruct issue; try discriminate. eauto.
Qed.

Lemma ready_issues_spec (issues : list Json) (beads : list string) :
  Beads.ready_issues issues = Ok beads →
  Forall (λ issue, ∃ kvs, issue = JObj kvs) issues
  ∧ ∀ bead, bead ∈ beads →
      ∃ issue, issue ∈ issues ∧ Beads.ready_issue issue = Ok (Some bead).
Proof.
  revert beads. induction issues as [| issue issues IH]; intros beads.
  - intros [= <-]. split; [constructor |]. intros bead H.
    by apply elem_of_nil in H.
  - simpl. destruct (Beads.ready_issue issue) as [r |] eqn:Hr; [| discriminate].
    simpl. destruct (Beads.ready_issues issues) as [bs |]; [| discriminate].
    simpl. intros [= <-]. destruct (IH bs eq_refl) as [Hobj Hin].
    split; [constructor; [by eapply ready_issue_object | exact Hobj] |].
    intros bead Hb.
    assert (bead ∈ bs → ∃ i, i ∈ issue :: issues
                             ∧ Beads.ready_issue i = Ok (Some bead)) as Hrest.
    { intros H. destruct (Hin bead H) as (i & Hi & E). exists i.
      split; [by right | exact E]. }
    destruct r as [s |]; [| by apply Hrest].
    apply elem_of_cons in Hb as [-> | Hb]; [| by apply Hrest].
    exists issue. split; [by left | exact Hr].
Qed.

(** X6: every bead that [get_ready_beads] returns is the non-empty string
    [id] of an issue that [bd ready] listed with status [open] or
    [in-progress], and [bd] exited with code 0.  If the list holds anything
    that is not an object, the exception is swallowed and no bead at all is
    returned. *)
Theorem X6_ready_beads_are_open_issues (run : Beads.BdRun) (bead : string) :
  bead ∈ Beads.get_ready_beads run →
  bead ≠ ""
  ∧ ∃ issues issue,
      run = Beads.BdExit 0 (Beads.Parsed (JArr issues))
      ∧ issue ∈ issues
      ∧ Py.get issue "id" JNull = Ok (JStr bead)
      ∧ (Py.get issue "status" JNull = Ok (JStr "open")
         ∨ Py.get issue "status" JNull = Ok (JStr "in-progress"))
      ∧ Forall (λ i, ∃ kvs, i = JObj kvs) issues.
Proof.
  unfold Beads.get_ready_beads.
  destruct run as [| code out]; [intros H; by apply elem_of_nil in H |].
  destruct (Z.eqb_spec code 0) as [-> | Hne]; simpl;
    [| intros H; by apply elem_of_nil in H].
  destruct out as [| v |]; try (intros H; by apply elem_of_nil in H).
  destruct v as [| | | | issues |]; try (intros H; by apply elem_of_nil in H).
  destruct (Beads.ready_issues issues) as [beads |] eqn:E;
    [| intros H; by apply elem_of_nil in H].
  intros Hb. destruct (ready_issues_spec _ _ E) as [Hobj Hin].
  destruct (Hin bead Hb) as (issue & Hi & Hr).
  destruct (ready_issue_some _ _ Hr) as (Hne & Hid & Hst).
  split; [exact Hne |]. exists issues, issue. by repeat split.
Qed.

Lemma X6_ready_beads_are_open_issues_witness :
  "bd-2" ≠ ""
  ∧ ∃ issues issue,
      Beads.BdExit 0 (Beads.Parsed (JArr
        [JObj [("id", JStr "bd-1"); ("status", JStr "closed")];
         JObj [("id", JStr "bd-2"); ("status", JStr "open")]]))
      = Beads.BdExit 0 (Beads.Parsed (JArr issues))
      ∧ issue ∈ issues
      ∧ Py.get issue "id" JNull = Ok (JStr "bd-2")
      ∧ (Py.get issue "status" JNull = Ok (JStr "open")
         ∨ Py.get issue "status" JNull = Ok (JStr "in-progress"))
      ∧ Forall (λ i, ∃ kvs, i = JObj kvs) issues.
Proof.
  apply (X6_ready_beads_are_open_issues
           (Beads.BdExit 0 (Beads.Parsed (JArr
              [JObj [("id", JStr "bd-1"); ("status", JStr "closed")];
               JObj [("id", JStr "bd-2"); ("status", JStr "open")]])))
           "bd-2").
  vm_compute. apply list_elem_of_here.
Defined.

Example get_ready_beads_ex :
  Beads.get_ready_beads (Beads.BdExit 0 (Beads.Parsed (JArr
    [JObj [("id", JStr "bd-1"); ("status", JStr "open")];
     JObj [("id", JStr ""); ("status", JStr "open")];
     JObj [("id", JStr "bd-3"); ("status", JStr "in-progress")];
     JObj [("id", JNum 4); ("status", JArr [])];
     JObj [("id", JStr "bd-5"); ("status", JStr "blocked")]])))
  = ["bd-1"; "bd-3"]
  ∧ Beads.get_ready_beads (Beads.BdExit 0 (Beads.Parsed (JArr
      [JObj [("id", JStr "bd-1"); ("status", JStr "open")]; JStr "bd-2"])))
    = []
  ∧ Beads.get_ready_beads (Beads.BdExit 0 (Beads.Parsed (JArr
      [JObj [("id", JStr "bd-1"); ("status", JArr [])]])))
    = []
  ∧ Beads.get_ready_beads (Beads.BdExit 1 (Beads.Parsed (JArr
      [JObj [("id", JStr "bd-1"); ("status", JStr "open")]])))
    = []
  ∧ Beads.get_ready_beads (Beads.BdExit 0 Beads.NoOutput) = [].
Proof. repeat split; reflexivity. Qed.

(** ** [SimpleMemoryService]: storing, then retrieving *)

Lemma last_n_zero {A} (l : list A) : PySlice.last_n 0 l = l.
Proof.
  unfold PySlice.last_n, PySlice.from. simpl.
  replace (Z.to_nat _) with 0%nat by lia. reflexivity.
Qed.

Lemma last_n_snoc {A} (k : Z) (l : list A) (x : A) :
  0 < k → ∃ l', PySlice.last_n k (l ++ [x]) = l' ++ [x].
Proof.
  intros Hk. unfold PySlice.last_n, PySlice.from.
  rewrite length_app. simpl.
  destruct (Z.ltb_spec (- k) 0); [| lia].
  eexists. apply drop_app_le. lia.
Qed.

Lemma last_n_one_snoc {A} (l : list A) (x : A) :
  PySlice.last_n 1 (l ++ [x]) = [x].
Proof.
  unfold PySlice.last_n, PySlice.from. rewrite length_app. simpl.
  apply drop_app_length'. lia.
Qed.

Lemma last_n_idempotent {A} (k : Z) (l : list A) :
  0 ≤ k → PySlice.last_n k (PySlice.last_n k l) = PySlice.last_n k l.
Proof.
  intros Hk. destruct (Z.eq_dec k 0) as [-> | Hne].
  - by rewrite !last_n_zero.
  - apply last_n_short, last_n_bound. lia.
Qed.

Lemma extend_nil (category : string) (o : list (string * list Json)) :
  Fallback.extend category [] o = o.
Proof.
  induction o as [| [c es] o IH]; [reflexivity |]. simpl.
  destruct (String.eqb c category); [by rewrite app_nil_r | by rewrite IH].
Qed.

Lemma entries_of_items (memory : Json) (mk : Json → Json) (items acc : list Json) :
  (∀ item, Fallback.entry memory item = Ok (mk item)) →
  foldM (λ acc item, e ← Fallback.entry memory item; Ok (acc ++ [e])) acc items
  = Ok (acc ++ map mk items).
Proof.
  intros Hmk. revert acc. induction items as [| item items IH]; intros acc.
  - simpl. by rewrite app_nil_r.
  - simpl. rewrite Hmk. simpl. rewrite IH, <- app_assoc. reflexivity.
Qed.

Lemma extend_absent (category : string) (es : list Json)
    (o : list (string * list Json)) :
  Fallback.has_category category o = false → Fallback.extend category es o = o.
Proof.
  induction o as [| [c es'] o IH]; [reflexivity |]. simpl.
  destruct (String.eqb c category); simpl; [discriminate |].
  intros H. by rewrite IH.
Qed.

Lemma organize_category_strs (memory : Json) (mk : Json → Json)
    (o : list (string * list Json)) (category : string) (l : list string) :
  (∀ item, Fallback.entry memory item = Ok (mk item)) →
  Fallback.organize_category memory o (category, Fallback.strs l)
  = Ok (Fallback.extend category (map mk (map JStr l)) o).
Proof.
  intros Hmk. unfold Fallback.organize_category. cbn [fst snd].
  destruct (Fallback.has_category category o) eqn:Hc; simpl.
  - destruct l as [| x l]; [by rewrite extend_nil |].
    cbn [map Py.iter Fallback.strs mbind Result_bind].
    rewrite (entries_of_items memory mk _ [] Hmk). reflexivity.
  - by rewrite extend_absent.
Qed.

Lemma organize_written (now content agent_name : string)
    (bead_id : option string) :
  let mk := λ item, JObj [("content", JStr item); ("timestamp", JStr now);
                          ("bead_id", Py.of_opt bead_id)] in
  let lines := PyStr.split_lines content in
  Fallback.organize_memory Fallback._empty_categories
    (Fallback.extract_memories now content agent_name bead_id)
  = Ok [("code_changes", map mk (take 10 (Fallback.extract_code_changes lines)));
        ("decisions", map mk (take 5 (Fallback.extract_decisions lines)));
        ("context", map mk (take 5 (Fallback.extract_context bead_id lines)));
        ("errors", map mk (take 5 (Fallback.extract_errors lines)));
        ("communication", [])].
Proof.
  cbv zeta.
  set (mk := λ item, JObj [("content", item); ("timestamp", JStr now);
                           ("bead_id", Py.of_opt bead_id)]).
  assert (∀ item,
            Fallback.entry
              (Fallback.extract_memories now content agent_name bead_id) item
            = Ok (mk item)) as Hmk by reflexivity.
  unfold Fallback.organize_memory.
  change (Py.get (Fallback.extract_memories now content agent_name bead_id)
            "categories" (JObj []))
    with (Ok (JObj
      [("code_changes", Fallback.strs (take 10
          (Fallback.extract_code_changes (PyStr.split_lines content))));
       ("decisions", Fallback.strs (take 5
          (Fallback.extract_decisions (PyStr.split_lines content))));
       ("context", Fallback.strs (take 5
          (Fallback.extract_context bead_id (PyStr.split_lines content))));
       ("errors", Fallback.strs (take 5
          (Fallback.extract_errors (PyStr.split_lines content))));
       ("communication", Fallback.strs [])])).
  cbn [mbind Result_bind Py.items foldM].
  repeat (rewrite (organize_category_strs _ mk _ _ _ Hmk);
          cbn [mbind Result_bind]).
  unfold Fallback._empty_categories, Fallback.CATEGORIES.
  cbn [map Fallback.extend String.eqb Ascii.eqb Bool.eqb app].
  rewrite !map_map. reflexivity.
Qed.

(** X7: what is stored can be read back.  After [store_memories] into a file
    that the service wrote (or that does not exist yet), with a positive
    [DEFAULT_MAX_MEMORIES], [retrieve_relevant_memories] for the same agent
    with [limit=1] returns exactly the entries of the memory just stored:
    each kept line under its category, with the timestamp and bead of the
    store. *)
Theorem X7_store_then_retrieve (max_memories : Z)
    (now content agent_name query : string) (bead_id : option string)
    (fs : FS) :
  agent_name ≠ "" → 0 < max_memories →
  Forall Fallback.written_by_service
         (Fallback.entries fs (Fallback.agent_file agent_name)) →
  let stored :=
    Fallback.store_memories max_memories now fs content agent_name bead_id in
  let mk := λ item, JObj [("content", JStr item); ("timestamp", JStr now);
                          ("bead_id", Py.of_opt bead_id)] in
  let lines := PyStr.split_lines content in
  Fallback.retrieve_relevant_memories stored.1 query (Some agent_name) None 1
  = Ok [("code_changes", map mk (take 10 (Fallback.extract_code_changes lines)));
        ("decisions", map mk (take 5 (Fallback.extract_decisions lines)));
        ("context", map mk (take 5 (Fallback.extract_context bead_id lines)));
        ("errors", map mk (take 5 (Fallback.extract_errors lines)));
        ("communication", [])].
Proof.
  intros Hagent Hmax Hwritten. cbv zeta.
  destruct (written_file_is_dump _ Hwritten) as [Hdump _].
  rewrite (store_readable max_memories now fs content agent_name bead_id _ Hdump).
  cbn [fst]. unfold Fallback.retrieve_relevant_memories.
  assert (Py.opt_truthy (Some agent_name) = true) as ->.
  { simpl. destruct (String.eqb_spec agent_name ""); [done | reflexivity]. }
  cbn [negb default Py.opt_truthy]. rewrite lookup_insert_eq, read_jsonl_dump.
  cbn [mbind Result_bind Z.eqb negb].
  destruct (last_n_snoc max_memories (read_jsonl_lenient
              (Fallback.entries fs (Fallback.agent_file agent_name)))
              (Fallback.extract_memories now content agent_name bead_id) Hmax)
    as [l' ->].
  rewrite last_n_one_snoc. cbn [foldM].
  rewrite (organize_written now content agent_name bead_id).
  reflexivity.
Qed.

Lemma X7_store_then_retrieve_witness :
  let stored :=
    Fallback.store_memories 200 "2024-01-02T00:00:00" Samples.fs_alice
      "error: the parser loops" "alice" (Some "b7") in
  let mk := λ item, JObj [("content", JStr item);
                          ("timestamp", JStr "2024-01-02T00:00:00");
                          ("bead_id", Py.of_opt (Some "b7"))] in
  let lines := PyStr.split_lines "error: the parser loops" in
  Fallback.retrieve_relevant_memories stored.1 "anything" (Some "alice") None 1
  = Ok [("code_changes", map mk (take 10 (Fallback.extract_code_changes lines)));
        ("decisions", map mk (take 5 (Fallback.extract_decisions lines)));
        ("context",
         map mk (take 5 (Fallback.extract_context (Some "b7") lines)));
        ("errors", map mk (take 5 (Fallback.extract_errors lines)));
        ("communication", [])].
Proof.
  apply (X7_store_then_retrieve 200 "2024-01-02T00:00:00"
           "error: the parser loops" "alice" "anything" (Some "b7")
           Samples.fs_alice).
  - discriminate.
  - reflexivity.
  - change (Fallback.entries Samples.fs_alice (Fallback.agent_file "alice"))
      with [Doc Samples.memory].
    constructor; [| constructor]. unfold Samples.memory. by eexists _, _, _, _.
Defined.

(** ** [retrieve_relevant_memories]: the bead filter and the limit *)

Lemma foldM_invariant {A B} (P : B → Prop) (body : B → A → Result B)
    (xs : list A) :
  (∀ acc x acc', x ∈ xs → P acc → body acc x = Ok acc' → P acc') →
  ∀ acc r, P acc → foldM body acc xs = Ok r → P r.
Proof.
  induction xs as [| x xs IH]; intros Hstep acc r Hacc.
  - by intros [= <-].
  - simpl. destruct (body acc x) as [acc' |] eqn:E; [| discriminate]. simpl.
    apply IH.
    + intros a y a' Hy. apply Hstep. by right.
    + eapply Hstep; [by left | exact Hacc | exact E].
Qed.

Lemma eq_str_true (v : Json) (s : string) :
  Py.eq_str v s = true → v = JStr s.
Proof.
  destruct v; try discriminate. simpl. intros H.
  apply String.eqb_eq in H. by subst.
Qed.

Lemma filter_bead_sound (bead_id : string) (memories kept : list Json) :
  Fallback.filter_bead bead_id memories = Ok kept →
  Forall (λ m, Py.get m "bead_id" JNull = Ok (JStr bead_id)) kept
  ∧ (length kept ≤ length memories)%nat.
Proof.
  revert kept. induction memories as [| m ms IH]; intros kept.
  - intros [= <-]. split; [constructor | done].
  - simpl. destruct (Py.get m "bead_id" JNull) as [b |] eqn:Hb; [| discriminate].
    simpl. destruct (Fallback.filter_bead bead_id ms) as [rest |];
      [| discriminate].
    simpl. destruct (IH rest eq_refl) as [Hall Hlen].
    destruct (Py.eq_str b bead_id) eqn:Heq; intros [= <-].
    + apply eq_str_true in Heq. subst b.
      split; [by constructor | simpl; lia].
    + split; [exact Hall | simpl; lia].
Qed.

Lemma extend_all_of_bead (b category : string) (es : list Json)
    (o : list (string * list Json)) :
  Fallback.all_of_bead b o →
  Forall (λ e, Py.get e "bead_id" JNull = Ok (JStr b)) es →
  Fallback.all_of_bead b (Fallback.extend category es o).
Proof.
  intros Ho Hes. induction o as [| [c0 es0] o IH]; [exact Ho |].
  assert (Fallback.all_of_bead b o) as Ho'.
  { intros c l e Hc. apply (Ho c l e). by right. }
  simpl. destruct (String.eqb c0 category).
  - intros c l e Hc He. apply elem_of_cons in Hc as [[= -> ->] | Hc].
    + apply elem_of_app in He as [He | He].
      * apply (Ho c0 es0 e); [by left | exact He].
      * by apply (proj1 (Forall_forall _ _) Hes).
    + by apply (Ho' c l e).
  - intros c l e Hc He. apply elem_of_cons in Hc as [[= -> ->] | Hc].
    + apply (Ho c0 es0 e); [by left | exact He].
    + by apply (IH Ho' c l e).
Qed.

Lemma entry_of_bead (b : string) (memory item e : Json) :
  Py.get memory "bead_id" JNull = Ok (JStr b) →
  Fallback.entry memory item = Ok e →
  Py.get e "bead_id" JNull = Ok (JStr b).
Proof.
  intros Hb. unfold Fallback.entry. rewrite Hb.
  destruct (Py.get memory "timestamp" JNull) as [ts |]; [| discriminate].
  simpl. intros [= <-]. reflexivity.
Qed.

Lemma organize_memory_of_bead (b : string) (memory : Json)
    (o o' : list (string * list Json)) :
  Py.get memory "bead_id" JNull = Ok (JStr b) →
  Fallback.all_of_bead b o →
  Fallback.organize_memory o memory = Ok o' →
  Fallback.all_of_bead b o'.
Proof.
  intros Hb Ho. unfold Fallback.organize_memory.
  destruct (Py.get memory "categories" (JObj [])) as [cats |]; [| discriminate].
  simpl. destruct (Py.items cats) as [cis |]; [| discriminate]. simpl.
  apply (foldM_invariant (Fallback.all_of_bead b)); [| exact Ho].
  intros acc ci acc' _ Hacc. unfold Fallback.organize_category.
  destruct (_ && _); [| by intros [= <-]].
  destruct (Py.iter ci.2) as [its |]; [| discriminate]. simpl.
  destruct (foldM _ [] its) as [es |] eqn:Hes; [| discriminate]. simpl.
  intros [= <-]. apply extend_all_of_bead; [exact Hacc |].
  revert Hes.
  apply (foldM_invariant
           (Forall (λ e, Py.get e "bead_id" JNull = Ok (JStr b))));
    [| constructor].
  intros l item l' _ Hl.
  destruct (Fallback.entry memory item) as [e |] eqn:He; [| discriminate].
  simpl. intros [= <-]. apply Forall_app. split; [exact Hl |].
  constructor; [by eapply entry_of_bead | constructor].
Qed.

Lemma empty_categories_of_bead (b : string) :
  Fallback.all_of_bead b Fallback._empty_categories.
Proof.
  intros c es e Hc He. unfold Fallback._empty_categories in Hc.
  apply list_elem_of_fmap in Hc as (c0 & [= -> ->] & _).
  by apply elem_of_nil in He.
Qed.

(** X8: the bead filter is sound.  Whatever the agent's file holds, when
    [retrieve_relevant_memories] is called with a bead and returns, every
    entry of every category of the result carries that bead. *)
Theorem X8_bead_filter_sound (fs : FS) (query bead : string)
    (agent_name : option string) (limit : Z)
    (result : list (string * list Json)) :
  bead ≠ "" →
  Fallback.retrieve_relevant_memories fs query agent_name (Some bead) limit
  = Ok result →
  ∀ category entries e,
    (category, entries) ∈ result → e ∈ entries →
    Py.get e "bead_id" JNull = Ok (JStr bead).
Proof.
  intros Hbead. unfold Fallback.retrieve_relevant_memories.
  destruct (negb (Py.opt_truthy agent_name)).
  { intros [= <-]. apply empty_categories_of_bead. }
  destruct (fs !! _) as [lines |].
  2: { intros [= <-]. apply empty_categories_of_bead. }
  destruct (read_jsonl lines) as [ms |]; [| discriminate]. simpl.
  destruct (String.eqb_spec bead ""); [done |]. simpl.
  destruct (Fallback.filter_bead bead ms) as [kept |] eqn:Hkept;
    [| discriminate].
  simpl. apply filter_bead_sound in Hkept as [Hall _].
  set (chosen := if negb (limit =? 0) then _ else _).
  assert (Forall (λ m, Py.get m "bead_id" JNull = Ok (JStr bead)) chosen)
    as Hchosen.
  { unfold chosen. destruct (negb _); [by apply last_n_Forall | exact Hall]. }
  intros Hfold.
  refine (foldM_invariant (Fallback.all_of_bead bead) Fallback.organize_memory
            chosen _ _ _ (empty_categories_of_bead bead) Hfold).
  intros acc m acc' Hm Hacc.
  apply organize_memory_of_bead; [| exact Hacc].
  by apply (proj1 (Forall_forall _ _) Hchosen).
Qed.

Lemma X8_bead_filter_sound_witness :
  "b1" ≠ ""
  ∧ ∀ category entries e,
    (category, entries)
    ∈ [("code_changes",
        [JObj [("content", JStr "edit: src/a.py");
               ("timestamp", JStr "2024-01-01T00:00:00");
               ("bead_id", JStr "b1")]]);
       ("decisions",
        [JObj [("content", JStr "I decided to use gmap");
               ("timestamp", JStr "2024-01-01T00:00:00");
               ("bead_id", JStr "b1")]]);
       ("context",
        [JObj [("content", JStr "Current bead: b1");
               ("timestamp", JStr "2024-01-01T00:00:00");
               ("bead_id", JStr "b1")];
         JObj [("content", JStr "working on task 3");
               ("timestamp", JStr "2024-01-01T00:00:00");
               ("bead_id", JStr "b1")]]);
       ("errors",
        [JObj [("content", JStr "error: boom");
               ("timestamp", JStr "2024-01-01T00:00:00");
               ("bead_id", JStr "b1")]]);
       ("communication", [])] →
    e ∈ entries → Py.get e "bead_id" JNull = Ok (JStr "b1").
Proof.
  split; [discriminate |].
  apply (X8_bead_filter_sound Samples.fs_alice "anything" "b1" (Some "alice") 5).
  - discriminate.
  - reflexivity.
Defined.

Lemma read_jsonl_length (lines : list Line) (ms : list Json) :
  read_jsonl lines = Ok ms → (length ms ≤ length lines)%nat.
Proof.
  revert ms. induction lines as [| l lines IH]; intros ms.
  - by intros [= <-].
  - destruct l as [| v | raw]; simpl.
    + intros H. specialize (IH ms H). lia.
    + destruct (read_jsonl lines) as [vs |]; [| discriminate]. simpl.
      intros [= <-]. specialize (IH vs eq_refl). simpl. lia.
    + discriminate.
Qed.

(** X9: a limit of 0 means no limit, and so does any limit that is at least
    the number of lines of the agent's file: both calls return all the
    memories that pass the bead filter (or raise alike). *)
Theorem X9_limit_zero_is_no_limit (fs : FS) (query : string)
    (agent_name bead_id : option string) (limit : Z) :
  Z.of_nat (length (Fallback.entries fs
                      (Fallback.agent_file (default "" agent_name)))) ≤ limit →
  Fallback.retrieve_relevant_memories fs query agent_name bead_id limit
  = Fallback.retrieve_relevant_memories fs query agent_name bead_id 0.
Proof.
  intros Hlimit. unfold Fallback.retrieve_relevant_memories, Fallback.entries in *.
  destruct (negb (Py.opt_truthy agent_name)); [reflexivity |].
  destruct (fs !! _) as [lines |]; [| reflexivity]. simpl in Hlimit.
  destruct (read_jsonl lines) as [ms |] eqn:Hread; [| reflexivity]. simpl.
  apply read_jsonl_length in Hread.
  assert (∀ kept : list Json, (length kept ≤ length ms)%nat →
            (if negb (limit =? 0) then PySlice.last_n limit kept else kept)
            = kept) as Hall.
  { intros kept Hk. destruct (negb (limit =? 0)); [| reflexivity].
    apply last_n_short. lia. }
  destruct (Py.opt_truthy bead_id).
  - destruct (Fallback.filter_bead _ ms) as [kept |] eqn:Hkept; [| reflexivity].
    simpl. apply filter_bead_sound in Hkept as [_ Hlen]. by rewrite Hall.
  - simpl. by rewrite Hall.
Qed.

Lemma X9_limit_zero_is_no_limit_witness :
  Fallback.retrieve_relevant_memories Samples.fs_fifty "q" (Some "alice") None 50
  = Fallback.retrieve_relevant_memories Samples.fs_fifty "q" (Some "alice") None 0.
Proof.
  apply (X9_limit_zero_is_no_limit Samples.fs_fifty "q" (Some "alice") None 50).
  vm_compute. discriminate.
Defined.

Example negative_limit_drops_oldest :
  let two : FS :=
    {[ "alice_memories.jsonl" :=
         [Doc (Fallback.extract_memories "t1" "fix: one" "alice" None);
          Doc (Fallback.extract_memories "t2" "fix: two" "alice" None)] ]} in
  Fallback.retrieve_relevant_memories two "q" (Some "alice") None (-1)
  = Fallback.retrieve_relevant_memories two "q" (Some "alice") None 1.
Proof. reflexivity. Qed.

(** ** [_cleanup_old_memories]: composing and the zero bound *)

(** X10: for [keep >= 0] the clean-up is idempotent: once it has returned, a
    second clean-up of the same file with the same [keep] returns too and
    leaves the directory as the first left it. *)
Theorem X10_cleanup_idempotent (fs : FS) (file_path : string) (keep : Z) :
  0 ≤ keep →
  (Fallback._cleanup_old_memories fs file_path keep).2 = Ok () →
  Fallback._cleanup_old_memories
    (Fallback._cleanup_old_memories fs file_path keep).1 file_path keep
  = Fallback._cleanup_old_memories fs file_path keep.
Proof.
  intros Hkeep. unfold Fallback._cleanup_old_memories at 1 3 4.
  destruct (fs !! file_path) as [lines |] eqn:Hfile.
  - destruct (read_jsonl lines) as [ms |]; [| discriminate]. cbn [fst snd].
    intros _.
    rewrite (cleanup_readable _ _ _ (PySlice.last_n keep ms))
      by apply lookup_insert_eq.
    by rewrite insert_insert_eq, last_n_idempotent.
  - intros _. cbn [fst]. by rewrite (cleanup_missing _ _ _ Hfile).
Qed.

Lemma X10_cleanup_idempotent_witness :
  Fallback._cleanup_old_memories
    (Fallback._cleanup_old_memories Samples.fs_fifty "alice_memories.jsonl" 3).1
    "alice_memories.jsonl" 3
  = Fallback._cleanup_old_memories Samples.fs_fifty "alice_memories.jsonl" 3.
Proof.
  apply (X10_cleanup_idempotent Samples.fs_fifty "alice_memories.jsonl" 3).
  - discriminate.
  - reflexivity.
Defined.

(** With a negative [keep] the slice [memories[-keep:]] drops the oldest
    memories each time, so the clean-up is not idempotent there. *)
Example cleanup_negative_keep :
  let once :=
    (Fallback._cleanup_old_memories Samples.fs_fifty "alice_memories.jsonl" (-20)).1 in
  let twice :=
    (Fallback._cleanup_old_memories once "alice_memories.jsonl" (-20)).1 in
  length (Fallback.entries once "alice_memories.jsonl") = 30%nat
  ∧ length (Fallback.entries twice "alice_memories.jsonl") = 10%nat.
Proof. split; vm_compute; reflexivity. Qed.

(** X11: a bound of zero is no bound.  With [DEFAULT_MAX_MEMORIES = 0] the
    slice [memories[-0:]] is the whole list: [store_memories] into a file
    that the service wrote returns the new memory and leaves every earlier
    line in place, followed by the new one. *)
Theorem X11_zero_max_never_trims (now : string) (fs : FS)
    (content agent_name : string) (bead_id : option string) :
  Forall Fallback.written_by_service
         (Fallback.entries fs (Fallback.agent_file agent_name)) →
  let memory := Fallback.extract_memories now content agent_name bead_id in
  let stored := Fallback.store_memories 0 now fs content agent_name bead_id in
  stored.2 = Ok memory
  ∧ Fallback.entries stored.1 (Fallback.agent_file agent_name)
    = Fallback.entries fs (Fallback.agent_file agent_name) ++ [Doc memory].
Proof.
  intros Hwritten. cbv zeta.
  destruct (written_file_is_dump _ Hwritten) as [Hdump _].
  rewrite (store_readable 0 now fs content agent_name bead_id _ Hdump).
  cbn [fst snd]. split; [reflexivity |].
  rewrite entries_insert, last_n_zero, Hdump at 1.
  unfold dump_jsonl. rewrite map_app. f_equal.
  by rewrite <- Hdump at 1.
Qed.

Lemma X11_zero_max_never_trims_witness :
  let memory :=
    Fallback.extract_memories "2024-01-02T00:00:00" "fix: one" "alice" None in
  let stored :=
    Fallback.store_memories 0 "2024-01-02T00:00:00" Samples.fs_fifty
      "fix: one" "alice" None in
  stored.2 = Ok memory
  ∧ Fallback.entries stored.1 (Fallback.agent_file "alice")
    = Fallback.entries Samples.fs_fifty (Fallback.agent_file "alice")
      ++ [Doc memory].
Proof.
  apply (X11_zero_max_never_trims "2024-01-02T00:00:00" Samples.fs_fifty
           "fix: one" "alice" None).
  change (Fallback.entries Samples.fs_fifty (Fallback.agent_file "alice"))
    with (replicate 50 (Doc Samples.memory)).
  apply Forall_replicate. unfold Samples.memory. by eexists _, _, _, _.
Defined.

(** ** [clean_memories]: what a run can and cannot do *)

Section Cleaning.

Variable fromisoformat : string → option DateTime.
Variables (cutoff : Z) (scope : string).

(** The loop [for memory in memories] of one file, when it ends without an
    exception: the memories kept are a sublist of the memories read, every
    memory is either kept or counted as deleted, and a memory for which
    [should_delete] is false is kept. *)
Lemma split_memories_spec (ms : list Json) (acc acc' : list Json * nat) :
  foldM (Fallback.split_memory fromisoformat cutoff scope) acc ms = Ok acc' →
  ∃ kept, acc'.1 = acc.1 ++ kept
          ∧ kept `sublist_of` ms
          ∧ (length kept + acc'.2 = length ms + acc.2)%nat
          ∧ (∀ m, m ∈ ms →
                  Fallback.should_delete fromisoformat cutoff scope m = Ok false →
                  m ∈ kept)
          ∧ (Fallback.scope_by_age scope = false → acc'.2 = acc.2).
Proof.
  revert acc. induction ms as [| m ms IH]; intros acc.
  - intros [= <-]. exists []. rewrite app_nil_r.
    repeat split; try done; intros m H; by apply elem_of_nil in H.
  - cbn [foldM].
    destruct (Fallback.split_memory fromisoformat cutoff scope acc m)
      as [acc1 |] eqn:Hstep; simpl; [| discriminate].
    unfold Fallback.split_memory in Hstep.
    destruct (Fallback.should_delete fromisoformat cutoff scope m) as [d |] eqn:Hd;
      simpl in Hstep; [| discriminate].
    injection Hstep as <-. intros Hfold.
    destruct (IH _ Hfold) as (kept & E & Hsub & Hlen & Hkeep & Hscope).
    destruct d; simpl in *.
    + exists kept. split; [exact E |]. split; [by apply sublist_cons |].
      split; [lia |]. split.
      * intros m' Hm' Hf. apply elem_of_cons in Hm' as [-> | Hm'];
          [congruence | by apply Hkeep].
      * intros Hs. exfalso. revert Hd. unfold Fallback.should_delete.
        destruct (Py.get m "timestamp" (JStr "")); [| discriminate].
        simpl. rewrite Hs. discriminate.
    + exists (m :: kept). split; [by rewrite E, <- app_assoc |].
      split; [by apply sublist_skip |]. split; [simpl; lia |]. split.
      * intros m' Hm' Hf. apply elem_of_cons in Hm' as [-> | Hm'];
          [by left | right; by apply Hkeep].
      * exact Hscope.
Qed.

Lemma clean_file_accounted (dry : bool) (st : FS * Fallback.Results)
    (file_path : string) :
  Fallback.accounted st.2 →
  Fallback.accounted
    (Fallback.clean_file fromisoformat dry cutoff scope st file_path).2.
Proof.
  intros [Hsum Hscan]. unfold Fallback.clean_file.
  destruct (st.1 !! file_path) as [lines |]; [| by split].
  destruct (read_jsonl_lenient lines) as [| m ms] eqn:Hms; [by split |].
  destruct (foldM _ _ _) as [[filtered deleted] | e] eqn:Hfold.
  - apply split_memories_spec in Hfold as (kept & E & _ & Hlen & _).
    simpl in E, Hlen. subst filtered.
    assert (Fallback.accounted
              (Fallback.count_outcome
                 (Fallback.count_file st.2 (length (m :: ms)))
                 file_path deleted (length kept))) as H.
    { unfold Fallback.accounted. simpl in *. lia. }
    by destruct (negb dry && _).
  - unfold Fallback.accounted. simpl. lia.
Qed.

Lemma clean_file_no_age (dry : bool) (st : FS * Fallback.Results)
    (file_path : string) :
  Fallback.scope_by_age scope = false →
  let st' := Fallback.clean_file fromisoformat dry cutoff scope st file_path in
  st'.1 = st.1
  ∧ Fallback.memories_deleted st'.2 = Fallback.memories_deleted st.2
  ∧ Fallback.affected_agents st'.2 = Fallback.affected_agents st.2
  ∧ Fallback.affected_files st'.2 = Fallback.affected_files st.2.
Proof.
  intros Hscope. cbv zeta. unfold Fallback.clean_file.
  destruct (st.1 !! file_path) as [lines |]; [| done].
  destruct (read_jsonl_lenient lines) as [| m ms]; [done |].
  destruct (foldM _ _ _) as [[filtered deleted] | e] eqn:Hfold; [| done].
  apply split_memories_spec in Hfold as (_ & _ & _ & _ & _ & Hzero).
  simpl in Hzero. rewrite (Hzero Hscope).
  rewrite andb_false_r. simpl. by rewrite Nat.add_0_r.
Qed.

(** The memories of any file after a turn are a sublist of its memories
    before, and those that [should_delete] spares are still there. *)
Lemma clean_file_only_removes (dry : bool) (st : FS * Fallback.Results)
    (file_path other : string) :
  let st' := Fallback.clean_file fromisoformat dry cutoff scope st file_path in
  Fallback.memories_of st'.1 other `sublist_of` Fallback.memories_of st.1 other
  ∧ ∀ m, m ∈ Fallback.memories_of st.1 other →
         Fallback.should_delete fromisoformat cutoff scope m = Ok false →
         m ∈ Fallback.memories_of st'.1 other.
Proof.
  cbv zeta. destruct (decide (other = file_path)) as [-> | Hne].
  2: { unfold Fallback.memories_of, Fallback.entries.
       by rewrite clean_file_frame. }
  unfold Fallback.clean_file, Fallback.memories_of, Fallback.entries.
  destruct (st.1 !! file_path) as [lines |] eqn:Hfile;
    [| rewrite Hfile; by split].
  destruct (read_jsonl_lenient lines) as [| m0 ms] eqn:Hms;
    [rewrite Hfile; simpl; rewrite Hms; by split |].
  destruct (foldM _ _ _) as [[filtered deleted] | e] eqn:Hfold;
    [| simpl; rewrite Hfile; simpl; rewrite Hms; by split].
  apply split_memories_spec in Hfold as (kept & E & Hsub & _ & Hkeep & _).
  simpl in E. subst filtered.
  destruct (negb dry && _); simpl;
    [| rewrite Hfile; simpl; rewrite Hms; by split].
  rewrite lookup_insert_eq. simpl. rewrite read_jsonl_lenient_dump, Hms.
  split; [exact Hsub | exact Hkeep].
Qed.

Lemma clean_files_accounted (dry : bool) (files : list string)
    (st : FS * Fallback.Results) :
  Fallback.accounted st.2 →
  Fallback.accounted
    (foldl (Fallback.clean_file fromisoformat dry cutoff scope) st files).2.
Proof.
  revert st. induction files as [| p files IH]; intros st H; [exact H |].
  simpl. by apply IH, clean_file_accounted.
Qed.

Lemma clean_files_no_age (dry : bool) (files : list string)
    (st : FS * Fallback.Results) :
  Fallback.scope_by_age scope = false →
  let st' := foldl (Fallback.clean_file fromisoformat dry cutoff scope) st files in
  st'.1 = st.1
  ∧ Fallback.memories_deleted st'.2 = Fallback.memories_deleted st.2
  ∧ Fallback.affected_agents st'.2 = Fallback.affected_agents st.2
  ∧ Fallback.affected_files st'.2 = Fallback.affected_files st.2.
Proof.
  intros Hscope. cbv zeta. revert st.
  induction files as [| p files IH]; intros st; [done |].
  simpl. destruct (IH (Fallback.clean_file fromisoformat dry cutoff scope st p))
    as (H1 & H2 & H3 & H4).
  destruct (clean_file_no_age dry st p Hscope) as (G1 & G2 & G3 & G4).
  rewrite H1, H2, H3, H4. by repeat split.
Qed.

Lemma clean_files_frame (dry : bool) (files : list string)
    (st : FS * Fallback.Results) (other : string) :
  other ∉ files →
  (foldl (Fallback.clean_file fromisoformat dry cutoff scope) st files).1 !! other
  = st.1 !! other.
Proof.
  revert st. induction files as [| p files IH]; intros st Hnotin; [done |].
  apply not_elem_of_cons in Hnotin as [Hne Hnotin].
  simpl. rewrite IH by done. by apply clean_file_frame.
Qed.

Lemma clean_files_only_remove (dry : bool) (files : list string)
    (st : FS * Fallback.Results) (other : string) :
  let st' := foldl (Fallback.clean_file fromisoformat dry cutoff scope) st files in
  Fallback.memories_of st'.1 other `sublist_of` Fallback.memories_of st.1 other
  ∧ ∀ m, m ∈ Fallback.memories_of st.1 other →
         Fallback.should_delete fromisoformat cutoff scope m = Ok false →
         m ∈ Fallback.memories_of st'.1 other.
Proof.
  cbv zeta. revert st. induction files as [| p files IH]; intros st; [done |].
  simpl.
  destruct (IH (Fallback.clean_file fromisoformat dry cutoff scope st p))
    as [Hsub Hkeep].
  destruct (clean_file_only_removes dry st p other) as [Hsub1 Hkeep1].
  split; [by etrans | auto].
Qed.

End Cleaning.

(** The three ways [clean_memories] can end. *)
Lemma clean_memories_cases (fromisoformat : string → option DateTime)
    (now : Z) (fs : FS) (agent_name : option string) (days : Z)
    (scope : string) (dry force : bool) :
  let run :=
    Fallback.clean_memories fromisoformat now fs agent_name days scope dry force in
  (∃ e, PyTime.minus_days now days = Raise e ∧ run = (fs, Raise e))
  ∨ run = (fs, Ok (Fallback.initial_results dry))
  ∨ ∃ cutoff files,
      PyTime.minus_days now days = Ok cutoff
      ∧ (Py.opt_truthy agent_name = false ∧ files = Fallback.glob fs
         ∨ Py.opt_truthy agent_name = true
           ∧ files = [Fallback.agent_file (default "" agent_name)])
      ∧ run = ((foldl (Fallback.clean_file fromisoformat dry cutoff scope)
                      (fs, Fallback.initial_results dry) files).1,
               Ok (foldl (Fallback.clean_file fromisoformat dry cutoff scope)
                         (fs, Fallback.initial_results dry) files).2).
Proof.
  cbv zeta. unfold Fallback.clean_memories.
  destruct (PyTime.minus_days now days) as [cutoff | e]; [| left; eauto].
  right. destruct (Fallback.glob fs) as [| p ps] eqn:Hglob; [by left |].
  destruct (Py.opt_truthy agent_name) eqn:Hagent; simpl.
  - destruct (negb _); [by left |]. right.
    exists cutoff, [Fallback.agent_file (default "" agent_name)]. eauto.
  - right. exists cutoff, (p :: ps). split; [reflexivity |]. split; [| reflexivity].
    left. by split.
Qed.

Lemma scope_not_by_age (scope : string) :
  scope ≠ "age" → scope ≠ "all" → Fallback.scope_by_age scope = false.
Proof.
  intros H1 H2. unfold Fallback.scope_by_age.
  destruct (String.eqb_spec scope "age"); [done |].
  by destruct (String.eqb_spec scope "all").
Qed.

(** X12: only the scopes ["age"] and ["all"] delete.  With any other scope,
    such as ["agent"], a run of [clean_memories], dry or not, leaves the
    storage directory unchanged and reports no deleted memory and no affected
    agent or file. *)
Theorem X12_other_scopes_delete_nothing
    (fromisoformat : string → option DateTime) (now : Z) (fs : FS)
    (agent_name : option string) (days : Z) (scope : string)
    (dry force : bool) :
  scope ≠ "age" → scope ≠ "all" →
  let run :=
    Fallback.clean_memories fromisoformat now fs agent_name days scope dry force in
  run.1 = fs
  ∧ ∀ r, run.2 = Ok r →
         Fallback.memories_deleted r = 0%nat
         ∧ Fallback.affected_agents r = []
         ∧ Fallback.affected_files r = [].
Proof.
  intros H1 H2. cbv zeta.
  pose proof (scope_not_by_age scope H1 H2) as Hscope.
  destruct (clean_memories_cases fromisoformat now fs agent_name days scope
              dry force) as [(e & _ & ->) | [-> | (cutoff & files & _ & _ & ->)]].
  - split; [reflexivity | discriminate].
  - split; [reflexivity |]. by intros r [= <-].
  - destruct (clean_files_no_age fromisoformat cutoff scope dry files
                (fs, Fallback.initial_results dry) Hscope) as (E1 & E2 & E3 & E4).
    split; [exact E1 |]. intros r [= <-]. by rewrite E2, E3, E4.
Qed.

Lemma X12_other_scopes_delete_nothing_witness :
  let run :=
    Fallback.clean_memories Samples.parse_const Samples.some_now
      Samples.fs_alice (Some "alice") 30 "agent" false true in
  run.1 = Samples.fs_alice
  ∧ ∀ r, run.2 = Ok r →
         Fallback.memories_deleted r = 0%nat
         ∧ Fallback.affected_agents r = []
         ∧ Fallback.affected_files r = [].
Proof.
  apply (X12_other_scopes_delete_nothing Samples.parse_const Samples.some_now
           Samples.fs_alice (Some "alice") 30 "agent" false true);
    discriminate.
Defined.

(** X13: the report of [clean_memories] adds up.  Whatever the files hold,
    the memories it reports as deleted and kept together never exceed the
    memories it counted before, and it scanned no more files than it counted
    memories.  (The sum can fall short: a file whose loop raises is counted
    before but neither deleted from nor kept.) *)
Theorem X13_report_adds_up (fromisoformat : string → option DateTime)
    (now : Z) (fs : FS) (agent_name : option string) (days : Z)
    (scope : string) (dry force : bool) (r : Fallback.Results) :
  (Fallback.clean_memories fromisoformat now fs agent_name days scope dry force).2
  = Ok r →
  (Fallback.memories_deleted r + Fallback.memories_kept r
   ≤ Fallback.memories_before r)%nat
  ∧ (Fallback.scanned_files r ≤ Fallback.memories_before r)%nat.
Proof.
  assert (Fallback.accounted (Fallback.initial_results dry)) as Hinit
    by (split; simpl; lia).
  destruct (clean_memories_cases fromisoformat now fs agent_name days scope
              dry force) as [(e & _ & ->) | [-> | (cutoff & files & _ & _ & ->)]].
  - discriminate.
  - by intros [= <-].
  - intros [= <-].
    by apply (clean_files_accounted fromisoformat cutoff scope dry files
                (fs, Fallback.initial_results dry)).
Qed.

Lemma X13_report_adds_up_witness :
  let r := {| Fallback.scanned_files := 1; Fallback.memories_before := 1;
              Fallback.memories_deleted := 1; Fallback.memories_kept := 0;
              Fallback.affected_agents := ["alice"];
              Fallback.affected_files := ["alice_memories.jsonl"];
              Fallback.dry_run := false |} in
  (Fallback.clean_memories Samples.parse_const Samples.some_now
     Samples.fs_alice None 30 "age" false false).2 = Ok r
  ∧ (Fallback.memories_deleted r + Fallback.memories_kept r
     ≤ Fallback.memories_before r)%nat
  ∧ (Fallback.scanned_files r ≤ Fallback.memories_before r)%nat.
Proof.
  cbv zeta.
  assert ((Fallback.clean_memories Samples.parse_const Samples.some_now
             Samples.fs_alice None 30 "age" false false).2
          = Ok {| Fallback.scanned_files := 1; Fallback.memories_before := 1;
                  Fallback.memories_deleted := 1; Fallback.memories_kept := 0;
                  Fallback.affected_agents := ["alice"];
                  Fallback.affected_files := ["alice_memories.jsonl"];
                  Fallback.dry_run := false |}) as H
    by (vm_compute; reflexivity).
  split; [exact H |].
  exact (X13_report_adds_up Samples.parse_const Samples.some_now
           Samples.fs_alice None 30 "age" false false _ H).
Defined.

(** A file with a time-zone-aware timestamp makes the loop of its file
    raise: the file is counted and left alone. *)
Example aware_timestamp_skips_file :
  let parse := λ _ : string, Some {| aware := true; micros := 5 |} in
  let run := Fallback.clean_memories parse Samples.some_now Samples.fs_alice
               None 30 "age" false false in
  run.1 = Samples.fs_alice
  ∧ Fallback.counts <$> run.2 = Ok (1, 1, 0, 0)%nat.
Proof. split; vm_compute; reflexivity. Qed.

Lemma glob_endswith (fs : FS) (p : string) :
  p ∈ Fallback.glob fs → PyStr.endswith p "_memories.jsonl" = true.
Proof.
  unfold Fallback.glob. intros H. apply list_elem_of_filter in H as [H _].
  by apply Is_true_true.
Qed.

Lemma substring_all (s : string) : String.substring 0 (String.length s) s = s.
Proof. induction s as [| c s IH]; [reflexivity |]. simpl. by rewrite IH. Qed.

Lemma substring_append (a s : string) :
  String.substring (String.length a) (String.length s) (a +:+ s) = s.
Proof. induction a as [| c a IH]; [apply substring_all | exact IH]. Qed.

Lemma length_append (a s : string) :
  String.length (a +:+ s) = (String.length a + String.length s)%nat.
Proof. induction a as [| c a IH]; [reflexivity |]. simpl. by rewrite IH. Qed.

Lemma endswith_append (a s : string) : PyStr.endswith (a +:+ s) s = true.
Proof.
  unfold PyStr.endswith. rewrite length_append.
  replace (String.length a + String.length s - String.length s)%nat
    with (String.length a) by lia.
  rewrite substring_append, String.eqb_refl, andb_true_r.
  apply Nat.leb_le. lia.
Qed.

(** X14: a run of [clean_memories] touches memory files only, and with an
    agent filter only that agent's file: every file whose name does not end
    in [_memories.jsonl], and with a filter every file but the agent's, is
    afterwards what it was. *)
Theorem X14_clean_touches_only_targets
    (fromisoformat : string → option DateTime) (now : Z) (fs : FS)
    (agent_name : option string) (days : Z) (scope : string)
    (dry force : bool) (other : string) :
  PyStr.endswith other "_memories.jsonl" = false
  ∨ (Py.opt_truthy agent_name = true
     ∧ other ≠ Fallback.agent_file (default "" agent_name)) →
  (Fallback.clean_memories fromisoformat now fs agent_name days scope dry force).1
    !! other
  = fs !! other.
Proof.
  intros Hother.
  destruct (clean_memories_cases fromisoformat now fs agent_name days scope
              dry force) as [(e & _ & ->) | [-> | (cutoff & files & _ & Hfiles & ->)]];
    [reflexivity | reflexivity |].
  cbn [fst]. apply clean_files_frame.
  destruct Hfiles as [[Hagent ->] | [Hagent ->]].
  - destruct Hother as [Hext | [Hagent' _]]; [| congruence].
    intros Hin. apply glob_endswith in Hin. congruence.
  - intros Hin. apply list_elem_of_singleton in Hin.
    destruct Hother as [Hext | [_ Hne]]; [| done].
    subst other. unfold Fallback.agent_file in Hext.
    rewrite endswith_append in Hext. discriminate.
Qed.

Lemma X14_clean_touches_only_targets_witness :
  (Fallback.clean_memories Samples.parse_const Samples.some_now
     (<["bob_memories.jsonl" := [Doc Samples.memory]]> Samples.fs_alice)
     (Some "alice") 30 "age" false true).1 !! "bob_memories.jsonl"
  = (<["bob_memories.jsonl" := [Doc Samples.memory]]> Samples.fs_alice)
      !! "bob_memories.jsonl".
Proof.
  apply (X14_clean_touches_only_targets Samples.parse_const Samples.some_now
           (<["bob_memories.jsonl" := [Doc Samples.memory]]> Samples.fs_alice)
           (Some "alice") 30 "age" false true "bob_memories.jsonl").
  right. split; [reflexivity | discriminate].
Defined.

(** X15: cleaning only removes, and only what is older than the cutoff.
    After any run of [clean_memories] the memories of every file are a
    sublist, in order, of its memories before; and a memory for which the
    age test comes out false (its timestamp is missing, is not a string, does
    not parse, or is not before the cutoff) is still in its file. *)
Theorem X15_clean_only_removes_old
    (fromisoformat : string → option DateTime) (now : Z) (fs : FS)
    (agent_name : option string) (days : Z) (scope : string)
    (dry force : bool) (cutoff : Z) (file_path : string) :
  PyTime.minus_days now days = Ok cutoff →
  let after :=
    (Fallback.clean_memories fromisoformat now fs agent_name days scope dry
       force).1 in
  Fallback.memories_of after file_path `sublist_of` Fallback.memories_of fs file_path
  ∧ ∀ m, m ∈ Fallback.memories_of fs file_path →
         Fallback.should_delete fromisoformat cutoff scope m = Ok false →
         m ∈ Fallback.memories_of after file_path.
Proof.
  intros Hcut. cbv zeta.
  destruct (clean_memories_cases fromisoformat now fs agent_name days scope
              dry force) as [(e & _ & ->) | [-> | (c & files & Hc & _ & ->)]];
    [by split | by split |].
  assert (c = cutoff) as -> by congruence. cbn [fst].
  apply (clean_files_only_remove fromisoformat cutoff scope dry files
           (fs, Fallback.initial_results dry) file_path).
Qed.

Lemma X15_clean_only_removes_old_witness :
  let parse := λ s : string,
    if String.eqb s "2024-01-01T00:00:00"
    then Some {| aware := false; micros := 5 |} else None in
  let fs : FS :=
    {[ "alice_memories.jsonl" :=
         [Doc Samples.memory;
          Doc (Fallback.extract_memories "yesterday" "fix: it" "alice" None)] ]} in
  let after :=
    (Fallback.clean_memories parse Samples.some_now fs None 30 "age" false
       false).1 in
  Fallback.memories_of after "alice_memories.jsonl"
    `sublist_of` Fallback.memories_of fs "alice_memories.jsonl"
  ∧ ∀ m, m ∈ Fallback.memories_of fs "alice_memories.jsonl" →
         Fallback.should_delete parse
           (Samples.some_now - 30 * PyTime.MICROS_PER_DAY) "age" m = Ok false →
         m ∈ Fallback.memories_of after "alice_memories.jsonl".
Proof.
  cbv zeta.
  apply (X15_clean_only_removes_old _ Samples.some_now _ None 30 "age" false
           false (Samples.some_now - 30 * PyTime.MICROS_PER_DAY)
           "alice_memories.jsonl").
  reflexivity.
Defined.

Example clean_keeps_undated :
  let parse := λ s : string,
    if String.eqb s "2024-01-01T00:00:00"
    then Some {| aware := false; micros := 5 |} else None in
  let fs : FS :=
    {[ "alice_memories.jsonl" :=
         [Doc Samples.memory;
          Doc (Fallback.extract_memories "yesterday" "fix: it" "alice" None)] ]} in
  Fallback.memories_of
    (Fallback.clean_memories parse Samples.some_now fs None 30 "age" false
       false).1 "alice_memories.jsonl"
  = [Fallback.extract_memories "yesterday" "fix: it" "alice" None].
Proof. vm_compute. reflexivity. Qed.

(** ** [UnifiedMemoryService]: the fallback is final *)

Lemma unified_without_backend (svc : Unified.Service) :
  Unified.active_backend svc = None →
  (∀ fs query agent_name bead_id limit,
     Unified.retrieve_relevant_memories svc fs query agent_name bead_id limit
     = (svc, Fallback.retrieve_relevant_memories fs query agent_name bead_id limit))
  ∧ (∀ max_memories now fs content agent_name bead_id,
       Unified.store_memories max_memories now svc fs content agent_name bead_id
       = (svc, Fallback.store_memories max_memories now fs content agent_name
                 bead_id)).
Proof.
  intros H. split; intros;
    unfold Unified.retrieve_relevant_memories, Unified.store_memories;
    by rewrite H.
Qed.

(** X16: one failure of the Memlayer backend is final.  After a retrieval or
    a store in which the backend raised (either of the two, whatever the
    backend does on the other), the service answers every later retrieval
    and store from the file-based fallback, without calling the backend
    again, and stays in that state. *)
Theorem X16_backend_failure_is_final (svc : Unified.Service)
    (be : Unified.Backend) (fs0 : FS) (max0 : Z)
    (now0 query0 content0 agent0 : string)
    (agent_name0 bead_id0 : option string) (limit0 : Z)
    (svc' : Unified.Service) :
  Unified.active_backend svc = Some be →
  ((∃ e, Unified.backend_retrieve be query0 agent_name0 bead_id0 limit0
         = Raise e)
   ∧ svc' = (Unified.retrieve_relevant_memories svc fs0 query0 agent_name0
               bead_id0 limit0).1)
  ∨ ((∃ e, Unified.backend_store be content0 agent0 bead_id0 = Raise e)
     ∧ svc' = (Unified.store_memories max0 now0 svc fs0 content0 agent0
                 bead_id0).1) →
  (∀ fs query agent_name bead_id limit,
     Unified.retrieve_relevant_memories svc' fs query agent_name bead_id limit
     = (svc', Fallback.retrieve_relevant_memories fs query agent_name bead_id
                limit))
  ∧ (∀ max_memories now fs content agent_name bead_id,
       Unified.store_memories max_memories now svc' fs content agent_name
         bead_id
       = (svc', Fallback.store_memories max_memories now fs content
                  agent_name bead_id)).
Proof.
  intros Hbe Hfailed. apply unified_without_backend.
  destruct Hfailed as [[[e Hr] ->] | [[e Hs] ->]].
  - unfold Unified.retrieve_relevant_memories. by rewrite Hbe, Hr.
  - unfold Unified.store_memories. by rewrite Hbe, Hs.
Qed.

Lemma X16_backend_failure_is_final_witness :
  Unified.active_backend Samples.svc_deaf = Some Samples.deaf_backend
  ∧ Unified.backend_store Samples.deaf_backend "fix: it" "alice" None
    = Ok (JObj [])
  ∧ let svc' :=
      (Unified.retrieve_relevant_memories Samples.svc_deaf Samples.fs_alice
         "q" (Some "alice") None 5).1 in
    (∀ fs query agent_name bead_id limit,
       Unified.retrieve_relevant_memories svc' fs query agent_name bead_id limit
       = (svc', Fallback.retrieve_relevant_memories fs query agent_name bead_id
                  limit))
    ∧ (∀ max_memories now fs content agent_name bead_id,
         Unified.store_memories max_memories now svc' fs content agent_name
           bead_id
         = (svc', Fallback.store_memories max_memories now fs content
                    agent_name bead_id)).
Proof.
  split; [reflexivity |]. split; [reflexivity |].
  apply (X16_backend_failure_is_final Samples.svc_deaf Samples.deaf_backend
           Samples.fs_alice 200 "t" "q" "fix: it" "alice" (Some "alice") None
           5).
  - reflexivity.
  - left. split; [by eexists | reflexivity].
Defined.

Example store_failure_is_final_too :
  Unified.active_backend
    (Unified.store_memories 200 "t" Samples.svc_failing Samples.fs_alice
       "fix: it" "alice" None).1
  = None.
Proof. reflexivity. Qed.

(** ** The two extractors *)

Lemma filter_weaken_sublist {A} (P Q : A → Prop)
    `{∀ x, Decision (P x)} `{∀ x, Decision (Q x)} (l : list A) :
  (∀ x, P x → Q x) → filter P l `sublist_of` filter Q l.
Proof.
  intros HPQ. induction l as [| x l IH]; [constructor |].
  destruct (decide (P x)) as [HP | HP].
  - rewrite filter_cons_True by done.
    rewrite (filter_cons_True Q) by auto. by apply sublist_skip.
  - rewrite filter_cons_False by done.
    destruct (decide (Q x)).
    + rewrite (filter_cons_True Q) by done. by apply sublist_cons.
    + by rewrite (filter_cons_False Q).
Qed.

Lemma decision_keyword_is_pattern (line : string) :
  PyStr.any_in AgentMemory.decision_keywords (PyStr.lower line) = true →
  existsb (λ p, PyStr.search_ignorecase p line) Fallback.decision_patterns = true.
Proof.
  unfold PyStr.any_in, AgentMemory.decision_keywords, Fallback.decision_patterns,
    PyStr.search_ignorecase.
  cbn [existsb]. rewrite !orb_true_iff.
  change (PyStr.lower "decided to") with "decided to".
  change (PyStr.lower "will use") with "will use".
  change (PyStr.lower "chose to") with "chose to".
  change (PyStr.lower "going to") with "going to".
  change (PyStr.lower "plan to") with "plan to".
  tauto.
Qed.

Lemma error_pattern_is_pattern (line pattern : string) :
  pattern ∈ AgentMemory.error_patterns →
  PyStr.contains pattern (PyStr.lower line) = true →
  existsb (λ p, PyStr.search_ignorecase p line) Fallback.error_patterns = true.
Proof.
  unfold AgentMemory.error_patterns, Fallback.error_patterns,
    PyStr.search_ignorecase.
  cbn [existsb]. rewrite !orb_true_iff.
  change (PyStr.lower "error:") with "error:".
  change (PyStr.lower "fix:") with "fix:".
  change (PyStr.lower "bug:") with "bug:".
  change (PyStr.lower "issue:") with "issue:".
  change (PyStr.lower "problem:") with "problem:".
  rewrite !elem_of_cons, elem_of_nil.
  intros [-> | [-> | [-> | [-> | [-> | []]]]]]; tauto.
Qed.

(** X17: the file-based extractor finds what the Memlayer extractor finds.
    For any content, the decisions of the Memlayer extractor are a sublist of
    the decision lines the fallback finds, each of its error lines is among
    the error lines the fallback finds, and the context lines are the same;
    the fallback then stores the first five of each. *)
Theorem X17_fallback_extracts_at_least (content : string)
    (bead_id : option string) :
  let lines := PyStr.split_lines content in
  AgentMemory.extract_decisions lines `sublist_of` Fallback.extract_decisions lines
  ∧ (∀ e, e ∈ AgentMemory.extract_errors lines →
          e ∈ Fallback.extract_errors lines)
  ∧ AgentMemory.extract_context bead_id lines
    = Fallback.extract_context bead_id lines.
Proof.
  cbv zeta. set (lines := PyStr.split_lines content). split; [| split].
  - unfold AgentMemory.extract_decisions, Fallback.extract_decisions,
      Fallback.matching.
    apply (fmap_sublist PyStr.strip). apply filter_weaken_sublist.
    intros line H. apply Is_true_true. apply Is_true_true in H.
    by apply decision_keyword_is_pattern.
  - intros e He. unfold AgentMemory.extract_errors in He.
    apply list_elem_of_In, in_flat_map in He as (line & Hline & He).
    apply in_flat_map in He as (pattern & Hp & He).
    destruct (PyStr.contains pattern (PyStr.lower line)) eqn:Hc; [| destruct He].
    destruct He as [<- | []].
    unfold Fallback.extract_errors, Fallback.matching.
    apply (list_elem_of_fmap_2 PyStr.strip). apply list_elem_of_filter.
    split; [| by apply list_elem_of_In].
    apply Is_true_true.
    apply (error_pattern_is_pattern line pattern); [by apply list_elem_of_In | done].
  - reflexivity.
Qed.

Example extractors_differ :
  let lines := PyStr.split_lines "error: fix: the design is wrong" in
  AgentMemory.extract_errors lines
  = ["error: fix: the design is wrong"; "error: fix: the design is wrong"]
  ∧ Fallback.extract_errors lines = ["error: fix: the design is wrong"]
  ∧ AgentMemory.extract_decisions lines = []
  ∧ Fallback.extract_decisions lines = ["error: fix: the design is wrong"].
Proof. repeat split; reflexivity. Qed.

(** ** [load_env_file] *)

Lemma load_line_grows (env env' : gmap string string) (line : string) :
  Env.load_line env line = Some env' → env ⊆ env'.
Proof.
  unfold Env.load_line.
  destruct (_ || _); [by intros [= <-] |].
  destruct (PyText.split_once _ _) as [[key value] |]; [| by intros [= <-]].
  destruct (negb _ && bool_decide _) eqn:Hset; [| by intros [= <-]].
  destruct (_ || _); [discriminate |]. intros [= <-].
  apply andb_true_iff in Hset as [_ Hfree].
  apply bool_decide_eq_true in Hfree. by apply insert_subseteq.
Qed.

Lemma load_lines_grows (lines : list string) (env : gmap string string) :
  env ⊆ Env.load_lines env lines.
Proof.
  revert env. induction lines as [| line lines IH]; intros env; [done |].
  simpl. destruct (Env.load_line env line) as [env' |] eqn:E; [| done].
  etrans; [by eapply load_line_grows | apply IH].
Qed.

(** A line that was loaded is skipped in every larger environment. *)
Lemma load_line_again (env env' larger : gmap string string) (line : string) :
  Env.load_line env line = Some env' → env' ⊆ larger →
  Env.load_line larger line = Some larger.
Proof.
  unfold Env.load_line.
  destruct (_ || _); [done |].
  destruct (PyText.split_once _ _) as [[key value] |]; [| done].
  set (k := PyStr.strip key).
  destruct (String.eqb k "") eqn:Hk; simpl; [done |].
  intros Hload Hsub.
  assert (is_Some (env' !! k)) as [v Hv].
  { destruct (bool_decide (env !! k = None)) eqn:Hfree.
    - destruct (_ || _); [discriminate |]. injection Hload as <-.
      rewrite lookup_insert_eq. eauto.
    - injection Hload as <-. apply bool_decide_eq_false in Hfree.
      by apply not_eq_None_Some. }
  rewrite bool_decide_eq_false_2; [done |].
  rewrite (lookup_weaken _ _ _ _ Hv Hsub). discriminate.
Qed.

(** X18: [load_env_file] never overrides.  Every variable that is set before
    the call has the same value after it, whatever the file holds; the file
    can only add variables. *)
Theorem X18_env_file_never_overrides (env : gmap string string)
    (file : option (list string)) (key value : string) :
  env !! key = Some value →
  Env.load_env_file env file !! key = Some value.
Proof.
  intros H. destruct file as [lines |]; [| exact H].
  simpl. exact (lookup_weaken _ _ _ _ H (load_lines_grows lines env)).
Qed.

Lemma X18_env_file_never_overrides_witness :
  Env.load_env_file {[ "OPENAI_API_KEY" := "from-shell" ]}
    (Some ["OPENAI_API_KEY=from-file"; "MEMLAYER_STORAGE_PATH=/tmp/m"])
    !! "OPENAI_API_KEY"
  = Some "from-shell".
Proof.
  apply (X18_env_file_never_overrides {[ "OPENAI_API_KEY" := "from-shell" ]}).
  reflexivity.
Defined.

(** X19: loading the same file a second time changes nothing: the first
    definition of a key wins, later ones and the second pass find the key
    set; and a line that ended the first pass with an exception ends the
    second one at the same place. *)
Theorem X19_env_file_load_twice (env : gmap string string)
    (file : option (list string)) :
  Env.load_env_file (Env.load_env_file env file) file
  = Env.load_env_file env file.
Proof.
  destruct file as [lines |]; [| reflexivity]. simpl.
  revert env. induction lines as [| line lines IH]; intros env; [reflexivity |].
  simpl. destruct (Env.load_line env line) as [env' |] eqn:E.
  - rewrite (load_line_again env env' _ line E (load_lines_grows lines env')).
    apply IH.
  - by rewrite E.
Qed.

Example load_env_file_ex :
  Env.load_env_file {[ "HOME" := "/root" ]}
    (Some ["# settings"; ""; "  OPENAI_API_KEY = 'sk-1'  "; "HOME=/tmp";
           "no equals sign"; "OPENAI_API_KEY=sk-2"; "=value"; "A=b=c"])
  = {[ "HOME" := "/root"; "OPENAI_API_KEY" := "sk-1"; "A" := "b=c" ]}.
Proof. vm_compute. reflexivity. Qed.

(** ** [AgentMailClient]: recipients and senders *)

Lemma split_char_nonempty (sep : ascii) (s : string) :
  ∃ p ps, PyText.split_char sep s = p :: ps.
Proof.
  induction s as [| c s (p & ps & IH)]; [by eexists _, _ |].
  simpl. destruct (Ascii.eqb c sep); [by eexists _, _ |].
  rewrite IH. by eexists _, _.
Qed.

Lemma split_char_first (sep : ascii) (a rest : string) :
  PyText.has_char sep a = false →
  PyText.split_char sep (a +:+ String sep rest)
  = a :: PyText.split_char sep rest.
Proof.
  induction a as [| c a IH]; simpl.
  - intros _. by rewrite Ascii.eqb_refl.
  - intros H. apply orb_false_iff in H as [Hc Ha].
    rewrite Hc, (IH Ha). reflexivity.
Qed.

Lemma prefix_append (p s : string) : String.prefix p (p +:+ s) = true.
Proof.
  induction p as [| c p IH]; [by destruct s |].
  simpl. by destruct (ascii_dec c c).
Qed.

Lemma infer_context_agent (agent rest : string) :
  agent ≠ "" → PyText.has_char AgentMail.DASH agent = false →
  AgentMail._infer_to_agents (Some ("CONTEXT-" +:+ agent +:+ "-" +:+ rest))
  = [agent].
Proof.
  intros Hne Hdash. unfold AgentMail._infer_to_agents.
  set (t := "CONTEXT-" +:+ agent +:+ "-" +:+ rest).
  assert (String.eqb t "" = false) as Hempty by reflexivity.
  assert (String.prefix "CONTEXT-" t = true) as Hprefix
    by apply prefix_append.
  assert (t = "CONTEXT" +:+ String AgentMail.DASH
                (agent +:+ String AgentMail.DASH rest)) as Hshape
    by reflexivity.
  cbn [Py.opt_truthy default from_option id]. rewrite Hempty, Hprefix.
  cbn [negb].
  rewrite Hshape.
  rewrite (split_char_first AgentMail.DASH "CONTEXT") by reflexivity.
  rewrite (split_char_first AgentMail.DASH agent rest Hdash).
  destruct (split_char_nonempty AgentMail.DASH rest) as (p & ps & ->).
  destruct (String.eqb_spec agent ""); [done | reflexivity].
Qed.

(** X20: the agent of a context thread is read back.  For a non-empty agent
    name without a hyphen, [_infer_to_agents] on the thread id
    [CONTEXT-<agent>-<anything>] returns exactly that agent, and nothing
    else. *)
Theorem X20_infer_context_agent (agent rest : string) :
  agent ≠ "" → PyText.has_char AgentMail.DASH agent = false →
  AgentMail._infer_to_agents (Some ("CONTEXT-" +:+ agent +:+ "-" +:+ rest))
  = [agent].
Proof. apply infer_context_agent. Qed.

Lemma X20_infer_context_agent_witness :
  AgentMail._infer_to_agents
    (Some ("CONTEXT-" +:+ "BlueLake" +:+ "-" +:+ "2024-01-02-restart"))
  = ["BlueLake"].
Proof.
  apply (X20_infer_context_agent "BlueLake" "2024-01-02-restart").
  - discriminate.
  - reflexivity.
Defined.

Example infer_to_agents_ex :
  AgentMail._infer_to_agents None = []
  ∧ AgentMail._infer_to_agents (Some "") = []
  ∧ AgentMail._infer_to_agents (Some "CONTEXT-BlueLake") = []
  ∧ AgentMail._infer_to_agents (Some "CONTEXT--x") = []
  ∧ AgentMail._infer_to_agents (Some "context-BlueLake-x") = []
  ∧ AgentMail._infer_to_agents (Some "CONTEXT-Blue-Lake-x") = ["Blue"].
Proof. repeat split; reflexivity. Qed.

(** X21: [send_message] never sends to nobody.  When it gets as far as the
    tool call, at least one of [to], [cc] and [bcc] of the arguments is not
    empty; it raises [ValueError] exactly when no recipient was given and
    none can be inferred from the thread.  The sender it announces is
    [from_agent] when that is a valid agent name, and otherwise the first
    recipient in [to], if there is one. *)
Theorem X21_send_message_recipients (thread : option string)
    (subj body from_agent project : string)
    (to_arg cc_arg bcc_arg : option (list string)) (import : string)
    (ack : bool) :
  let r := AgentMail.send_message thread subj body from_agent project
             to_arg cc_arg bcc_arg import ack in
  let to_agents :=
    if AgentMail.nonempty (AgentMail.or_nil to_arg)
    then AgentMail.or_nil to_arg
    else AgentMail._infer_to_agents thread in
  (r = Raise ValueError
   ↔ to_agents = [] ∧ AgentMail.or_nil cc_arg = []
     ∧ AgentMail.or_nil bcc_arg = [])
  ∧ ∀ args, r = Ok args →
      AgentMail.to args = to_agents
      ∧ AgentMail.to args ++ AgentMail.cc args ++ AgentMail.bcc args ≠ []
      ∧ (AgentMail._is_valid_agent_name from_agent = true →
         AgentMail.sender_name args = from_agent)
      ∧ (AgentMail._is_valid_agent_name from_agent = false →
         AgentMail.sender_name args = default from_agent (head to_agents)).
Proof.
  cbv zeta. unfold AgentMail.send_message.
  assert ((if negb (AgentMail.nonempty (AgentMail.or_nil to_arg))
           then AgentMail._infer_to_agents thread
           else AgentMail.or_nil to_arg)
          = (if AgentMail.nonempty (AgentMail.or_nil to_arg)
             then AgentMail.or_nil to_arg
             else AgentMail._infer_to_agents thread)) as ->
    by (by destruct (AgentMail.nonempty _)).
  generalize (if AgentMail.nonempty (AgentMail.or_nil to_arg)
              then AgentMail.or_nil to_arg
              else AgentMail._infer_to_agents thread).
  intros to_agents.
  destruct to_agents as [| a rest];
    destruct (AgentMail.or_nil cc_arg) as [| c cs];
    destruct (AgentMail.or_nil bcc_arg) as [| b bs]; simpl.
  { split; [by split | discriminate]. }
  all: split;
    [ split; [discriminate | intros (H1 & H2 & H3); discriminate] |].
  all: intros args [= <-]; simpl.
  all: split; [reflexivity |]; split; [discriminate |].
  all: split; [by intros -> | by intros ->].
Qed.

Example send_message_ex :
  AgentMail.sender_name <$>
    AgentMail.send_message (Some "CONTEXT-BlueLake-7") "hi" "body" "monitor"
      "/repo" None None None "normal" false
  = Ok "BlueLake"
  ∧ AgentMail.to <$>
      AgentMail.send_message (Some "CONTEXT-BlueLake-7") "hi" "body" "monitor"
        "/repo" None None None "normal" false
    = Ok ["BlueLake"]
  ∧ AgentMail.sender_name <$>
      AgentMail.send_message None "hi" "body" "monitor" "/repo" None
        (Some ["RedStone"]) None "normal" false
    = Ok "monitor"
  ∧ AgentMail.send_message (Some "thread-7") "hi" "body" "GreenHill" "/repo"
      (Some []) None (Some []) "normal" false
    = Raise ValueError.
Proof. repeat split; reflexivity. Qed.

(** ** [fetch_inbox]: normalising the messages *)

Lemma assoc_dict_set_same (key : string) (v : Json)
    (kvs : list (string * Json)) :
  Py.assoc key (AgentMail.dict_set key v kvs) = Some v.
Proof.
  induction kvs as [| [k x] kvs IH]; simpl.
  - by rewrite String.eqb_refl.
  - destruct (String.eqb k key) eqn:E; simpl; by rewrite E.
Qed.

Lemma assoc_dict_set_other (key other : string) (v : Json)
    (kvs : list (string * Json)) :
  other ≠ key →
  Py.assoc other (AgentMail.dict_set key v kvs) = Py.assoc other kvs.
Proof.
  intros Hne. induction kvs as [| [k x] kvs IH]; simpl.
  - destruct (String.eqb_spec key other); [congruence | reflexivity].
  - destruct (String.eqb_spec k key) as [-> | Hk]; simpl.
    + destruct (String.eqb_spec key other); [congruence | reflexivity].
    + destruct (String.eqb k other); [reflexivity | exact IH].
Qed.

Lemma dict_set_present (key : string) (v : Json) (kvs : list (string * Json)) :
  Py.assoc key kvs = Some v → AgentMail.dict_set key v kvs = kvs.
Proof.
  induction kvs as [| [k x] kvs IH]; simpl; [discriminate |].
  destruct (String.eqb_spec k key) as [-> | Hk].
  - by intros [= ->].
  - intros H. by rewrite IH.
Qed.

Lemma sender_of_normalized (kvs : list (string * Json)) :
  AgentMail.sender_of
    (AgentMail.dict_set "from_agent" (AgentMail.sender_of kvs) kvs)
  = AgentMail.sender_of kvs.
Proof.
  unfold AgentMail.sender_of at 1.
  rewrite assoc_dict_set_same, assoc_dict_set_other by discriminate.
  unfold AgentMail.sender_of. by destruct (Py.assoc "from" kvs).
Qed.

Lemma normalize_message_again (kvs : list (string * Json)) :
  let kvs' := AgentMail.dict_set "from_agent" (AgentMail.sender_of kvs) kvs in
  AgentMail.dict_set "from_agent" (AgentMail.sender_of kvs') kvs' = kvs'.
Proof.
  cbv zeta. rewrite sender_of_normalized.
  apply dict_set_present, assoc_dict_set_same.
Qed.

(** X22: the normalisation of [fetch_inbox] is idempotent and total.  Every
    message it returns is an object with a [from_agent] entry, equal to its
    [from] entry when it has one; entries of the tool's answer that are not
    objects are dropped, an answer that is not a list gives no message; and
    normalising the result again returns it unchanged. *)
Theorem X22_normalize_inbox_idempotent (rows : Json) :
  AgentMail.normalize_inbox (JArr (AgentMail.normalize_inbox rows))
  = AgentMail.normalize_inbox rows
  ∧ ∀ msg, msg ∈ AgentMail.normalize_inbox rows →
      ∃ kvs sender,
        msg = JObj kvs
        ∧ Py.assoc "from_agent" kvs = Some sender
        ∧ (∀ f, Py.assoc "from" kvs = Some f → sender = f).
Proof.
  destruct rows as [| | | | msgs |]; try (split; [reflexivity |];
    intros msg H; by apply elem_of_nil in H).
  unfold AgentMail.normalize_inbox. split.
  - induction msgs as [| m msgs IH]; [reflexivity |].
    simpl. rewrite flat_map_app, IH. f_equal.
    destruct m as [| | | | | kvs]; try reflexivity.
    simpl. by rewrite (normalize_message_again kvs).
  - intros msg Hmsg.
    apply list_elem_of_In, in_flat_map in Hmsg as (m & _ & Hm).
    destruct m as [| | | | | kvs]; try (destruct Hm; fail).
    destruct Hm as [<- | []].
    exists (AgentMail.dict_set "from_agent" (AgentMail.sender_of kvs) kvs),
      (AgentMail.sender_of kvs).
    split; [reflexivity |]. split; [apply assoc_dict_set_same |].
    intros f. rewrite assoc_dict_set_other by discriminate.
    unfold AgentMail.sender_of. by intros ->.
Qed.

Example normalize_inbox_ex :
  AgentMail.normalize_inbox
    (JArr [JObj [("id", JNum 1); ("from", JStr "BlueLake")];
           JStr "noise";
           JObj [("from_agent", JStr "RedStone"); ("id", JNum 2)];
           JObj [("id", JNum 3)];
           JObj [("from_agent", JStr "old"); ("from", JStr "GreenHill")]])
  = [JObj [("id", JNum 1); ("from", JStr "BlueLake");
           ("from_agent", JStr "BlueLake")];
     JObj [("from_agent", JStr "RedStone"); ("id", JNum 2)];
     JObj [("id", JNum 3); ("from_agent", JStr "unknown")];
     JObj [("from_agent", JStr "GreenHill"); ("from", JStr "GreenHill")]]
  ∧ AgentMail.normalize_inbox (JObj [("messages", JArr [])]) = [].
Proof. split; reflexivity. Qed.

(** ** [_is_valid_agent_name] *)

Lemma lower_is_not_dash (c : ascii) :
  PyText.is_lower c = true → Ascii.eqb c AgentMail.DASH = false.
Proof.
  destruct (Ascii.eqb_spec c AgentMail.DASH) as [-> |]; [| done].
  discriminate.
Qed.

Lemma upper_is_not_dash (c : ascii) :
  PyText.is_upper c = true → Ascii.eqb c AgentMail.DASH = false.
Proof.
  destruct (Ascii.eqb_spec c AgentMail.DASH) as [-> |]; [| done].
  discriminate.
Qed.

Lemma skip_lower_dash (s : string) :
  PyText.has_char AgentMail.DASH s
  = PyText.has_char AgentMail.DASH (AgentMail.skip_lower s).
Proof.
  induction s as [| c s IH]; [reflexivity |]. simpl.
  destruct (PyText.is_lower c) eqn:Hc; [| reflexivity].
  by rewrite (lower_is_not_dash c Hc).
Qed.

Lemma word_dash (s rest : string) :
  AgentMail.word s = Some rest →
  s ≠ ""
  ∧ PyText.has_char AgentMail.DASH s = PyText.has_char AgentMail.DASH rest.
Proof.
  destruct s as [| c1 [| c2 s]]; try discriminate. simpl.
  destruct (PyText.is_upper c1) eqn:H1; [| discriminate].
  destruct (PyText.is_lower c2) eqn:H2; [| discriminate]. simpl.
  intros [= <-]. split; [discriminate |].
  by rewrite (upper_is_not_dash c1 H1), (lower_is_not_dash c2 H2),
    <- skip_lower_dash.
Qed.

Lemma valid_name_no_dash (name : string) :
  AgentMail._is_valid_agent_name name = true →
  name ≠ "" ∧ PyText.has_char AgentMail.DASH name = false.
Proof.
  unfold AgentMail._is_valid_agent_name.
  destruct (AgentMail.word name) as [rest |] eqn:H1; [| discriminate].
  destruct (AgentMail.word rest) as [rest' |] eqn:H2; [| discriminate].
  intros Hend.
  destruct (word_dash _ _ H1) as [Hne E1].
  destruct (word_dash _ _ H2) as [_ E2].
  split; [exact Hne |]. rewrite E1, E2.
  unfold AgentMail.at_end in Hend. apply orb_true_iff in Hend as [H | H];
    apply String.eqb_eq in H; by subst.
Qed.

(** X23: a valid agent name survives the thread id.  A name that
    [_is_valid_agent_name] accepts is not empty and has no hyphen, so
    [_infer_to_agents] reads it back from any thread id
    [CONTEXT-<name>-<anything>]; and a message sent on such a thread without
    recipients goes to that agent, from [from_agent] when that is a valid
    name and from the agent itself when it is not. *)
Theorem X23_valid_name_round_trip (name rest subj body from_agent project
    import : string) (ack : bool) :
  AgentMail._is_valid_agent_name name = true →
  let thread := Some ("CONTEXT-" +:+ name +:+ "-" +:+ rest) in
  AgentMail._infer_to_agents thread = [name]
  ∧ ∃ args,
      AgentMail.send_message thread subj body from_agent project None None
        None import ack = Ok args
      ∧ AgentMail.to args = [name]
      ∧ AgentMail.sender_name args
        = (if AgentMail._is_valid_agent_name from_agent then from_agent
           else name).
Proof.
  intros Hvalid. cbv zeta.
  destruct (valid_name_no_dash name Hvalid) as [Hne Hdash].
  pose proof (infer_context_agent name rest Hne Hdash) as Hinfer.
  split; [exact Hinfer |].
  unfold AgentMail.send_message. cbn [AgentMail.or_nil default from_option
    AgentMail.nonempty negb].
  rewrite Hinfer. cbn [AgentMail.nonempty negb andb orb].
  eexists. split; [reflexivity |]. split; [reflexivity |].
  simpl. by destruct (AgentMail._is_valid_agent_name from_agent).
Qed.

Lemma X23_valid_name_round_trip_witness :
  let thread := Some ("CONTEXT-" +:+ "BlueLake" +:+ "-" +:+ "7") in
  AgentMail._infer_to_agents thread = ["BlueLake"]
  ∧ ∃ args,
      AgentMail.send_message thread "hi" "body" "monitor" "/repo" None None
        None "normal" false = Ok args
      ∧ AgentMail.to args = ["BlueLake"]
      ∧ AgentMail.sender_name args
        = (if AgentMail._is_valid_agent_name "monitor" then "monitor"
           else "BlueLake").
Proof.
  apply (X23_valid_name_round_trip "BlueLake" "7" "hi" "body" "monitor"
           "/repo" "normal" false).
  reflexivity.
Defined.

Example valid_agent_name_ex :
  AgentMail._is_valid_agent_name "BlueLake" = true
  ∧ AgentMail._is_valid_agent_name "Blue" = false
  ∧ AgentMail._is_valid_agent_name "blueLake" = false
  ∧ AgentMail._is_valid_agent_name "BlueLakeX" = false
  ∧ AgentMail._is_valid_agent_name "BlueLake2" = false
  ∧ AgentMail._is_valid_agent_name "Blue-Lake" = false
  ∧ AgentMail._is_valid_agent_name "BLake" = false
  ∧ AgentMail._is_valid_agent_name "BlueLake
" = true.
Proof. repeat split; reflexivity. Qed.

(** ** [get_agent_summary]: the recent beads *)

Lemma summarize_written_beads (acc : list (string * nat) * list Json)
    (now content agent_name : string) (bead_id : option string) :
  ∃ counts,
    Fallback.summarize_memory acc
      (Fallback.extract_memories now content agent_name bead_id)
    = Ok (counts,
          if Py.opt_truthy bead_id
          then (if existsb (Py.eq_scalar (Py.of_opt bead_id)) acc.2 then acc.2
                else acc.2 ++ [Py.of_opt bead_id])
          else acc.2).
Proof.
  unfold Fallback.summarize_memory. simpl.
  destruct bead_id as [b |]; simpl; [| by eexists].
  destruct (negb (String.eqb b "")); by eexists.
Qed.

Lemma existsb_eq_scalar_str (b : string) (beads : list Json) :
  Forall (λ x, ∃ s, x = JStr s) beads →
  existsb (Py.eq_scalar (JStr b)) beads = true ↔ JStr b ∈ beads.
Proof.
  induction 1 as [| x beads [s ->] _ IH]; simpl.
  - split; [discriminate | intros H; by apply elem_of_nil in H].
  - rewrite orb_true_iff, IH, elem_of_cons. split.
    + intros [H | H]; [left | by right]. apply String.eqb_eq in H. by subst.
    + intros [[= ->] | H]; [left; apply String.eqb_refl | by right].
Qed.

Lemma beads_of_step (seen beads : list Json)
    (now content agent_name : string) (bead_id : option string) :
  Fallback.beads_of seen beads →
  Fallback.beads_of
    (seen ++ [Fallback.extract_memories now content agent_name bead_id])
    (if Py.opt_truthy bead_id
     then (if existsb (Py.eq_scalar (Py.of_opt bead_id)) beads then beads
           else beads ++ [Py.of_opt bead_id])
     else beads).
Proof.
  intros (Hnodup & Hstr & Hiff).
  set (m := Fallback.extract_memories now content agent_name bead_id).
  assert (Py.get m "bead_id" JNull = Ok (Py.of_opt bead_id)) as Hm
    by reflexivity.
  assert (∀ b, (b ≠ "" ∧ ∃ m', m' ∈ seen ++ [m]
                              ∧ Py.get m' "bead_id" JNull = Ok (JStr b))
               ↔ JStr b ∈ beads ∨ (b ≠ "" ∧ Py.of_opt bead_id = JStr b))
    as Hseen.
  { intros b. rewrite Hiff. split.
    - intros (Hb & m' & Hin & Hget). apply elem_of_app in Hin as [Hin | Hin].
      + left. eauto.
      + apply list_elem_of_singleton in Hin. subst m'. right.
        split; [exact Hb | congruence].
    - intros [(Hb & m' & Hin & Hget) | [Hb Hopt]].
      + split; [exact Hb |]. exists m'. split; [| exact Hget].
        apply elem_of_app. by left.
      + split; [exact Hb |]. exists m. split; [| congruence].
        apply elem_of_app. right. by apply list_elem_of_singleton. }
  destruct bead_id as [bead |]; simpl.
  2: { split; [exact Hnodup |]. split; [exact Hstr |]. intros b.
       rewrite Hseen. simpl. split; [by left |].
       intros [H | [_ H]]; [exact H | discriminate]. }
  destruct (String.eqb_spec bead "") as [-> | Hbead]; simpl.
  { split; [exact Hnodup |]. split; [exact Hstr |]. intros b.
    rewrite Hseen. simpl. split; [by left |].
    intros [H | [Hb [= <-]]]; [exact H | done]. }
  destruct (existsb (Py.eq_scalar (JStr bead)) beads) eqn:Hex.
  - apply (existsb_eq_scalar_str bead beads Hstr) in Hex.
    split; [exact Hnodup |]. split; [exact Hstr |]. intros b.
    rewrite Hseen. simpl. split; [by left |].
    intros [H | [_ [= <-]]]; [exact H | exact Hex].
  - assert (JStr bead ∉ beads) as Hnotin.
    { intros Hin. apply (existsb_eq_scalar_str bead beads Hstr) in Hin.
      congruence. }
    split; [| split].
    + apply NoDup_app. split; [exact Hnodup |]. split; [| apply NoDup_singleton].
      intros x Hx Hx'. apply list_elem_of_singleton in Hx'. by subst x.
    + apply Forall_app. split; [exact Hstr |]. constructor; [eauto | constructor].
    + intros b. rewrite Hseen, elem_of_app, list_elem_of_singleton. simpl.
      split.
      * intros [H | [= ->]]; [by left | by right].
      * intros [H | [_ [= <-]]]; [by left | by right].
Qed.

Lemma summarize_all_beads (ms : list Json) :
  Forall (λ m, Fallback.written_by_service (Doc m)) ms →
  ∀ seen acc,
    Fallback.beads_of seen acc.2 →
    ∃ acc', foldM Fallback.summarize_memory acc ms = Ok acc'
            ∧ Fallback.beads_of (seen ++ ms) acc'.2.
Proof.
  induction 1 as [| m ms Hm _ IH]; intros seen acc Hacc.
  - exists acc. by rewrite app_nil_r.
  - destruct Hm as (now & content & agent & bead & [= ->]).
    destruct (summarize_written_beads acc now content agent bead) as [counts E].
    simpl. rewrite E. simpl.
    destruct (IH (seen ++ [Fallback.extract_memories now content agent bead])
                (counts,
                 if Py.opt_truthy bead
                 then (if existsb (Py.eq_scalar (Py.of_opt bead)) acc.2
                       then acc.2 else acc.2 ++ [Py.of_opt bead])
                 else acc.2)) as (acc' & Hfold & Hbeads).
    { by apply beads_of_step. }
    exists acc'. split; [exact Hfold |]. by rewrite <- app_assoc in Hbeads.
Qed.

(** X24: the recent beads of a summary.  For an agent file that the service
    wrote, [get_agent_summary] returns, and its [recent_beads] holds each
    non-empty bead of the 20 most recent memories exactly once and nothing
    else: no bead of an older memory, no [None], no empty string. *)
Theorem X24_summary_recent_beads (fs : FS) (agent_name : string) (hours : Z) :
  Forall Fallback.written_by_service
         (Fallback.entries fs (Fallback.agent_file agent_name)) →
  ∃ s, Fallback.get_agent_summary fs agent_name hours = Ok s
       ∧ NoDup (Fallback.recent_beads s)
       ∧ ∀ x, x ∈ Fallback.recent_beads s
              ↔ ∃ b m, x = JStr b ∧ b ≠ ""
                       ∧ m ∈ PySlice.last_n 20
                               (Fallback.memories_of fs
                                  (Fallback.agent_file agent_name))
                       ∧ Py.get m "bead_id" JNull = Ok (JStr b).
Proof.
  intros Hwritten.
  destruct (written_file_is_dump _ Hwritten) as [Hdump Hms].
  unfold Fallback.memories_of.
  set (ms := read_jsonl_lenient _) in *. clearbody ms.
  assert (Fallback.beads_of [] ([] : list (string * nat), [] : list Json).2)
    as Hinit.
  { split; [constructor |]. split; [constructor |]. intros b. split.
    - intros H. by apply elem_of_nil in H.
    - intros (_ & m & H & _). by apply elem_of_nil in H. }
  destruct (summarize_all_beads _
              (last_n_Forall _ Fallback.SUMMARY_WINDOW _ Hms) [] ([], []) Hinit)
    as (acc & Hfold & Hnodup & Hstr & Hiff).
  assert (∃ s, Fallback.get_agent_summary fs agent_name hours = Ok s
               ∧ Fallback.recent_beads s = acc.2) as (s & Hs & Hbeads).
  { unfold Fallback.get_agent_summary, Fallback.entries in *.
    destruct (fs !! Fallback.agent_file agent_name) as [ls |]; simpl in Hdump.
    - rewrite Hdump, read_jsonl_dump. simpl. rewrite Hfold. simpl. by eexists.
    - destruct ms; [| discriminate].
      unfold PySlice.last_n, PySlice.from in Hfold. rewrite drop_nil in Hfold.
      injection Hfold as <-. by eexists. }
  exists s. split; [exact Hs |]. rewrite Hbeads. split; [exact Hnodup |].
  intros x. simpl in Hiff. split.
  - intros Hx. destruct (proj1 (Forall_forall _ _) Hstr x Hx) as [b ->].
    apply Hiff in Hx as (Hb & m & Hm & Hget). by exists b, m.
  - intros (b & m & -> & Hb & Hm & Hget). apply Hiff. eauto.
Qed.

Lemma X24_summary_recent_beads_witness :
  ∃ s, Fallback.get_agent_summary Samples.fs_fifty "alice" 24 = Ok s
       ∧ NoDup (Fallback.recent_beads s)
       ∧ ∀ x, x ∈ Fallback.recent_beads s
              ↔ ∃ b m, x = JStr b ∧ b ≠ ""
                       ∧ m ∈ PySlice.last_n 20
                               (Fallback.memories_of Samples.fs_fifty
                                  (Fallback.agent_file "alice"))
                       ∧ Py.get m "bead_id" JNull = Ok (JStr b).
Proof.
  apply (X24_summary_recent_beads Samples.fs_fifty "alice" 24).
  change (Fallback.entries Samples.fs_fifty (Fallback.agent_file "alice"))
    with (replicate 50 (Doc Samples.memory)).
  apply Forall_replicate. unfold Samples.memory. by eexists _, _, _, _.
Defined.

(** ** [extract_memories]: line by line *)

Lemma split_lines_nonempty (s : string) :
  ∃ l ls, PyStr.split_lines s = l :: ls.
Proof.
  induction s as [| c s (l & ls & IH)]; [by eexists _, _ |].
  simpl. destruct (Ascii.eqb c "010"); [by eexists _, _ |].
  rewrite IH. by eexists _, _.
Qed.

Lemma split_lines_join (a b : string) :
  PyStr.split_lines (a +:+ String "010" b)
  = PyStr.split_lines a ++ PyStr.split_lines b.
Proof.
  induction a as [| c a IH]; [reflexivity |].
  simpl. rewrite IH.
  destruct (Ascii.eqb c "010"); [reflexivity |].
  by destruct (split_lines_nonempty a) as (l & ls & ->).
Qed.

(** X25: extraction works line by line.  What [extract_memories] finds in
    two texts joined by a newline is, category by category and before the
    caps, what it finds in the first followed by what it finds in the second
    (the bead marker of the context stays at the front); nothing is found
    across the line break and nothing is lost at it. *)
Theorem X25_extraction_is_line_by_line (a b : string)
    (bead_id : option string) :
  let joined := PyStr.split_lines (a +:+ String "010" b) in
  let first := PyStr.split_lines a in
  let second := PyStr.split_lines b in
  Fallback.extract_code_changes joined
  = Fallback.extract_code_changes first ++ Fallback.extract_code_changes second
  ∧ Fallback.extract_decisions joined
    = Fallback.extract_decisions first ++ Fallback.extract_decisions second
  ∧ Fallback.extract_errors joined
    = Fallback.extract_errors first ++ Fallback.extract_errors second
  ∧ Fallback.extract_context bead_id joined
    = Fallback.extract_context bead_id first
      ++ Fallback.extract_context None second.
Proof.
  cbv zeta. rewrite split_lines_join.
  unfold Fallback.extract_code_changes, Fallback.extract_decisions,
    Fallback.extract_errors, Fallback.extract_context, Fallback.matching.
  rewrite flat_map_app, !filter_app, !map_app.
  repeat split. simpl. by rewrite app_assoc.
Qed.

Example extraction_ex :
  Fallback.category
    (Fallback.extract_memories "t"
       ("We decided to keep the cache" +:+ String "010" "  edit: src/cache.py  ")
       "alice" (Some "bd-9"))
    "context"
  = Ok (JArr [JStr "Current bead: bd-9"])
  ∧ Fallback.category
      (Fallback.extract_memories "t"
         ("We decided to keep the cache" +:+ String "010" "  edit: src/cache.py  ")
         "alice" (Some "bd-9"))
      "code_changes"
    = Ok (JArr [JStr "edit: src/cache.py"]).
Proof. split; reflexivity. Qed.

(** ** [clean_memories]: a second run *)

Section SecondRun.

Variable fromisoformat : string → option DateTime.
Variables (cutoff : Z) (scope : string).

Lemma split_memories_kept (ms : list Json) (acc acc' : list Json * nat) :
  foldM (Fallback.split_memory fromisoformat cutoff scope) acc ms = Ok acc' →
  ∃ kept, acc'.1 = acc.1 ++ kept
          ∧ Forall (λ m, Fallback.should_delete fromisoformat cutoff scope m
                         = Ok false) kept.
Proof.
  revert acc. induction ms as [| m ms IH]; intros acc.
  - intros [= <-]. exists []. by rewrite app_nil_r.
  - cbn [foldM].
    destruct (Fallback.split_memory fromisoformat cutoff scope acc m)
      as [acc1 |] eqn:Hstep; simpl; [| discriminate].
    unfold Fallback.split_memory in Hstep.
    destruct (Fallback.should_delete fromisoformat cutoff scope m) as [d |] eqn:Hd;
      simpl in Hstep; [| discriminate].
    injection Hstep as <-. intros Hfold.
    destruct (IH _ Hfold) as (kept & E & Hall). destruct d; simpl in E.
    + by exists kept.
    + exists (m :: kept). split; [by rewrite E, <- app_assoc |].
      by constructor.
Qed.

Lemma split_memories_spared (ms : list Json) (acc : list Json * nat) :
  Forall (λ m, Fallback.should_delete fromisoformat cutoff scope m = Ok false) ms →
  foldM (Fallback.split_memory fromisoformat cutoff scope) acc ms
  = Ok (acc.1 ++ ms, acc.2).
Proof.
  intros Hall. revert acc. induction Hall as [| m ms Hm _ IH]; intros acc.
  - simpl. rewrite app_nil_r. by destruct acc.
  - assert (Fallback.split_memory fromisoformat cutoff scope acc m
            = Ok (acc.1 ++ [m], acc.2)) as Hstep
      by (unfold Fallback.split_memory; by rewrite Hm).
    cbn [foldM]. rewrite Hstep. simpl. rewrite IH. simpl.
    by rewrite <- app_assoc.
Qed.

(** A turn of the real run settles its file and unsettles no other. *)
Lemma clean_file_settles (st : FS * Fallback.Results) (file_path other : string) :
  other = file_path ∨ Fallback.settled fromisoformat cutoff scope st.1 other →
  Fallback.settled fromisoformat cutoff scope
    (Fallback.clean_file fromisoformat false cutoff scope st file_path).1 other.
Proof.
  intros Hother.
  destruct (decide (other = file_path)) as [-> | Hne].
  2: { destruct Hother as [-> | Hs]; [done |].
       unfold Fallback.settled, Fallback.memories_of, Fallback.entries in *.
       by rewrite clean_file_frame. }
  clear Hother.
  unfold Fallback.clean_file, Fallback.settled, Fallback.memories_of,
    Fallback.entries.
  destruct (st.1 !! file_path) as [lines |] eqn:Hfile.
  2: { rewrite Hfile. simpl. by intros ? ? [= <- <-]. }
  destruct (read_jsonl_lenient lines) as [| m0 ms] eqn:Hms.
  { rewrite Hfile. simpl. rewrite Hms. by intros ? ? [= <- <-]. }
  destruct (foldM (Fallback.split_memory fromisoformat cutoff scope) ([], O)
              (m0 :: ms)) as [[filtered deleted] | e] eqn:Hfold.
  2: { simpl. rewrite Hfile. simpl. rewrite Hms, Hfold. discriminate. }
  destruct deleted as [| d]; simpl.
  { rewrite Hfile. simpl. rewrite Hms, Hfold. by intros ? ? [= <- <-]. }
  rewrite lookup_insert_eq. simpl. rewrite read_jsonl_lenient_dump.
  apply split_memories_kept in Hfold as (kept & E & Hall). simpl in E.
  subst filtered. rewrite (split_memories_spared kept ([], O) Hall).
  by intros ? ? [= <- <-].
Qed.

Lemma clean_files_settle (files : list string) (st : FS * Fallback.Results)
    (other : string) :
  other ∈ files ∨ Fallback.settled fromisoformat cutoff scope st.1 other →
  Fallback.settled fromisoformat cutoff scope
    (foldl (Fallback.clean_file fromisoformat false cutoff scope) st files).1
    other.
Proof.
  revert st. induction files as [| p files IH]; intros st Hother.
  - destruct Hother as [H | H]; [by apply elem_of_nil in H | exact H].
  - simpl. apply IH. destruct Hother as [H | H].
    + apply elem_of_cons in H as [-> | H]; [| by left].
      right. apply clean_file_settles. by left.
    + right. apply clean_file_settles. by right.
Qed.

(** On a settled file a turn deletes nothing and writes nothing. *)
Lemma clean_file_settled (dry : bool) (st : FS * Fallback.Results)
    (file_path : string) :
  Fallback.settled fromisoformat cutoff scope st.1 file_path →
  let st' := Fallback.clean_file fromisoformat dry cutoff scope st file_path in
  st'.1 = st.1
  ∧ Fallback.memories_deleted st'.2 = Fallback.memories_deleted st.2.
Proof.
  intros Hs. cbv zeta. unfold Fallback.clean_file.
  unfold Fallback.settled, Fallback.memories_of, Fallback.entries in Hs.
  destruct (st.1 !! file_path) as [lines |]; [| done]. simpl in Hs.
  destruct (read_jsonl_lenient lines) as [| m0 ms]; [done |].
  destruct (foldM _ _ _) as [[filtered deleted] | e]; [| done].
  rewrite (Hs filtered deleted eq_refl). rewrite andb_false_r. simpl.
  by rewrite Nat.add_0_r.
Qed.

Lemma clean_files_settled (dry : bool) (files : list string)
    (st : FS * Fallback.Results) :
  Forall (Fallback.settled fromisoformat cutoff scope st.1) files →
  let st' := foldl (Fallback.clean_file fromisoformat dry cutoff scope) st files in
  st'.1 = st.1
  ∧ Fallback.memories_deleted st'.2 = Fallback.memories_deleted st.2.
Proof.
  cbv zeta. revert st. induction files as [| p files IH]; intros st Hall; [done |].
  apply Forall_cons in Hall as [Hp Hall]. simpl.
  destruct (clean_file_settled dry st p Hp) as [E1 E2].
  destruct (IH (Fallback.clean_file fromisoformat dry cutoff scope st p))
    as [F1 F2]; [by rewrite E1 |].
  by rewrite F1, F2.
Qed.

(** Cleaning creates no file and removes none. *)
Lemma clean_files_same_files (dry : bool) (files : list string)
    (st : FS * Fallback.Results) (other : string) :
  is_Some ((foldl (Fallback.clean_file fromisoformat dry cutoff scope) st files).1
             !! other)
  ↔ is_Some (st.1 !! other).
Proof.
  revert st. induction files as [| p files IH]; intros st; [done |].
  simpl. rewrite IH. unfold Fallback.clean_file.
  destruct (st.1 !! p) as [lines |] eqn:Hp; [| done].
  destruct (read_jsonl_lenient lines); [done |].
  destruct (foldM _ _ _) as [[filtered deleted] | e]; [| done].
  destruct (negb dry && _); [| done]. simpl.
  destruct (decide (other = p)) as [-> | Hne].
  - rewrite lookup_insert_eq, Hp. split; eauto.
  - by rewrite lookup_insert_ne.
Qed.

End SecondRun.

Lemma glob_elem (fs : FS) (p : string) :
  p ∈ Fallback.glob fs
  ↔ is_Some (fs !! p) ∧ PyStr.endswith p "_memories.jsonl" = true.
Proof.
  unfold Fallback.glob. rewrite list_elem_of_filter, Is_true_true.
  rewrite list_elem_of_fmap. split.
  - intros [He ([k v] & -> & Hkv)]. apply elem_of_map_to_list in Hkv.
    split; [| exact He]. simpl. eauto.
  - intros [[v Hv] He]. split; [exact He |]. exists (p, v).
    split; [reflexivity |]. by apply elem_of_map_to_list.
Qed.

(** X26: a second cleaning run finds nothing to do.  Run [clean_memories]
    for real and then again with the same clock, age, scope and agent
    filter: the second run leaves the directory as the first left it and
    reports no deleted memory. *)
Theorem X26_clean_twice (fromisoformat : string → option DateTime)
    (now : Z) (fs : FS) (agent_name : option string) (days : Z)
    (scope : string) (force force' : bool) :
  let first :=
    Fallback.clean_memories fromisoformat now fs agent_name days scope false
      force in
  let second :=
    Fallback.clean_memories fromisoformat now first.1 agent_name days scope
      false force' in
  second.1 = first.1
  ∧ ∀ r, second.2 = Ok r → Fallback.memories_deleted r = 0%nat.
Proof.
  cbv zeta.
  assert (∀ fs', Fallback.clean_memories fromisoformat now fs' agent_name days
                   scope false force'
                 = Fallback.clean_memories fromisoformat now fs' agent_name
                     days scope false force) as Hforce by reflexivity.
  destruct (clean_memories_cases fromisoformat now fs agent_name days scope
              false force)
    as [(e & _ & E1) | [E1 | (cutoff & files & Hcut & Hfiles & E1)]].
  - rewrite E1. cbn [fst]. rewrite Hforce, E1. split; [reflexivity | discriminate].
  - rewrite E1. cbn [fst]. rewrite Hforce, E1.
    split; [reflexivity |]. by intros r [= <-].
  - rewrite E1. cbn [fst].
    set (fs1 := (foldl (Fallback.clean_file fromisoformat false cutoff scope)
                       (fs, Fallback.initial_results false) files).1).
    destruct (clean_memories_cases fromisoformat now fs1 agent_name days scope
                false force')
      as [(e & _ & E2) | [E2 | (cutoff2 & files2 & Hcut2 & Hfiles2 & E2)]];
      rewrite E2; cbn [fst snd].
    + split; [reflexivity | discriminate].
    + split; [reflexivity |]. by intros r [= <-].
    + assert (cutoff2 = cutoff) as -> by congruence.
      assert (Forall (Fallback.settled fromisoformat cutoff scope fs1) files2)
        as Hsettled.
      { apply Forall_forall. intros p Hp.
        apply (clean_files_settle fromisoformat cutoff scope files
                 (fs, Fallback.initial_results false) p).
        left.
        destruct Hfiles as [[Hagent ->] | [Hagent ->]];
          destruct Hfiles2 as [[Hagent2 ->] | [Hagent2 ->]];
          try congruence; try exact Hp.
        apply glob_elem in Hp as [Hsome Hend]. apply glob_elem.
        split; [| exact Hend].
        by apply (clean_files_same_files fromisoformat cutoff scope false
                    (Fallback.glob fs) (fs, Fallback.initial_results false) p). }
      destruct (clean_files_settled fromisoformat cutoff scope false files2
                  (fs1, Fallback.initial_results false) Hsettled) as [F1 F2].
      split; [exact F1 |]. intros r [= <-]. by rewrite F2.
Qed.

Example clean_twice_ex :
  let first :=
    Fallback.clean_memories Samples.parse_const Samples.some_now
      Samples.fs_alice None 30 "all" false true in
  let second :=
    Fallback.clean_memories Samples.parse_const Samples.some_now first.1 None
      30 "all" false true in
  Fallback.counts <$> first.2 = Ok (1, 1, 1, 0)%nat
  ∧ Fallback.counts <$> second.2 = Ok (0, 0, 0, 0)%nat
  ∧ second.1 = first.1.
Proof. repeat split; vm_compute; reflexivity. Qed.
